(** * Expense tracker: the spreadsheet loader and the duplicate-receipt detector

    A shallow embedding of [ExpenseAnalytics.get_expenses_dataframe] and
    [ExpenseAnalytics.detect_duplicates] of [analytics_engine.py].

    Conventions of the embedding.
    - A Python [str] is a [string]: the UTF-8 bytes of the text.  [str.lower]
      and [str.strip] are embedded on the ASCII range (letters [A-Z], the ASCII
      white space of [str.isspace]); bytes above 127 are left as they are.
    - A [float] is a rational [Q], the value of the double; [NaN] and a
      missing value are [None].  The float operations whose rounding can
      decide a comparison of the source (the difference of two amounts, the
      share of a budget that is spent) are parameters of the development
      and are not assumed to be exact; comparisons and [abs] are exact on
      doubles.  Sums of amounts and the remainder of a budget are taken
      exactly; infinities are outside the embedding.
    - A timestamp is a [Z]: nanoseconds since the Unix epoch; [NaT] is [None].
    - The library calls [pandas.to_numeric], [pandas.to_datetime],
      [fuzz.ratio], the [.2f] format and [strftime] are parameters of the
      development (Class [Library]); a concrete, computable instance of
      each is given in Module [Instances] and used for the examples. *)

From Stdlib Require Import List String Ascii Bool Arith ZArith QArith Qabs Lia.
From Stdlib Require Import DecimalString.
Import ListNotations.
Close Scope Q_scope.
Open Scope string_scope.
Open Scope list_scope.
Open Scope nat_scope.

(** ** Python [str] methods *)
Module PyStr.

(** [bool(s)]: a string is truthy when it is not empty. *)
Definition truthy (s : string) : bool :=
  match s with EmptyString => false | String _ _ => true end.

Definition lower_char (c : ascii) : ascii :=
  let n := nat_of_ascii c in
  if (65 <=? n) && (n <=? 90) then ascii_of_nat (n + 32) else c.

(** [s.lower()] *)
Fixpoint lower (s : string) : string :=
  match s with
  | EmptyString => EmptyString
  | String c s' => String (lower_char c) (lower s')
  end.

(** The ASCII characters for which [str.isspace] holds. *)
Definition isspace (c : ascii) : bool :=
  let n := nat_of_ascii c in
  ((9 <=? n) && (n <=? 13)) || ((28 <=? n) && (n <=? 32)).

(** [s.lstrip()] *)
Fixpoint lstrip (s : string) : string :=
  match s with
  | EmptyString => EmptyString
  | String c s' => if isspace c then lstrip s' else s
  end.

(** [s.rstrip()] *)
Fixpoint rstrip (s : string) : string :=
  match s with
  | EmptyString => EmptyString
  | String c s' =>
      match rstrip s' with
      | EmptyString => if isspace c then EmptyString else String c EmptyString
      | r => String c r
      end
  end.

(** [s.strip()] *)
Definition strip (s : string) : string := rstrip (lstrip s).

(** [s.startswith(p)] *)
Fixpoint startswith (p s : string) : bool :=
  match p, s with
  | EmptyString, _ => true
  | String a p', String b s' => Ascii.eqb a b && startswith p' s'
  | String _ _, EmptyString => false
  end.

(** [sub in s] *)
Fixpoint contains (sub s : string) : bool :=
  startswith sub s ||
  match s with
  | EmptyString => false
  | String _ s' => contains sub s'
  end.

(** [sep.join(parts)] *)
Fixpoint join (sep : string) (parts : list string) : string :=
  match parts with
  | [] => EmptyString
  | [p] => p
  | p :: ps => p ++ sep ++ join sep ps
  end.

(** [s.replace(old, new)] for a non-empty [old]: the occurrences of [old]
    are replaced from the left, without overlap.  [skip] counts the
    characters of a matched occurrence still to be passed over. *)
Fixpoint replace_from (old new : string) (skip : nat) (s : string) : string :=
  match s with
  | EmptyString => EmptyString
  | String c s' =>
      match skip with
      | S k => replace_from old new k s'
      | O =>
          if startswith old s
          then new ++ replace_from old new (String.length old - 1) s'
          else String c (replace_from old new 0 s')
      end
  end.

Definition replace (old new s : string) : string :=
  match old with
  | EmptyString => s
  | String _ _ => replace_from old new 0 s
  end.

(** [str(n)] for a non-negative integer. *)
Definition of_nat (n : nat) : string := NilEmpty.string_of_uint (Nat.to_uint n).

End PyStr.

(** The peso sign U+20B1, as its three UTF-8 bytes. *)
Definition peso : string :=
  String (ascii_of_nat 226) (String (ascii_of_nat 130) (String (ascii_of_nat 177) EmptyString)).


(** ** Python [dict]: insertion-ordered, one entry per key *)
Module PyDict.
Section Dict.
Context {V : Type}.

Definition dict : Type := list (string * V).

(** [d[k] = v]: an existing key keeps its place and takes the new value,
    a new key goes to the end. *)
Fixpoint set (k : string) (v : V) (d : dict) : dict :=
  match d with
  | [] => [(k, v)]
  | (k', v') :: d' =>
      if String.eqb k k' then (k, v) :: d' else (k', v') :: set k v d'
  end.

(** [d.get(k)] *)
Fixpoint get (k : string) (d : dict) : option V :=
  match d with
  | [] => None
  | (k', v') :: d' => if String.eqb k k' then Some v' else get k d'
  end.

Definition keys (d : dict) : list string := map fst d.
Definition values (d : dict) : list V := map snd d.
End Dict.
Arguments dict : clear implicits.
End PyDict.

(** ** The part of pandas the loader uses *)
Module Pandas.

(** A cell of a frame: the text read from the sheet, a float ([None] is
    NaN) or a timestamp ([None] is NaT). *)
Inductive value : Type :=
| VStr (s : string)
| VNum (x : option Q)
| VDate (t : option Z).

(** A row of a frame: column label to cell, in column order. *)
Definition row : Type := PyDict.dict value.

Record DataFrame : Type := { columns : list string; records : list row }.

(** [pd.DataFrame(records)] for a list of dicts with the same keys. *)
Definition from_records (rs : list (PyDict.dict string)) : DataFrame :=
  {| columns := match rs with [] => [] | r :: _ => PyDict.keys r end;
     records := map (map (fun kv => (fst kv, VStr (snd kv)))) rs |}.

(** [name in df.columns] *)
Definition has_column (name : string) (df : DataFrame) : bool :=
  existsb (String.eqb name) (columns df).

(** [row[name]]; a label that a row lacks reads as NaN. *)
Definition cell (name : string) (r : row) : value :=
  match PyDict.get name r with Some v => v | None => VNum None end.

(** [df[name]] *)
Definition column (name : string) (df : DataFrame) : list value :=
  map (cell name) (records df).

(** [df[name] = vals] *)
Definition assign (name : string) (vals : list value) (df : DataFrame) : DataFrame :=
  {| columns := if has_column name df then columns df else columns df ++ [name];
     records := map (fun rv => PyDict.set name (snd rv) (fst rv))
                    (combine (records df) vals) |}.

(** [pd.isna] *)
Definition isna (v : value) : bool :=
  match v with
  | VStr _ => false
  | VNum x => match x with None => true | Some _ => false end
  | VDate t => match t with None => true | Some _ => false end
  end.

(** [df[mask]] with the mask computed row by row *)
Definition select (keep : row -> bool) (df : DataFrame) : DataFrame :=
  {| columns := columns df; records := filter keep (records df) |}.

(** [df.dropna(subset=[name])] *)
Definition dropna (name : string) (df : DataFrame) : DataFrame :=
  select (fun r => negb (isna (cell name r))) df.

(** [df.tail(n)] *)
Definition tail (n : nat) (df : DataFrame) : DataFrame :=
  {| columns := columns df;
     records := skipn (List.length (records df) - n) (records df) |}.

(** [df.empty] *)
Definition empty (df : DataFrame) : bool :=
  match records df with [] => true | _ :: _ => false end.

(** [series.notna().sum() > 0] *)
Definition any_notna {A : Type} (xs : list (option A)) : bool :=
  existsb (fun x => match x with Some _ => true | None => false end) xs.

End Pandas.
Import Pandas.

(** ** The library calls left as parameters *)
Class Library : Type := {
  (** [pd.to_numeric(s, errors='coerce')] on one string cell *)
  to_numeric : string -> option Q;
  (** [pd.to_datetime(series, errors='coerce', dayfirst=True)] on a whole
      column; [None] when the call raises *)
  to_datetime : list value -> option (list (option Z));
  (** [fuzz.ratio(a, b)] *)
  ratio : string -> string -> Z;
  (** [f"{x:.2f}"] *)
  format_2f : Q -> string;
  (** [t.strftime('%Y-%m-%d %H:%M')] *)
  strftime : Z -> string;
  (** [x - y], [x / y] and [x * y] on floats, each with its rounding *)
  float_sub : Q -> Q -> Q;
  float_div : Q -> Q -> Q;
  float_mul : Q -> Q -> Q;
  (** the difference of two doubles is zero only when they are equal *)
  float_sub_zero : forall x y : Q, (float_sub x y == 0)%Q <-> (x == y)%Q
}.

(** ** [ExpenseAnalytics.get_expenses_dataframe] *)
Section Loader.
Context {L : Library}.

Definition header_keywords : list string :=
  ["date"; "amount"; "store"; "merchant"; "category"].

Definition default_headers : list string :=
  ["Date"; "Store/Merchant"; "Amount"; "Category"; "Payment Method"; "Notes";
   "Receipt Date"; "Added Date"].

(** The test of the header scan on one row: at least three cells, and a
    keyword inside the lower-cased cells joined by a space. *)
Definition is_header_row (row : list string) : bool :=
  (3 <=? List.length row) &&
  (let row_text := PyStr.join " " (map PyStr.lower row) in
   existsb (fun keyword => PyStr.contains keyword row_text) header_keywords).

(** The header test as a proposition: at least three cells, and one of the five
    tokens inside the lower-cased cells joined by a space. *)
Definition header_like (row : list string) : Prop :=
  3 <= List.length row
  /\ exists token,
       In token ["date"; "amount"; "store"; "merchant"; "category"]
       /\ PyStr.contains token (PyStr.join " " (map PyStr.lower row)) = true.

(** The [for i, row in enumerate(all_values)] loop with its [break]. *)
Fixpoint find_header_row (i : nat) (rows : list (list string)) : option nat :=
  match rows with
  | [] => None
  | row :: rest => if is_header_row row then Some i else find_header_row (S i) rest
  end.

(** [headers] and [data_start_index]. *)
Definition headers_and_start (all_values : list (list string)) : list string * nat :=
  match find_header_row 0 all_values with
  | None => (default_headers, 0)
  | Some header_row_index => (nth header_row_index all_values [], header_row_index + 1)
  end.

(** [all_values[data_start_index:]], or [None] where the source returns
    [None] because no row follows the header. *)
Definition data_rows_of (all_values : list (list string)) : option (list (list string)) :=
  let data_start_index := snd (headers_and_start all_values) in
  if data_start_index <? List.length all_values
  then Some (skipn data_start_index all_values)
  else None.

(** [any(cell.strip() for cell in row)] *)
Definition row_has_text (row : list string) : bool :=
  existsb (fun cell => PyStr.truthy (PyStr.strip cell)) row.

(** The inner loop over [enumerate(headers)] that fills one [record]. *)
Definition make_record (headers : list string) (row : list string) : PyDict.dict string :=
  fold_left
    (fun record ih =>
       let col_idx := fst ih in
       let header := snd ih in
       PyDict.set header
         (if col_idx <? List.length row then nth col_idx row "" else "") record)
    (combine (seq 0 (List.length headers)) headers) [].

(** [any(str(value).strip() for value in record.values())] *)
Definition record_has_data (record : PyDict.dict string) : bool :=
  existsb (fun v => PyStr.truthy (PyStr.strip v)) (PyDict.values record).

Definition build_records (headers : list string) (data_rows : list (list string))
  : list (PyDict.dict string) :=
  filter record_has_data (map (make_record headers) data_rows).

(** A column of the freshly built frame, whose cells are all strings. *)
Definition column_text (col : string) (records : list (PyDict.dict string)) : list string :=
  map (fun r => match PyDict.get col r with Some s => s | None => "" end) records.

(** [bool(col)] for a column label that may be [None]. *)
Definition found (col : option string) : bool :=
  match col with Some c => PyStr.truthy c | None => false end.

(** The two searches for [amount_col]: a label containing [amount], else
    the first column with a value that [to_numeric] accepts. *)
Definition amount_by_header (cols : list string) : option string :=
  find (fun col => PyStr.contains "amount" (PyStr.lower col)) cols.

Definition amount_by_values (cols : list string) (records : list (PyDict.dict string))
  : option string :=
  find (fun col => any_notna (map to_numeric (column_text col records))) cols.

Definition find_amount_col (cols : list string) (records : list (PyDict.dict string))
  : option string :=
  let amount_col := amount_by_header cols in
  if negb (found amount_col) then amount_by_values cols records else amount_col.

(** The chain of [.str.replace] calls on one amount cell. *)
Definition strip_currency (s : string) : string :=
  PyStr.replace "$" ""
    (PyStr.replace "P" ""
       (PyStr.replace "PHP" ""
          (PyStr.replace peso ""
             (PyStr.replace "," "" s)))).

(** One amount cell after cleaning and [pd.to_numeric(..., errors='coerce')]. *)
Definition normalize_amount (s : string) : option Q :=
  to_numeric (strip_currency s).

(** The amount step: [None] where the source returns [None] for want of
    an amount column. *)
Definition add_amount (records : list (PyDict.dict string)) (df : DataFrame)
  : option DataFrame :=
  let amount_col := find_amount_col (columns df) records in
  if found amount_col then
    match amount_col with
    | Some c =>
        let cleaned := map strip_currency (column_text c records) in
        let df := assign "Amount" (map VStr cleaned) df in
        Some (assign "Amount" (map (fun s => VNum (to_numeric s)) cleaned) df)
    | None => None
    end
  else None.

(** The label test of the date search. *)
Definition is_date_label (col : string) : bool :=
  let col_lower := PyStr.lower col in
  PyStr.contains "date" col_lower
  && negb (PyStr.contains "added" col_lower)
  && negb (PyStr.contains "receipt" col_lower).

(** The fallback loop: the first column on which [to_datetime] neither
    raises nor yields only NaT. *)
Fixpoint date_like (cols : list string) (df : DataFrame) : option (list (option Z)) :=
  match cols with
  | [] => None
  | col :: rest =>
      match to_datetime (column col df) with
      | Some temp_dates =>
          if any_notna temp_dates then Some temp_dates else date_like rest df
      | None => date_like rest df
      end
  end.

(** The date step; the outer [None] is an exception raised by
    [to_datetime] on the labelled column, which the source turns into a
    failed load. *)
Definition add_date (df : DataFrame) : option DataFrame :=
  let date_col := find is_date_label (columns df) in
  if found date_col then
    match date_col with
    | Some c =>
        match to_datetime (column c df) with
        | Some dates => Some (assign "Date" (map VDate dates) df)
        | None => None
        end
    | None => None
    end
  else
    match date_like (columns df) df with
    | Some temp_dates => Some (assign "Date" (map VDate temp_dates) df)
    | None => Some df
    end.

(** A date role is identified: by a label that passes the label test, or
    by a column on which the fallback parse yields a timestamp. *)
Definition date_role_found (df : DataFrame) : Prop :=
  (exists col, In col (columns df) /\ is_date_label col = true)
  \/ (exists col dates,
        In col (columns df)
        /\ to_datetime (column col df) = Some dates /\ any_notna dates = true).

Definition is_category_label (col : string) : bool :=
  PyStr.contains "category" (PyStr.lower col).

Definition is_merchant_label (col : string) : bool :=
  let col_lower := PyStr.lower col in
  existsb (fun word => PyStr.contains word col_lower) ["store"; "merchant"; "vendor"].

Definition add_category (df : DataFrame) : DataFrame :=
  match find is_category_label (columns df) with
  | Some category_col => assign "Category" (column category_col df) df
  | None => df
  end.

Definition add_merchant (df : DataFrame) : DataFrame :=
  match find is_merchant_label (columns df) with
  | Some merchant_col => assign "Store/Merchant" (column merchant_col df) df
  | None => df
  end.

(** [row['Amount'] > 0] *)
Definition amount_positive (r : row) : bool :=
  match cell "Amount" r with
  | VNum (Some q) => match Qcompare 0 q with Lt => true | _ => false end
  | _ => false
  end.

(** The filters that close the load. *)
Definition drop_invalid (df : DataFrame) : DataFrame :=
  let df := dropna "Amount" df in
  let df := select amount_positive df in
  if has_column "Date" df then dropna "Date" df else df.

(** The test the closing filters apply to one row; [dated] tells whether
    the frame has a [Date] column. *)
Definition survives (dated : bool) (r : row) : bool :=
  amount_positive r && (if dated then negb (isna (cell "Date" r)) else true).

(** The first part of the function, up to [records]: the dicts built from
    the data rows, or [None] where the source returns [None]. *)
Definition raw_records (all_values : list (list string))
  : option (list (PyDict.dict string)) :=
  match all_values with
  | [] => None
  | _ :: _ =>
      match data_rows_of all_values with
      | None => None
      | Some data_rows =>
          let headers := fst (headers_and_start all_values) in
          match filter row_has_text data_rows with
          | [] => None
          | (_ :: _) as data_rows =>
              match build_records headers data_rows with
              | [] => None
              | (_ :: _) as records => Some records
              end
          end
      end
  end.

(** The middle part: the frame with its [Amount], [Date], [Category] and
    [Store/Merchant] columns set, before the closing filters. *)
Definition typed_frame (records : list (PyDict.dict string)) : option DataFrame :=
  let df := from_records records in
  match add_amount records df with
  | None => None
  | Some df =>
      match add_date df with
      | None => None
      | Some df =>
          let df := add_category df in
          let df := add_merchant df in
          Some df
      end
  end.

(** [get_expenses_dataframe], as a function of [all_values], the rows that
    [self.sheets.sheet.get_all_values()] returned.  [None] is the [None] of
    the source: no rows, no data rows, no amount column, an exception, or
    nothing left after the filters. *)
Definition get_expenses_dataframe (all_values : list (list string)) : option DataFrame :=
  match raw_records all_values with
  | None => None
  | Some records =>
      match typed_frame records with
      | None => None
      | Some df =>
          let df := drop_invalid df in
          if empty df then None else Some df
      end
  end.

End Loader.

(** ** [ExpenseAnalytics.detect_duplicates] *)
Section Detector.
Context {L : Library}.

(** The [new_expense] dict, read with [.get]: a key may be absent. *)
Record new_expense : Type := {
  total_amount : option Q;
  merchant : option string
}.

(** One entry of [duplicates_found]. *)
Record duplicate_info : Type := {
  amount : Q;
  info_merchant : string;
  date : string;
  reason : string;
  similarity : Z
}.

Definition nl : string := String (ascii_of_nat 10) EmptyString.

(** Thirty days in nanoseconds. *)
Definition thirty_days : Z := (30 * 86400 * 1000000000)%Z.

(** [row['Date'] >= t0] *)
Definition dated_since (t0 : Z) (r : row) : bool :=
  match cell "Date" r with
  | VDate (Some t) => (t0 <=? t)%Z
  | _ => false
  end.

(** The frame the new expense is compared with. *)
Definition recent_expenses (now : Z) (df : DataFrame) : DataFrame :=
  if has_column "Date" df then
    let thirty_days_ago := (now - thirty_days)%Z in
    select (dated_since thirty_days_ago) df
  else tail 20 df.

(** The trailing thirty-day window as the specification words it: a date
    from thirty days before [now] up to [now]. *)
Definition in_trailing_window (now : Z) (r : row) : bool :=
  match cell "Date" r with
  | VDate (Some t) => ((now - thirty_days <=? t) && (t <=? now))%Z
  | _ => false
  end.

Definition forty_days : Z := (40 * 86400 * 1000000000)%Z.

(** [str(v)]; only string cells reach it (the merchant column is never
    one of the two typed columns [Amount] and [Date]). *)
Definition py_str (v : value) : string :=
  match v with
  | VStr s => s
  | VNum _ => "nan"
  | VDate _ => "NaT"
  end.

(** [expense['Amount']] as a float; NaN is [None]. *)
Definition amount_of (expense : row) : option Q :=
  match cell "Amount" expense with
  | VNum x => x
  | _ => None
  end.

(** [abs(expense['Amount'] - new_amount)] *)
Definition amount_diff_of (expense : row) (new_amount : Q) : option Q :=
  match amount_of expense with
  | Some a => Some (Qabs (float_sub a new_amount))
  | None => None
  end.

(** Comparisons of a float that may be NaN: false on NaN. *)
Definition is_zero (d : option Q) : bool :=
  match d with Some q => Qeq_bool q 0 | None => false end.

Definition at_most_two (d : option Q) : bool :=
  match d with Some q => Qle_bool q 2 | None => false end.

(** The merchant text of a stored row, lower-cased and stripped. *)
Definition expense_merchant_of (merchant_col : option string) (expense : row) : string :=
  if found merchant_col then
    match merchant_col with
    | Some c =>
        match PyDict.get c expense with
        | Some v => PyStr.strip (PyStr.lower (py_str v))
        | None => ""
        end
    | None => ""
    end
  else "".

(** [merchant_similarity] *)
Definition merchant_similarity_of (new_merchant expense_merchant : string) : Z :=
  if PyStr.truthy new_merchant && PyStr.truthy expense_merchant
  then ratio expense_merchant new_merchant
  else 0%Z.

(** The [if]/[elif] chain: [(is_duplicate, match_reason)]. *)
Definition classify (amount_diff : option Q) (merchant_similarity : Z)
           (new_merchant expense_merchant : string) : bool * string :=
  if is_zero amount_diff && (70 <=? merchant_similarity)%Z then
    (true, "Exact amount + similar merchant")
  else if at_most_two amount_diff && (85 <=? merchant_similarity)%Z then
    (true, "Very close amount + very similar merchant")
  else if is_zero amount_diff
          && (negb (PyStr.truthy new_merchant) || negb (PyStr.truthy expense_merchant)) then
    (true, "Exact amount (merchant info missing)")
  else (false, "").

(** [expense_date] *)
Definition expense_date_of (expense : row) : string :=
  match PyDict.get "Date" expense with
  | Some (VDate (Some t)) => strftime t
  | Some _ => "NaT"
  | None => "Unknown date"
  end.

(** The body of the loop over [recent_expenses.iterrows()]: the entry
    appended to [duplicates_found], if any. *)
Definition examine (new_amount : Q) (new_merchant : string)
           (merchant_col : option string) (expense : row) : option duplicate_info :=
  let amount_diff := amount_diff_of expense new_amount in
  let expense_merchant := expense_merchant_of merchant_col expense in
  let merchant_similarity := merchant_similarity_of new_merchant expense_merchant in
  let verdict := classify amount_diff merchant_similarity new_merchant expense_merchant in
  if fst verdict then
    match amount_of expense with
    | Some a =>
        Some {| amount := a;
                info_merchant :=
                  if PyStr.truthy expense_merchant then expense_merchant else "Unknown";
                date := expense_date_of expense;
                reason := snd verdict;
                similarity := merchant_similarity |}
    | None => None
    end
  else None.

(** [duplicates_found] after the loop. *)
Fixpoint scan (new_amount : Q) (new_merchant : string) (merchant_col : option string)
         (pool : list row) : list duplicate_info :=
  match pool with
  | [] => []
  | expense :: rest =>
      match examine new_amount new_merchant merchant_col expense with
      | Some info => info :: scan new_amount new_merchant merchant_col rest
      | None => scan new_amount new_merchant merchant_col rest
      end
  end.

(** The row is classified as a duplicate. *)
Definition qualifies (new_amount : Q) (new_merchant : string) (merchant_col : option string)
           (expense : row) : bool :=
  match examine new_amount new_merchant merchant_col expense with
  | Some _ => true
  | None => false
  end.

(** [max(items, key=lambda x: x['similarity'])]: a later item replaces the
    running maximum only when its key is strictly larger. *)
Fixpoint max_from (best : duplicate_info) (rest : list duplicate_info) : duplicate_info :=
  match rest with
  | [] => best
  | d :: rest' =>
      max_from (if (similarity best <? similarity d)%Z then d else best) rest'
  end.

Definition or_unknown (s : string) : string :=
  if PyStr.truthy s then s else "Unknown".

(** The warning text before the closing note: the four lines that
    [message] is built from, each appended in turn. *)
Definition message_head (new_amount : Q) (new_merchant : string)
           (best_match : duplicate_info) : string :=
  let message := ("⚠️ Possible duplicate receipt found!" ++ nl ++ nl)%string in
  let message :=
    (message ++ ("**New Receipt:** ₱" ++ format_2f new_amount ++ " at "
                 ++ or_unknown new_merchant ++ nl))%string in
  let message :=
    (message ++ ("**Existing:** ₱" ++ format_2f (amount best_match) ++ " at "
                 ++ info_merchant best_match ++ " on " ++ date best_match ++ nl))%string in
  (message ++ ("**Reason:** " ++ reason best_match ++ nl))%string.

(** [f"**Note:** Found {count} similar receipts"] *)
Definition message_note (count : nat) : string :=
  "**Note:** Found " ++ PyStr.of_nat count ++ " similar receipts".

(** The warning text, with the note when more than one entry was found. *)
Definition duplicate_message (new_amount : Q) (new_merchant : string)
           (best_match : duplicate_info) (count : nat) : string :=
  let message := message_head new_amount new_merchant best_match in
  if 1 <? count then (message ++ message_note count)%string else message.

Definition new_amount_of (e : new_expense) : Q :=
  match total_amount e with Some a => a | None => 0%Q end.

Definition new_merchant_of (e : new_expense) : string :=
  PyStr.strip (PyStr.lower (match merchant e with Some m => m | None => "" end)).

(** The merchant column as [detect_duplicates] looks it up again. *)
Definition merchant_col_of (df : DataFrame) : option string :=
  find is_merchant_label (columns df).

(** [duplicates_found] for a loaded frame. *)
Definition duplicates_in (now : Z) (df : DataFrame) (e : new_expense) : list duplicate_info :=
  scan (new_amount_of e) (new_merchant_of e) (merchant_col_of df)
       (records (recent_expenses now df)).

(** [detect_duplicates], with the clock reading [now] and the sheet
    content [all_values] as arguments. *)
Definition detect_duplicates (now : Z) (all_values : list (list string)) (e : new_expense)
  : bool * string :=
  match get_expenses_dataframe all_values with
  | None => (false, "No duplicates found - first expense!")
  | Some df =>
      if empty df then (false, "No duplicates found - first expense!")
      else if negb (has_column "Amount" df) then
        (false, "Cannot check duplicates - missing amount data")
      else
        match duplicates_in now df e with
        | [] => (false, "No duplicates detected")
        | first :: rest =>
            let best_match := max_from first rest in
            (true, duplicate_message (new_amount_of e) (new_merchant_of e) best_match
                     (List.length (first :: rest)))
        end
  end.

End Detector.

(** ** A computable instance of the library calls

    Each function below follows the documented behaviour of the call it
    stands for on the inputs the examples use: plain decimal literals,
    dates of four, two and two digits, short ASCII merchant names.  The general
    theorems do not depend on it. *)
Module Instances.

Definition digit (c : ascii) : option Z :=
  let n := nat_of_ascii c in
  if (48 <=? n) && (n <=? 57) then Some (Z.of_nat (n - 48)) else None.

(** Reads a run of digits: its value, its length and the rest. *)
Fixpoint read_digits (acc : Z) (count : nat) (s : string) : Z * nat * string :=
  match s with
  | EmptyString => (acc, count, s)
  | String c s' =>
      match digit c with
      | Some d => read_digits (10 * acc + d)%Z (S count) s'
      | None => (acc, count, s)
      end
  end.

Definition unsigned_decimal (s : string) : option Q :=
  match read_digits 0 0 s with
  | (i, ni, rest) =>
      match rest with
      | EmptyString => if 0 <? ni then Some (Qmake i 1) else None
      | String c rest' =>
          if Ascii.eqb c "."%char then
            match read_digits 0 0 rest' with
            | (f, nf, EmptyString) =>
                if 0 <? ni + nf
                then Some (Qred (Qmake (i * 10 ^ Z.of_nat nf + f)
                                       (Z.to_pos (10 ^ Z.of_nat nf))))
                else None
            | (_, _, String _ _) => None
            end
          else None
      end
  end.

(** Decimal literals: optional sign, digits, optional fraction; anything
    else is NaN. *)
Definition decimal_to_numeric (s : string) : option Q :=
  match PyStr.strip s with
  | EmptyString => None
  | String c s' =>
      if Ascii.eqb c "-"%char then option_map Qopp (unsigned_decimal s')
      else if Ascii.eqb c "+"%char then unsigned_decimal s'
      else unsigned_decimal (String c s')
  end.

(** Days since 1970-01-01 of a date of the proleptic Gregorian calendar. *)
Definition days_from_civil (y m d : Z) : Z :=
  let y := if (m <=? 2)%Z then (y - 1)%Z else y in
  let era := (y / 400)%Z in
  let yoe := (y - era * 400)%Z in
  let mp := if (2 <? m)%Z then (m - 3)%Z else (m + 9)%Z in
  let doy := ((153 * mp + 2) / 5 + d - 1)%Z in
  let doe := (yoe * 365 + yoe / 4 - yoe / 100 + doy)%Z in
  (era * 146097 + doe - 719468)%Z.

Definition civil_from_days (z : Z) : Z * Z * Z :=
  let z := (z + 719468)%Z in
  let era := (z / 146097)%Z in
  let doe := (z - era * 146097)%Z in
  let yoe := ((doe - doe / 1460 + doe / 36524 - doe / 146096) / 365)%Z in
  let doy := (doe - (365 * yoe + yoe / 4 - yoe / 100))%Z in
  let mp := ((5 * doy + 2) / 153)%Z in
  let d := (doy - (153 * mp + 2) / 5 + 1)%Z in
  let m := if (mp <? 10)%Z then (mp + 3)%Z else (mp - 9)%Z in
  let y := (yoe + era * 400)%Z in
  ((if (m <=? 2)%Z then y + 1 else y)%Z, m, d).

Definition ns_per_day : Z := (86400 * 1000000000)%Z.

Definition expect_dash (s : string) : option string :=
  match s with
  | String c s' => if Ascii.eqb c "-"%char then Some s' else None
  | EmptyString => None
  end.

(** A date written as year, day and month, [YYYY-DD-MM]: the reading that
    [dayfirst=True] gives to three groups of digits that begin with the
    year.  The date must exist; the result is midnight of that day.  The
    sheets of the examples use days whose number is that of their month,
    which read the same with the month first. *)
Definition dayfirst_date (s : string) : option Z :=
  match read_digits 0 0 (PyStr.strip s) with
  | (y, ny, rest) =>
      match expect_dash rest with
      | None => None
      | Some rest =>
          match read_digits 0 0 rest with
          | (d, nd, rest) =>
              match expect_dash rest with
              | None => None
              | Some rest =>
                  match read_digits 0 0 rest with
                  | (m, nm, EmptyString) =>
                      let days := days_from_civil y m d in
                      if (ny =? 4) && (nm =? 2) && (nd =? 2)
                         && (1 <=? m)%Z && (m <=? 12)%Z && (1 <=? d)%Z
                         && (let '(y', m', d') := civil_from_days days in
                             (y' =? y)%Z && (m' =? m)%Z && (d' =? d)%Z)
                      then Some (days * ns_per_day)%Z
                      else None
                  | (_, _, String _ _) => None
                  end
              end
          end
      end
  end.

(** A float is read as nanoseconds since the epoch and is NaT outside
    the 64-bit range. *)
Definition epoch_ns (q : Q) : option Z :=
  let n := (Qnum q / Zpos (Qden q))%Z in
  if (- 2 ^ 63 <? n)%Z && (n <? 2 ^ 63)%Z then Some n else None.

Definition datetime_of (v : value) : option Z :=
  match v with
  | VStr s => dayfirst_date s
  | VNum (Some q) => epoch_ns q
  | VNum None => None
  | VDate t => t
  end.

Definition dayfirst_to_datetime (xs : list value) : option (list (option Z)) :=
  Some (map datetime_of xs).

(** Length of a longest common subsequence. *)
Fixpoint lcs (a b : list ascii) : nat :=
  match a with
  | [] => 0
  | x :: a' =>
      (fix inner (b : list ascii) : nat :=
         match b with
         | [] => 0
         | y :: b' =>
             if Ascii.eqb x y then S (lcs a' b')
             else Nat.max (lcs a' b) (inner b')
         end) b
  end.

(** [100 * 2 * lcs / (len a + len b)], rounded to the nearest integer. *)
Definition lcs_ratio (a b : string) : Z :=
  let total := String.length a + String.length b in
  if (String.length a =? 0) || (String.length b =? 0) then 0%Z
  else
    let m := lcs (list_ascii_of_string a) (list_ascii_of_string b) in
    Z.of_nat ((2 * (200 * m) + total) / (2 * total)).

Definition pad2 (n : Z) : string :=
  (if (n <? 10)%Z then "0" else "") ++ PyStr.of_nat (Z.to_nat n).

(** Two decimals, rounded half up on the magnitude. *)
Definition two_decimals (q : Q) : string :=
  let num := Z.abs (Qnum q) in
  let den := Zpos (Qden q) in
  let cents := ((2 * 100 * num + den) / (2 * den))%Z in
  (if (Qnum q <? 0)%Z && (0 <? cents)%Z then "-" else "")
  ++ PyStr.of_nat (Z.to_nat (cents / 100)) ++ "." ++ pad2 (cents mod 100).

(** [%Y-%m-%d %H:%M] *)
Definition minute_text (t : Z) : string :=
  let days := (t / ns_per_day)%Z in
  let secs := ((t mod ns_per_day) / 1000000000)%Z in
  let '(y, m, d) := civil_from_days days in
  PyStr.of_nat (Z.to_nat y) ++ "-" ++ pad2 m ++ "-" ++ pad2 d ++ " "
  ++ pad2 (secs / 3600) ++ ":" ++ pad2 ((secs mod 3600) / 60).

(** The float operations are taken exactly; the examples use amounts on
    which the operations on doubles are exact or far from a threshold. *)
Definition reference : Library :=
  {| to_numeric := decimal_to_numeric;
     to_datetime := dayfirst_to_datetime;
     ratio := lcs_ratio;
     format_2f := two_decimals;
     strftime := minute_text;
     float_sub := Qminus;
     float_div := Qdiv;
     float_mul := Qmult;
     float_sub_zero := fun x y =>
       conj (fun H : (x - y == 0)%Q =>
               proj1 (Qplus_inj_r x y (- y)%Q)
                     (Qeq_trans _ _ _ H (Qeq_sym _ _ (Qplus_opp_r y))))
            (fun H : (x == y)%Q =>
               Qeq_trans _ _ _ (proj2 (Qplus_inj_r x y (- y)%Q) H) (Qplus_opp_r y)) |}.

End Instances.

(** ** Sheets used in the examples

    The dates of the sheets are days whose number is that of their month
    (1 January, 12 December): they name the same day whether the day or
    the month is read first. *)
Module Examples.

(** A junk row, a header row and one data row. *)
Definition header_skip : list (list string) :=
  [["foo"; "bar"];
   ["Date"; "Amount"; "Category"];
   ["2024-01-01"; "12.50"; "Food"]].

(** A sheet with a missing amount, a zero amount and a bad date. *)
Definition mixed : list (list string) :=
  [["Date"; "Store"; "Amount"];
   ["2024-01-01"; "Jollibee"; "P150.00"];
   ["2024-02-02"; "Shell"; ""];
   ["2024-03-03"; "SM Grocery"; "0"];
   ["someday"; "Mercury"; "20"];
   ["2024-05-05"; "7-Eleven"; "$35.25"]].

(** No label with [amount] and no numeric cell. *)
Definition no_amount : list (list string) :=
  [["Date"; "Store"; "Category"];
   ["2024-05-05"; "Jollibee"; "Food"]].

(** No row passes the header test. *)
Definition headerless : list (list string) :=
  [["2024-05-05"; "Jollibee"; "150"];
   ["2024-06-06"; "Shell"; "900"]].

(** Midnight of 2024-01-01, as a clock reading. *)
Definition new_year_2024 : Z := 1704067200000000000%Z.

(** One row dated two months after [new_year_2024]. *)
Definition future_dated : list (list string) :=
  [["Date"; "Store"; "Amount"];
   ["2024-03-03"; "Jollibee"; "100"]].

(** Receipts of 12 December 2023, of which the first three match a new
    receipt of 100.00 at Jollibee, and before them one of 11 November 2023,
    which is older than thirty days on [new_year_2024]. *)
Definition receipts : list (list string) :=
  [["Date"; "Store"; "Amount"];
   ["2023-11-11"; "Jollibee"; "100"];
   ["2023-12-12"; "Jolibee"; "100.00"];
   ["2023-12-12"; "jollibee "; "P100"];
   ["2023-12-12"; "JOLLIBEE"; "101.50"];
   ["2023-12-12"; "Shell"; "900"];
   ["2023-12-12"; ""; "100"]].

Definition jollibee_100 : new_expense :=
  {| total_amount := Some (Qmake 100 1); merchant := Some "Jollibee" |}.

(** The frame loaded from [receipts]. *)
Definition receipts_frame : DataFrame :=
  Eval vm_compute in
    match @get_expenses_dataframe Instances.reference receipts with
    | Some df => df
    | None => {| columns := []; records := [] |}
    end.

(** The record loaded from the third data row of [receipts]. *)
Definition third_receipt : row :=
  [("Date", VDate (Some 1702339200000000000%Z));
   ("Store", VStr "jollibee ");
   ("Amount", VNum (Some (Qmake 100 1)));
   ("Store/Merchant", VStr "jollibee ")].

End Examples.

(** ** [ExpenseSheets.get_recent_expenses] of [sheets_manager.py] *)
Section Sheets.

(** [xs[start:]] for a Python integer [start]: a negative [start] counts
    from the end, and both ends are clamped. *)
Definition slice_from {A : Type} (start : Z) (xs : list A) : list A :=
  let n := Z.of_nat (List.length xs) in
  let start := if (start <? 0)%Z then Z.max (start + n) 0 else Z.min start n in
  skipn (Z.to_nat start) xs.

(** [get_recent_expenses(limit)], as a function of the rows that
    [get_all_values()] returned: the first row gives the labels, and each
    of the last [limit] rows with at least three cells gives a record. *)
Definition get_recent_expenses (all_values : list (list string)) (limit : Z)
  : list (PyDict.dict string) :=
  match all_values with
  | [] => []
  | headers :: data_rows =>
      if List.length all_values <? 2 then []
      else
        map (make_record headers)
            (filter (fun row => 3 <=? List.length row) (slice_from (- limit) data_rows))
  end.

End Sheets.

(** ** [ExpenseAnalytics.get_budget_status] *)
Section BudgetStatus.
Context {L : Library}.

(** The dict that [get_budget_status] returns. *)
Record budget_status : Type := {
  status : string;
  budget : Q;
  spent : Q;
  remaining : Q;
  percentage : Q
}.

(** The day of the month of a timestamp. *)
Definition day_of_month (t : Z) : Z :=
  match Instances.civil_from_days (t / Instances.ns_per_day) with
  | (_, _, d) => d
  end.

(** [now.replace(day=1)]: the same time of day on the first of the month. *)
Definition replace_day_1 (now : Z) : Z :=
  (now - (day_of_month now - 1) * Instances.ns_per_day)%Z.

(** [frame['Amount'].sum()]: NaN is skipped. *)
Definition amount_sum (rows : list row) : Q :=
  fold_left
    (fun acc r => match amount_of r with Some a => (acc + a)%Q | None => acc end)
    rows 0%Q.

(** [monthly_data]: the rows dated since the first of the month, or all
    rows when there is none or when the frame has no [Date] column. *)
Definition monthly_data_of (now : Z) (df : DataFrame) : DataFrame :=
  if has_column "Date" df then
    let current_month_start := replace_day_1 now in
    let monthly_data := select (dated_since current_month_start) df in
    if empty monthly_data then df else monthly_data
  else df.

(** The [if]/[elif] chain on [percentage_used]. *)
Definition status_of (percentage_used : Q) : string :=
  if Qle_bool 100 percentage_used then "🚨 OVER BUDGET!"
  else if Qle_bool 80 percentage_used then "⚠️ Approaching Limit"
  else if Qle_bool 60 percentage_used then "📊 On Track"
  else "✅ Under Budget".

(** [monthly_budget > 0] *)
Definition positive (q : Q) : bool :=
  match Qcompare 0 q with Lt => true | _ => false end.

Definition get_budget_status (now : Z) (all_values : list (list string))
           (monthly_budget : Q) : budget_status :=
  let no_data :=
    {| status := "📊 No data yet"; budget := monthly_budget; spent := 0%Q;
       remaining := monthly_budget; percentage := 0%Q |} in
  match get_expenses_dataframe all_values with
  | None => no_data
  | Some df =>
      if empty df || negb (has_column "Amount" df) then no_data
      else
        let monthly_data := monthly_data_of now df in
        let spent :=
          if negb (empty monthly_data) then amount_sum (records monthly_data)
          else 0%Q in
        let remaining := (monthly_budget - spent)%Q in
        let percentage_used :=
          if positive monthly_budget
          then float_mul (float_div spent monthly_budget) 100%Q
          else 0%Q in
        {| status := status_of percentage_used; budget := monthly_budget;
           spent := spent; remaining := remaining; percentage := percentage_used |}
  end.

End BudgetStatus.

(** ** [BudgetManager] of [budget_manager.py]

    The state is the [budgets] dict; the file behind it is not part of the
    embedding, so [set_budget] and [set_total_budget] are given as the
    change they make to [budgets] (the boolean they return is that of
    [save_budgets]). *)
Module Budget.

(** The value stored for one budget. *)
Record budget_info : Type := {
  amount : Q;
  period : string;
  created : string
}.

(** The dict stored for one user: the keys [categories] and [total] may
    each be absent. *)
Record user_budgets : Type := {
  categories : option (PyDict.dict budget_info);
  total : option budget_info
}.

Definition budgets : Type := PyDict.dict user_budgets.

Definition no_budgets : user_budgets := {| categories := None; total := None |}.

(** [budgets[user_id]] after [if user_id not in self.budgets: ... = {}]. *)
Definition user_entry (b : budgets) (user_id : string) : user_budgets :=
  match PyDict.get user_id b with Some u => u | None => no_budgets end.

(** [set_budget(user_id, category, amount, period)]; [created] is
    [datetime.now().isoformat()]. *)
Definition set_budget (b : budgets) (user_id category : string) (amount : Q)
           (period created : string) : budgets :=
  let u := user_entry b user_id in
  let cats := match categories u with Some cs => cs | None => [] end in
  let info := {| amount := amount; period := period; created := created |} in
  PyDict.set user_id
    {| categories := Some (PyDict.set category info cats); total := total u |} b.

(** [set_total_budget(user_id, amount, period)] *)
Definition set_total_budget (b : budgets) (user_id : string) (amount : Q)
           (period created : string) : budgets :=
  let u := user_entry b user_id in
  let info := {| amount := amount; period := period; created := created |} in
  PyDict.set user_id {| categories := categories u; total := Some info |} b.

(** [get_budget(user_id, category)]: a [category] that is [None] or empty
    asks for the total. *)
Definition get_budget (b : budgets) (user_id : string) (category : option string)
  : option budget_info :=
  match PyDict.get user_id b with
  | None => None
  | Some u =>
      if found category then
        match category with
        | Some c => PyDict.get c (match categories u with Some cs => cs | None => [] end)
        | None => None
        end
      else total u
  end.

(** [get_all_budgets(user_id)] *)
Definition get_all_budgets (b : budgets) (user_id : string) : user_budgets :=
  match PyDict.get user_id b with Some u => u | None => no_budgets end.

Section Alerts.
Context {L : Library}.
(** [f"{x:.1f}"] *)
Variable format_1f : Q -> string.

(** [(spent / budget_amount) * 100]; [None] is the [ZeroDivisionError] of
    a zero [budget_amount]. *)
Definition percentage_of (spent budget_amount : Q) : option Q :=
  if Qeq_bool budget_amount 0 then None
  else Some (float_mul (float_div spent budget_amount) 100%Q).

Definition total_alert (percentage spent budget_amount : Q) : list string :=
  if Qle_bool 90 percentage then
    [("🚨 Total budget alert: " ++ format_1f percentage ++ "% used (₱"
      ++ format_2f spent ++ "/₱" ++ format_2f budget_amount ++ ")")%string]
  else if Qle_bool 75 percentage then
    [("⚠️ Budget warning: " ++ format_1f percentage ++ "% used (₱"
      ++ format_2f spent ++ "/₱" ++ format_2f budget_amount ++ ")")%string]
  else [].

Definition category_alert (category : string) (percentage : Q) : list string :=
  if Qle_bool 90 percentage then
    [("🚨 " ++ category ++ " budget alert: " ++ format_1f percentage ++ "% used")%string]
  else if Qle_bool 75 percentage then
    [("⚠️ " ++ category ++ " budget warning: " ++ format_1f percentage ++ "% used")%string]
  else [].

(** The loop over [category_budgets.items()], with [alerts] as it stands;
    [None] when a division raises. *)
Fixpoint category_alerts (category_budgets : PyDict.dict budget_info)
         (current_spending : PyDict.dict Q) (alerts : list string)
  : option (list string) :=
  match category_budgets with
  | [] => Some alerts
  | (category, budget_info) :: rest =>
      match PyDict.get category current_spending with
      | Some spent =>
          match percentage_of spent (amount budget_info) with
          | Some percentage =>
              category_alerts rest current_spending
                              (alerts ++ category_alert category percentage)
          | None => None
          end
      | None => category_alerts rest current_spending alerts
      end
  end.

(** [check_budget_alerts(user_id, current_spending)]; [None] when the call
    raises [ZeroDivisionError]. *)
Definition check_budget_alerts (b : budgets) (user_id : string)
           (current_spending : PyDict.dict Q) : option (list string) :=
  let user_budgets := get_all_budgets b user_id in
  let spent_total :=
    match PyDict.get "total" current_spending with Some s => s | None => 0%Q end in
  let after_total :=
    match total user_budgets with
    | Some total_budget =>
        if positive spent_total then
          match percentage_of spent_total (amount total_budget) with
          | Some percentage =>
              Some (total_alert percentage spent_total (amount total_budget))
          | None => None
          end
        else Some []
    | None => Some []
    end in
  match after_total with
  | None => None
  | Some alerts =>
      category_alerts
        (match categories user_budgets with Some cs => cs | None => [] end)
        current_spending alerts
  end.

End Alerts.
End Budget.

(** ** [ReceiptOCR.classify_category] of [ocr_processor.py] *)
Section Categories.

(** [any(word in text_lower for word in words)] *)
Definition any_word (words : list string) (text_lower : string) : bool :=
  existsb (fun word => PyStr.contains word text_lower) words.

Definition food_words : list string :=
  ["restaurant"; "cafe"; "pizza"; "burger"; "food"; "dining"; "kitchen"; "grill";
   "deli"; "bakery"].

Definition grocery_words : list string :=
  ["grocery"; "market"; "supermarket"; "walmart"; "target"; "costco"; "kroger";
   "safeway"].

Definition transport_words : list string :=
  ["gas"; "fuel"; "station"; "shell"; "chevron"; "exxon"; "bp"; "uber"; "lyft"].

Definition shopping_words : list string :=
  ["store"; "shop"; "mall"; "amazon"; "clothing"; "apparel"].

Definition entertainment_words : list string :=
  ["movie"; "theater"; "cinema"; "game"; "entertainment"; "bar"; "club"].

Definition health_words : list string :=
  ["pharmacy"; "cvs"; "walgreens"; "medical"; "doctor"; "hospital"].

Definition classify_category (text merchant : string) : string :=
  let text_lower := PyStr.lower (text ++ " " ++ merchant) in
  if any_word food_words text_lower then "Food & Dining"
  else if any_word grocery_words text_lower then "Groceries"
  else if any_word transport_words text_lower then "Transportation"
  else if any_word shopping_words text_lower then "Shopping"
  else if any_word entertainment_words text_lower then "Entertainment"
  else if any_word health_words text_lower then "Health & Medical"
  else "General".

End Categories.

(** ** Values for the examples of the budget functions *)
Module BudgetExamples.

(** One decimal, rounded half up on the magnitude: an instance of the
    [.1f] format. *)
Definition one_decimal (q : Q) : string :=
  let num := Z.abs (Qnum q) in
  let den := Zpos (Qden q) in
  let tenths := ((2 * 10 * num + den) / (2 * den))%Z in
  ((if (Qnum q <? 0)%Z && (0 <? tenths)%Z then "-" else "")
   ++ PyStr.of_nat (Z.to_nat (tenths / 10)) ++ "."
   ++ PyStr.of_nat (Z.to_nat (tenths mod 10)))%string.

(** A user with a total budget of 1500 and two category budgets. *)
Definition budgets_of_42 : Budget.budgets :=
  Budget.set_budget
    (Budget.set_budget
       (Budget.set_total_budget [] "42" (Qmake 1500 1) "monthly" "2024-01-01T09:00:00")
       "42" "food" (Qmake 400 1) "monthly" "2024-01-01T09:01:00")
    "42" "transport" (Qmake 0 1) "monthly" "2024-01-01T09:02:00".

End BudgetExamples.

(** * Properties *)

Example instances_sanity :
  Instances.decimal_to_numeric "12.50" = Some (Qmake 25 2)
  /\ Instances.decimal_to_numeric "1234.50" = Some (Qmake 2469 2)
  /\ Instances.decimal_to_numeric "abc" = None
  /\ Instances.decimal_to_numeric "" = None
  /\ Instances.decimal_to_numeric "1.2.3" = None
  /\ Instances.dayfirst_date "1970-02-01" = Some 86400000000000%Z
  /\ Instances.dayfirst_date "2024-30-02" = None
  /\ Instances.dayfirst_date "2023-12-20" = None
  /\ Instances.dayfirst_date "2023-12-12" = Some 1702339200000000000%Z
  /\ Instances.minute_text 1704067200000000000%Z = "2024-01-01 00:00"
  /\ Instances.dayfirst_date "2024-01-01" = Some 1704067200000000000%Z
  /\ Instances.lcs_ratio "jollibee" "jollibee" = 100%Z
  /\ Instances.lcs_ratio "shell" "shall" = 80%Z
  /\ Instances.two_decimals (Qmake 25 2) = "12.50"
  /\ Instances.two_decimals (Qmake 100 1) = "100.00".
Proof. repeat split; vm_compute; reflexivity. Qed.
Example peso_literal : peso = "₱".
Proof. reflexivity. Qed.

Example str_methods :
  PyStr.lower "Store/Merchant" = "store/merchant"
  /\ PyStr.strip "  jollibee  " = "jollibee"
  /\ PyStr.replace "PHP" "" "PHP 1PHPP" = " 1P"
  /\ PyStr.contains "amount" "total amount (php)" = true
  /\ PyStr.join " " ["a"; "b"; "c"] = "a b c"
  /\ PyStr.of_nat 12 = "12".
Proof. repeat split; reflexivity. Qed.

Section Properties.
Context {L : Library}.

(** *** Frames *)

Lemma select_records keep df r :
  In r (records (select keep df)) <-> In r (records df) /\ keep r = true.
Proof. unfold select; simpl. apply filter_In. Qed.

Lemma amount_positive_spec r :
  amount_positive r = true <->
  exists q, cell "Amount" r = VNum (Some q) /\ (0 < q)%Q.
Proof.
  unfold amount_positive. split.
  - destruct (cell "Amount" r) as [s | [q |] | t]; try discriminate.
    destruct (Qcompare 0 q) eqn:E; try discriminate.
    intros _. exists q. split; [reflexivity | now apply Qlt_alt].
  - intros (q & -> & Hq). apply Qlt_alt in Hq.
    change (Qcompare 0 q = Lt) in Hq. now rewrite Hq.
Qed.

Lemma drop_invalid_columns df : columns (drop_invalid df) = columns df.
Proof.
  unfold drop_invalid.
  destruct (has_column "Date" (select amount_positive (dropna "Amount" df))); reflexivity.
Qed.

Lemma amount_positive_notna r :
  amount_positive r = true -> negb (isna (cell "Amount" r)) = true.
Proof.
  intros H. apply amount_positive_spec in H. destruct H as (q & -> & _). reflexivity.
Qed.

Lemma filter_filter {A : Type} (f g : A -> bool) (l : list A) :
  filter f (filter g l) = filter (fun x => g x && f x) l.
Proof.
  induction l as [| x l IH]; simpl; [reflexivity |].
  destruct (g x); simpl; [destruct (f x) |]; now rewrite IH.
Qed.

Lemma drop_invalid_records df :
  records (drop_invalid df) = filter (survives (has_column "Date" df)) (records df).
Proof.
  unfold drop_invalid, dropna.
  change (has_column "Date" (select amount_positive
            (select (fun r => negb (isna (cell "Amount" r))) df)))
    with (has_column "Date" df).
  destruct (has_column "Date" df); unfold select; simpl;
    rewrite ?filter_filter; apply filter_ext; intros r; unfold survives;
    destruct (amount_positive r) eqn:E; simpl;
    try (rewrite (amount_positive_notna r E)); simpl;
    rewrite ?andb_false_r, ?andb_true_r; reflexivity.
Qed.

Lemma has_column_assign n m vals df :
  has_column n (assign m vals df) = has_column n df || String.eqb n m.
Proof.
  unfold assign, has_column at 1. simpl.
  destruct (has_column m df) eqn:Hm.
  - destruct (String.eqb n m) eqn:E.
    + apply String.eqb_eq in E. subst n. fold (has_column m df).
      now rewrite Hm.
    + now rewrite orb_false_r.
  - rewrite existsb_app. simpl. now rewrite orb_false_r.
Qed.

Lemma has_column_assign_keeps n m vals df :
  has_column n df = true -> has_column n (assign m vals df) = true.
Proof. intros H. now rewrite has_column_assign, H. Qed.

Lemma dict_get_set_same {V : Type} k (v : V) d : PyDict.get k (PyDict.set k v d) = Some v.
Proof.
  induction d as [| [k' v'] d IH]; simpl.
  - now rewrite String.eqb_refl.
  - destruct (String.eqb k k') eqn:E; simpl; rewrite ?String.eqb_refl, ?E; auto.
Qed.

Lemma dict_get_set_other {V : Type} k k' (v : V) d :
  String.eqb k k' = false -> PyDict.get k (PyDict.set k' v d) = PyDict.get k d.
Proof.
  intros Hne. induction d as [| [k0 v0] d IH]; simpl.
  - now rewrite Hne.
  - destruct (String.eqb k' k0) eqn:E; simpl.
    + apply String.eqb_eq in E. subst k0. now rewrite Hne.
    + destruct (String.eqb k k0); auto.
Qed.

(** A row of [df[name] = vals] is a row of [df] with one cell set. *)
Lemma assign_records name vals df r' :
  In r' (records (assign name vals df)) ->
  exists r v, In r (records df) /\ In v vals /\ r' = PyDict.set name v r.
Proof.
  unfold assign; simpl. intros H. apply in_map_iff in H.
  destruct H as ([r v] & <- & Hin). exists r, v. simpl.
  split; [now apply in_combine_l in Hin |].
  split; [now apply in_combine_r in Hin | reflexivity].
Qed.

Lemma assign_column name vals df :
  List.length vals = List.length (records df) ->
  column name (assign name vals df) = vals.
Proof.
  unfold column, assign; simpl. generalize (records df) as rs.
  induction vals as [| v vals IH]; intros [| r rs] Hlen; simpl in *; try discriminate.
  - reflexivity.
  - unfold cell at 1. rewrite dict_get_set_same. f_equal. apply IH. lia.
Qed.

Lemma assign_length name vals df :
  List.length vals = List.length (records df) ->
  List.length (records (assign name vals df)) = List.length (records df).
Proof.
  intros H. unfold assign; simpl. rewrite length_map, length_combine. lia.
Qed.

(** *** The stages of a successful load *)

Lemma load_stages rows df :
  get_expenses_dataframe rows = Some df ->
  exists recs typed,
    raw_records rows = Some recs /\ typed_frame recs = Some typed
    /\ df = drop_invalid typed /\ records df <> [].
Proof.
  unfold get_expenses_dataframe.
  destruct (raw_records rows) as [recs |] eqn:Hraw; [| discriminate].
  destruct (typed_frame recs) as [typed |] eqn:Htyped; [| discriminate].
  destruct (empty (drop_invalid typed)) eqn:E; [discriminate |].
  intros H; injection H as <-. exists recs, typed.
  split; [reflexivity |]. split; [exact Htyped |]. split; [reflexivity |].
  unfold empty in E. destruct (records (drop_invalid typed)); [discriminate E | discriminate].
Qed.

(** C3. Every record of a successful load has a numeric amount greater
    than zero, and a row of the assembled frame whose amount is missing
    (NaN) or not positive is not in the result. *)
Theorem loaded_amounts_positive rows df :
  get_expenses_dataframe rows = Some df ->
  (forall r, In r (records df) ->
     exists q, cell "Amount" r = VNum (Some q) /\ (0 < q)%Q)
  /\ (exists recs typed,
        raw_records rows = Some recs /\ typed_frame recs = Some typed
        /\ forall r, In r (records typed) ->
             (isna (cell "Amount" r) = true
              \/ exists q, cell "Amount" r = VNum (Some q) /\ (q <= 0)%Q) ->
             ~ In r (records df)).
Proof.
  intros H. destruct (load_stages _ _ H) as (recs & typed & Hraw & Htyped & -> & _).
  assert (Hpos : forall r, In r (records (drop_invalid typed)) -> amount_positive r = true).
  { intros r Hr. rewrite drop_invalid_records in Hr. apply filter_In in Hr.
    destruct Hr as [_ Hs]. unfold survives in Hs.
    now apply andb_true_iff in Hs. }
  split.
  - intros r Hr. now apply amount_positive_spec, Hpos.
  - exists recs, typed. repeat split; try assumption.
    intros r _ Hbad Hin. apply Hpos, amount_positive_spec in Hin.
    destruct Hin as (q & Hq & Hlt). rewrite Hq in Hbad.
    destruct Hbad as [Hna | (q' & Hq' & Hle)]; [discriminate |].
    injection Hq' as <-. exact (Qlt_not_le _ _ Hlt Hle).
Qed.

(** C10. A load that does not fail returns at least one record, and the
    empty sheet fails. *)
Theorem loaded_frame_not_empty :
  (forall rows df, get_expenses_dataframe rows = Some df -> records df <> [])
  /\ get_expenses_dataframe [] = None.
Proof.
  split; [| reflexivity].
  intros rows df H. now destruct (load_stages _ _ H) as (? & ? & _ & _ & _ & Hne).
Qed.

(** *** Header discovery *)

Lemma is_header_row_iff row : is_header_row row = true <-> header_like row.
Proof.
  unfold is_header_row, header_like, header_keywords.
  rewrite andb_true_iff, Nat.leb_le, existsb_exists. reflexivity.
Qed.

Lemma is_header_row_false row : is_header_row row = false <-> ~ header_like row.
Proof.
  rewrite <- is_header_row_iff. destruct (is_header_row row); split; intros H;
    try reflexivity; try discriminate; try (intros H'; discriminate H').
  exfalso; now apply H.
Qed.

Lemma find_header_row_some rows : forall i0 i,
  find_header_row i0 rows = Some i <->
  exists k, i = i0 + k /\ k < List.length rows
            /\ is_header_row (nth k rows []) = true
            /\ forall j, j < k -> is_header_row (nth j rows []) = false.
Proof.
  induction rows as [| row rest IH]; intros i0 i; simpl.
  - split; [discriminate | intros (k & _ & Hk & _); lia].
  - destruct (is_header_row row) eqn:E.
    + split.
      * intros H; injection H as <-. exists 0. repeat split; try lia. exact E.
      * intros (k & -> & _ & Hk & Hbefore). destruct k as [| k].
        -- f_equal; lia.
        -- specialize (Hbefore 0 (Nat.lt_0_succ k)). simpl in Hbefore. congruence.
    + rewrite IH. split.
      * intros (k & -> & Hlt & Hk & Hbefore). exists (S k).
        repeat split; try lia; try exact Hk.
        intros [| j] Hj; [exact E | apply Hbefore; lia].
      * intros (k & -> & Hlt & Hk & Hbefore). destruct k as [| k].
        -- simpl in Hk. congruence.
        -- exists k. repeat split; try lia; try exact Hk.
           intros j Hj. apply (Hbefore (S j)). lia.
Qed.

Lemma find_header_row_none rows : forall i0,
  find_header_row i0 rows = None <->
  forall row, In row rows -> is_header_row row = false.
Proof.
  induction rows as [| row rest IH]; intros i0; simpl.
  - split; [intros _ row [] | reflexivity].
  - destruct (is_header_row row) eqn:E.
    + split; [discriminate |]. intros H. rewrite (H row (or_introl eq_refl)) in E.
      discriminate.
    + rewrite IH. split.
      * intros H r [<- | Hr]; [exact E | now apply H].
      * intros H r Hr. apply H. now right.
Qed.

Lemma assign_columns_present n vals df :
  has_column n df = true -> columns (assign n vals df) = columns df.
Proof. intros H. unfold assign. cbn [columns]. now rewrite H. Qed.

Lemma has_column_columns n df cols :
  columns df = cols -> has_column n df = existsb (String.eqb n) cols.
Proof. intros <-. reflexivity. Qed.

Lemma make_record_default_keys row :
  PyDict.keys (make_record default_headers row) = default_headers.
Proof. reflexivity. Qed.

Lemma default_records_columns data_rows :
  build_records default_headers data_rows <> [] ->
  columns (from_records (build_records default_headers data_rows)) = default_headers.
Proof.
  unfold from_records. cbn [columns].
  destruct (build_records default_headers data_rows) as [| r rs] eqn:E;
    [contradiction |].
  intros _.
  assert (Hin : In r (build_records default_headers data_rows))
    by (rewrite E; now left).
  unfold build_records in Hin. apply filter_In in Hin. destruct Hin as [Hin _].
  apply in_map_iff in Hin. destruct Hin as (row & <- & _).
  apply make_record_default_keys.
Qed.

(** Under the canonical labels every step finds its column by label, and
    the frame keeps the canonical columns. *)
Lemma typed_frame_default_columns recs typed :
  columns (from_records recs) = default_headers ->
  typed_frame recs = Some typed -> columns typed = default_headers.
Proof.
  intros Hcols. unfold typed_frame, add_amount.
  rewrite Hcols.
  change (find_amount_col default_headers recs) with (Some "Amount").
  cbn [found PyStr.truthy].
  set (df0 := assign "Amount" _ (assign "Amount" _ (from_records recs))).
  assert (H0 : columns df0 = default_headers).
  { unfold df0. rewrite assign_columns_present.
    - rewrite assign_columns_present; [exact Hcols |].
      now rewrite (has_column_columns _ _ _ Hcols).
    - apply has_column_assign_keeps. now rewrite (has_column_columns _ _ _ Hcols). }
  unfold add_date. rewrite H0.
  change (find is_date_label default_headers) with (Some "Date").
  cbn [found PyStr.truthy].
  destruct (to_datetime (column "Date" df0)) as [dates |]; [| discriminate].
  set (df1 := assign "Date" _ df0).
  assert (H1 : columns df1 = default_headers).
  { unfold df1. rewrite assign_columns_present; [exact H0 |].
    now rewrite (has_column_columns _ _ _ H0). }
  unfold add_category. rewrite H1.
  change (find is_category_label default_headers) with (Some "Category").
  cbv beta iota.
  set (df2 := assign "Category" _ df1).
  assert (H2 : columns df2 = default_headers).
  { unfold df2. rewrite assign_columns_present; [exact H1 |].
    now rewrite (has_column_columns _ _ _ H1). }
  unfold add_merchant. rewrite H2.
  change (find is_merchant_label default_headers) with (Some "Store/Merchant").
  cbv beta iota.
  intros H; injection H as <-.
  rewrite assign_columns_present; [exact H2 |].
  now rewrite (has_column_columns _ _ _ H2).
Qed.

(** C9. When no row passes the header test, the headers are the fixed
    canonical list and every input row, the first included, is a data
    row: the records are built from all rows under the canonical labels,
    and a loaded frame has the canonical columns. *)
Theorem canonical_header_fallback rows :
  (forall row, In row rows -> ~ header_like row) ->
  headers_and_start rows = (default_headers, 0)
  /\ default_headers =
       ["Date"; "Store/Merchant"; "Amount"; "Category"; "Payment Method"; "Notes";
        "Receipt Date"; "Added Date"]
  /\ (rows <> [] -> data_rows_of rows = Some rows)
  /\ raw_records rows =
       match build_records default_headers (filter row_has_text rows) with
       | [] => None
       | recs => Some recs
       end
  /\ (forall df, get_expenses_dataframe rows = Some df ->
       columns df = default_headers).
Proof.
  intros Hnone.
  assert (Hfind : find_header_row 0 rows = None).
  { apply find_header_row_none. intros row Hrow.
    now apply is_header_row_false, Hnone. }
  assert (Hhs : headers_and_start rows = (default_headers, 0)).
  { unfold headers_and_start. now rewrite Hfind. }
  assert (Hdata : rows <> [] -> data_rows_of rows = Some rows).
  { intros Hne. unfold data_rows_of. rewrite Hhs. simpl.
    destruct rows as [| row rest]; [contradiction | reflexivity]. }
  assert (Hraw : raw_records rows =
                 match build_records default_headers (filter row_has_text rows) with
                 | [] => None
                 | recs => Some recs
                 end).
  { unfold raw_records. destruct rows as [| row rest]; [reflexivity |].
    rewrite Hdata by discriminate. rewrite Hhs. simpl fst.
    destruct (filter row_has_text (row :: rest)); [reflexivity |].
    destruct (build_records default_headers (l :: l0)); reflexivity. }
  repeat split; try assumption.
  intros df Hload.
  destruct (load_stages _ _ Hload) as (recs & typed & Hr & Ht & -> & _).
  rewrite drop_invalid_columns.
  apply (typed_frame_default_columns recs); [| exact Ht].
  rewrite Hraw in Hr.
  destruct (build_records default_headers (filter row_has_text rows)) eqn:E;
    [discriminate |].
  injection Hr as <-. rewrite <- E. apply default_records_columns.
  rewrite E. discriminate.
Qed.

(** C4. The header is the first row, from the top, that passes the header
    test, and the rows after it are the data rows; on the three-row sheet
    of the example the load yields one record, with amount 12.50 and
    category Food. *)
Theorem header_discovery :
  (forall rows i,
      find_header_row 0 rows = Some i <->
      i < List.length rows
      /\ header_like (nth i rows [])
      /\ forall j, j < i -> ~ header_like (nth j rows []))
  /\ (forall rows i,
        find_header_row 0 rows = Some i ->
        headers_and_start rows = (nth i rows [], i + 1)
        /\ (i + 1 < List.length rows ->
            data_rows_of rows = Some (skipn (i + 1) rows)))
  /\ (forall q t,
        to_numeric "12.50" = Some q -> (q == 25 # 2)%Q ->
        to_datetime [VStr "2024-01-01"] = Some [Some t] ->
        exists r,
          get_expenses_dataframe
            [["foo"; "bar"]; ["Date"; "Amount"; "Category"];
             ["2024-01-01"; "12.50"; "Food"]]
          = Some {| columns := ["Date"; "Amount"; "Category"]; records := [r] |}
          /\ cell "Amount" r = VNum (Some q)
          /\ cell "Category" r = VStr "Food").
Proof.
  split; [| split].
  - intros rows i. rewrite find_header_row_some. split.
    + intros (k & -> & Hlt & Hk & Hbefore). simpl. repeat split.
      * exact Hlt.
      * now apply is_header_row_iff.
      * now apply is_header_row_iff.
      * intros j Hj. now apply is_header_row_false, Hbefore.
    + intros (Hlt & Hi & Hbefore). exists i. repeat split; try assumption.
      * now apply is_header_row_iff.
      * intros j Hj. now apply is_header_row_false, Hbefore.
  - intros rows i Hfind. unfold data_rows_of, headers_and_start.
    rewrite Hfind. simpl. split; [reflexivity |].
    intros Hlt. apply Nat.ltb_lt in Hlt. now rewrite Hlt.
  - intros q t Hnum Hq Hdate.
    assert (Hpos : Qcompare 0 q = Lt).
    { apply Qlt_alt. rewrite Hq. reflexivity. }
    exists [("Date", VDate (Some t)); ("Amount", VNum (Some q));
            ("Category", VStr "Food")].
    split; [| split; reflexivity].
    unfold get_expenses_dataframe.
    replace (raw_records _)
      with (Some [[("Date", "2024-01-01"); ("Amount", "12.50"); ("Category", "Food")]])
      by (vm_compute; reflexivity).
    unfold typed_frame.
    replace (add_amount _ _)
      with (Some {| columns := ["Date"; "Amount"; "Category"];
                    records := [[("Date", VStr "2024-01-01");
                                 ("Amount", VNum (to_numeric "12.50"));
                                 ("Category", VStr "Food")]] |})
      by (cbv -[to_numeric]; reflexivity).
    rewrite Hnum.
    replace (add_date _)
      with (Some {| columns := ["Date"; "Amount"; "Category"];
                    records := [[("Date", VDate (Some t));
                                 ("Amount", VNum (Some q));
                                 ("Category", VStr "Food")]] |})
      by (unfold add_date; cbv -[to_datetime assign]; rewrite Hdate; reflexivity).
    cbv -[Qcompare]. rewrite Hpos. reflexivity.
Qed.

(** *** The amount column *)

Lemma find_none_iff {A : Type} (f : A -> bool) (l : list A) :
  find f l = None <-> forall x, In x l -> f x = false.
Proof.
  induction l as [| a l IH]; simpl.
  - split; [intros _ x [] | reflexivity].
  - destruct (f a) eqn:E.
    + split; [discriminate |]. intros H.
      rewrite (H a (or_introl eq_refl)) in E. discriminate.
    + rewrite IH. split.
      * intros H x [<- | Hx]; [exact E | now apply H].
      * intros H x Hx. apply H. now right.
Qed.

Lemma any_notna_false {A : Type} (xs : list (option A)) :
  (forall x, In x xs -> x = None) -> any_notna xs = false.
Proof.
  intros H. unfold any_notna.
  destruct (existsb _ xs) eqn:E; [| reflexivity].
  apply existsb_exists in E. destruct E as (x & Hx & Hsome).
  rewrite (H x Hx) in Hsome. discriminate.
Qed.

(** C2. When no column label of the assembled table contains [amount]
    (in any letter case) and no cell of any column is accepted by
    [to_numeric], the load fails. *)
Theorem no_amount_column_fails rows :
  (forall recs, raw_records rows = Some recs ->
     forall col, In col (columns (from_records recs)) ->
       PyStr.contains "amount" (PyStr.lower col) = false
       /\ forall v, In v (column_text col recs) -> to_numeric v = None) ->
  get_expenses_dataframe rows = None.
Proof.
  intros H. unfold get_expenses_dataframe.
  destruct (raw_records rows) as [recs |] eqn:Hraw; [| reflexivity].
  specialize (H recs eq_refl).
  assert (Hcol : find_amount_col (columns (from_records recs)) recs = None).
  { unfold find_amount_col.
    assert (Hh : amount_by_header (columns (from_records recs)) = None).
    { apply find_none_iff. intros col Hcol. now apply H. }
    rewrite Hh. simpl. apply find_none_iff. intros col Hcol.
    apply any_notna_false. intros x Hx. apply in_map_iff in Hx.
    destruct Hx as (v & <- & Hv). now apply (H col Hcol). }
  unfold typed_frame, add_amount. rewrite Hcol. reflexivity.
Qed.

(** *** The date column *)

Lemma assign_cell_same name vals df r :
  In r (records (assign name vals df)) -> In (cell name r) vals.
Proof.
  intros H. apply assign_records in H. destruct H as (r0 & v & _ & Hv & ->).
  unfold cell. now rewrite dict_get_set_same.
Qed.

Lemma assign_cell_other name n vals df (P : value -> Prop) :
  String.eqb n name = false ->
  (forall r, In r (records df) -> P (cell n r)) ->
  forall r, In r (records (assign name vals df)) -> P (cell n r).
Proof.
  intros Hne HP r H. apply assign_records in H. destruct H as (r0 & v & Hr0 & _ & ->).
  unfold cell. rewrite dict_get_set_other by exact Hne. now apply HP.
Qed.

Lemma found_date_label cols :
  found (find is_date_label cols) = true <->
  exists col, In col cols /\ is_date_label col = true.
Proof.
  split.
  - destruct (find is_date_label cols) as [c |] eqn:E; [| discriminate].
    intros _. apply find_some in E. now exists c.
  - intros (col & Hin & Hlabel).
    destruct (find is_date_label cols) as [c |] eqn:E.
    + apply find_some in E. destruct E as [_ Hc].
      destruct c; [discriminate Hc | reflexivity].
    + rewrite find_none_iff in E. rewrite (E col Hin) in Hlabel. discriminate.
Qed.

Lemma date_like_some cols df dates :
  date_like cols df = Some dates ->
  exists col, In col cols
              /\ to_datetime (column col df) = Some dates /\ any_notna dates = true.
Proof.
  induction cols as [| col rest IH]; simpl; [discriminate |].
  destruct (to_datetime (column col df)) as [temp |] eqn:E.
  - destruct (any_notna temp) eqn:En.
    + intros H; injection H as <-. exists col. auto.
    + intros H. destruct (IH H) as (c & Hc & Hrest). exists c. auto.
  - intros H. destruct (IH H) as (c & Hc & Hrest). exists c. auto.
Qed.

Lemma date_like_none cols df :
  date_like cols df = None ->
  forall col dates, In col cols ->
    to_datetime (column col df) = Some dates -> any_notna dates = false.
Proof.
  induction cols as [| col rest IH]; simpl; [intros _ ? ? [] |].
  destruct (to_datetime (column col df)) as [temp |] eqn:E.
  - destruct (any_notna temp) eqn:En; [discriminate |].
    intros H c dates [<- | Hc] Hd; [congruence | now apply (IH H c)].
  - intros H c dates [<- | Hc] Hd; [congruence | now apply (IH H c)].
Qed.

(** The date step sets a [Date] column of timestamps exactly when a date
    role is identified, and otherwise leaves the frame as it is. *)
Lemma add_date_spec df0 df1 :
  add_date df0 = Some df1 ->
  (date_role_found df0 -> exists dates, df1 = assign "Date" (map VDate dates) df0)
  /\ (~ date_role_found df0 -> df1 = df0 /\ has_column "Date" df0 = false).
Proof.
  unfold add_date. intros H.
  destruct (found (find is_date_label (columns df0))) eqn:Hf.
  - destruct (find is_date_label (columns df0)) as [c |] eqn:Ec; [| discriminate].
    destruct (to_datetime (column c df0)) as [dates |]; [| discriminate].
    injection H as <-. split.
    + intros _. now exists dates.
    + intros Hno. exfalso. apply Hno. left. apply found_date_label.
      rewrite Ec. exact Hf.
  - destruct (date_like (columns df0) df0) as [temp |] eqn:El.
    + injection H as <-. split.
      * intros _. now exists temp.
      * intros Hno. exfalso. apply Hno. right.
        destruct (date_like_some _ _ _ El) as (col & Hc & Hd & Hn). now exists col, temp.
    + injection H as <-. split.
      * intros [Hlabel | (col & dates & Hc & Hd & Hn)].
        -- apply found_date_label in Hlabel. congruence.
        -- rewrite (date_like_none _ _ El col dates Hc Hd) in Hn. discriminate.
      * intros _. split; [reflexivity |].
        destruct (has_column "Date" df0) eqn:Hd; [| reflexivity].
        exfalso. unfold has_column in Hd. apply existsb_exists in Hd.
        destruct Hd as (c & Hc & Heq). apply String.eqb_eq in Heq. subst c.
        assert (Hf' : found (find is_date_label (columns df0)) = true).
        { apply found_date_label. exists "Date". split; [exact Hc | reflexivity]. }
        congruence.
Qed.

Lemma add_category_date df :
  has_column "Date" (add_category df) = has_column "Date" df
  /\ forall P : value -> Prop,
       (forall r, In r (records df) -> P (cell "Date" r)) ->
       forall r, In r (records (add_category df)) -> P (cell "Date" r).
Proof.
  unfold add_category. destruct (find is_category_label (columns df)) as [c |].
  - split.
    + rewrite has_column_assign. simpl. now rewrite orb_false_r.
    + intros P HP. now apply assign_cell_other.
  - split; auto.
Qed.

Lemma add_merchant_date df :
  has_column "Date" (add_merchant df) = has_column "Date" df
  /\ forall P : value -> Prop,
       (forall r, In r (records df) -> P (cell "Date" r)) ->
       forall r, In r (records (add_merchant df)) -> P (cell "Date" r).
Proof.
  unfold add_merchant. destruct (find is_merchant_label (columns df)) as [c |].
  - split.
    + rewrite has_column_assign. simpl. now rewrite orb_false_r.
    + intros P HP. now apply assign_cell_other.
  - split; auto.
Qed.

(** The closing filter and the date role.  With a date role identified,
    the frame has a [Date] column, the closing filter keeps exactly the
    rows with a positive amount and a parsed date, and every loaded record
    carries a timestamp.  With none, which asks that [to_datetime] finds no
    timestamp in any column of [df0], the numeric [Amount] column
    included, the frame has no [Date] column and the closing filter keeps
    every row with a positive amount. *)
Lemma date_filter rows recs df0 typed :
  raw_records rows = Some recs ->
  add_amount recs (from_records recs) = Some df0 ->
  typed_frame recs = Some typed ->
  (date_role_found df0 ->
     has_column "Date" typed = true
     /\ records (drop_invalid typed)
        = filter (fun r => amount_positive r && negb (isna (cell "Date" r)))
                 (records typed)
     /\ forall df, get_expenses_dataframe rows = Some df ->
         forall r, In r (records df) -> exists t, cell "Date" r = VDate (Some t))
  /\ (~ date_role_found df0 ->
      has_column "Date" typed = false
      /\ records (drop_invalid typed) = filter amount_positive (records typed)
      /\ forall df, get_expenses_dataframe rows = Some df ->
          has_column "Date" df = false
          /\ records df = filter amount_positive (records typed)).
Proof.
  intros Hraw Hamount Htyped.
  unfold typed_frame in Htyped. rewrite Hamount in Htyped.
  destruct (add_date df0) as [df1 |] eqn:Hdate; [| discriminate].
  injection Htyped as <-.
  destruct (add_date_spec _ _ Hdate) as [Hyes Hno].
  destruct (add_category_date df1) as [Hc1 Hc2].
  destruct (add_merchant_date (add_category df1)) as [Hm1 Hm2].
  assert (Hload : forall df, get_expenses_dataframe rows = Some df ->
                             df = drop_invalid (add_merchant (add_category df1))).
  { intros df Hdf. destruct (load_stages _ _ Hdf) as (recs' & typed' & Hr & Ht & -> & _).
    rewrite Hraw in Hr. injection Hr as <-.
    unfold typed_frame in Ht. rewrite Hamount, Hdate in Ht. now injection Ht as <-. }
  split.
  - intros Hrole. destruct (Hyes Hrole) as (dates & ->).
    assert (Hcol : has_column "Date"
                     (add_merchant (add_category (assign "Date" (map VDate dates) df0)))
                   = true).
    { rewrite Hm1, Hc1, has_column_assign. simpl. apply orb_true_r. }
    split; [exact Hcol |]. split.
    + rewrite drop_invalid_records, Hcol. reflexivity.
    + intros df Hdf r Hr. rewrite (Hload df Hdf) in Hr.
      rewrite drop_invalid_records, Hcol in Hr. apply filter_In in Hr.
      destruct Hr as [Hin Hs]. unfold survives in Hs. apply andb_true_iff in Hs.
      destruct Hs as [_ Hna].
      assert (Hshape : exists t, cell "Date" r = VDate t).
      { revert r Hin Hna. intros r Hin _. revert r Hin.
        apply (Hm2 (fun v => exists t, v = VDate t)).
        apply (Hc2 (fun v => exists t, v = VDate t)).
        intros r Hin. apply assign_cell_same in Hin. apply in_map_iff in Hin.
        destruct Hin as (t & <- & _). now exists t. }
      destruct Hshape as ([t |] & Ht); rewrite Ht in Hna; [now exists t | discriminate].
  - intros Hrole. destruct (Hno Hrole) as [-> Hnocol].
    assert (Hcol : has_column "Date" (add_merchant (add_category df0)) = false).
    { now rewrite Hm1, Hc1. }
    assert (Hrec : records (drop_invalid (add_merchant (add_category df0)))
                   = filter amount_positive (records (add_merchant (add_category df0)))).
    { rewrite drop_invalid_records, Hcol. apply filter_ext. intros r.
      unfold survives. apply andb_true_r. }
    split; [exact Hcol |]. split; [exact Hrec |].
    intros df Hdf. rewrite (Hload df Hdf). split; [| exact Hrec].
    unfold has_column. rewrite drop_invalid_columns. exact Hcol.
Qed.

(** The date step either sets the [Date] column or, when the fallback loop
    has gone through every column without a timestamp, leaves the frame as
    it is. *)
Lemma add_date_cases df0 df1 :
  add_date df0 = Some df1 ->
  (exists dates, df1 = assign "Date" (map VDate dates) df0)
  \/ (df1 = df0 /\ has_column "Date" df0 = false
      /\ date_like (columns df0) df0 = None).
Proof.
  unfold add_date. intros H.
  destruct (found (find is_date_label (columns df0))) eqn:Hf.
  - destruct (find is_date_label (columns df0)) as [c |]; [| discriminate].
    destruct (to_datetime (column c df0)) as [dates |]; [| discriminate].
    injection H as <-. left. now exists dates.
  - destruct (date_like (columns df0) df0) as [temp |] eqn:El; injection H as <-.
    + left. now exists temp.
    + right. split; [reflexivity |]. split; [| reflexivity].
      destruct (has_column "Date" df0) eqn:Hd; [| reflexivity].
      unfold has_column in Hd. apply existsb_exists in Hd.
      destruct Hd as (c & Hc & Heq). apply String.eqb_eq in Heq. subst c.
      assert (Hf' : found (find is_date_label (columns df0)) = true).
      { apply found_date_label. exists "Date". split; [exact Hc | reflexivity]. }
      congruence.
Qed.

(** The steps after the amount step leave the [Amount] cells as they are. *)
Lemma typed_amount_cells recs df0 typed :
  add_amount recs (from_records recs) = Some df0 ->
  typed_frame recs = Some typed ->
  forall r, In r (records typed) -> In (cell "Amount" r) (column "Amount" df0).
Proof.
  intros Hamount Htyped. unfold typed_frame in Htyped. rewrite Hamount in Htyped.
  destruct (add_date df0) as [df1 |] eqn:Hdate; [| discriminate].
  injection Htyped as <-.
  set (P := fun v => In v (column "Amount" df0)).
  assert (H0 : forall r, In r (records df0) -> P (cell "Amount" r)).
  { intros r Hr. unfold P, column. now apply in_map. }
  assert (H1 : forall r, In r (records df1) -> P (cell "Amount" r)).
  { destruct (add_date_cases _ _ Hdate) as [(dates & ->) | (-> & _)]; [| exact H0].
    apply (assign_cell_other _ "Amount" _ _ P); [reflexivity | exact H0]. }
  assert (H2 : forall r, In r (records (add_category df1)) -> P (cell "Amount" r)).
  { unfold add_category. destruct (find is_category_label (columns df1));
      [apply (assign_cell_other _ "Amount" _ _ P); [reflexivity | exact H1]
      | exact H1]. }
  change (forall r, In r (records (add_merchant (add_category df1))) ->
                    P (cell "Amount" r)).
  unfold add_merchant. destruct (find is_merchant_label (columns (add_category df1)));
    [apply (assign_cell_other _ "Amount" _ _ P); [reflexivity | exact H2]
    | exact H2].
Qed.

(** In a loaded frame with a [Date] column every record has a timestamp. *)
Lemma loaded_rows_dated rows df :
  get_expenses_dataframe rows = Some df ->
  has_column "Date" df = true ->
  forall r, In r (records df) -> exists t, cell "Date" r = VDate (Some t).
Proof.
  intros Hload Hcol r Hr.
  destruct (load_stages _ _ Hload) as (recs & typed & _ & Htyped & -> & _).
  unfold has_column in Hcol. rewrite drop_invalid_columns in Hcol.
  fold (has_column "Date" typed) in Hcol.
  rewrite drop_invalid_records, Hcol in Hr. apply filter_In in Hr.
  destruct Hr as [Hin Hs]. unfold survives in Hs. apply andb_true_iff in Hs.
  destruct Hs as [_ Hna].
  unfold typed_frame in Htyped.
  destruct (add_amount recs (from_records recs)) as [df0 |]; [| discriminate].
  destruct (add_date df0) as [df1 |] eqn:Hdate; [| discriminate].
  injection Htyped as <-.
  destruct (add_category_date df1) as [Hc1 Hc2].
  destruct (add_merchant_date (add_category df1)) as [Hm1 Hm2].
  destruct (add_date_cases _ _ Hdate) as [(dates & ->) | (-> & Hno & _)].
  - assert (Hshape : exists t, cell "Date" r = VDate t).
    { revert r Hin Hna. intros r Hin _. revert r Hin.
      apply (Hm2 (fun v => exists t, v = VDate t)).
      apply (Hc2 (fun v => exists t, v = VDate t)).
      intros r Hin. apply assign_cell_same in Hin. apply in_map_iff in Hin.
      destruct Hin as (t & <- & _). now exists t. }
    destruct Hshape as ([t |] & Ht); rewrite Ht in Hna; [now exists t | discriminate].
  - rewrite Hm1, Hc1 in Hcol. congruence.
Qed.

(** *** Cleaning of the amount cells *)

Lemma contains_char c a s :
  PyStr.contains (String c "") (String a s)
  = Ascii.eqb c a || PyStr.contains (String c "") s.
Proof. simpl. now rewrite andb_true_r. Qed.

(** Deleting occurrences of [old] brings no new character in. *)
Lemma replace_from_no_new old c s : forall skip,
  PyStr.contains (String c "") s = false ->
  PyStr.contains (String c "") (PyStr.replace_from old "" skip s) = false.
Proof.
  induction s as [| a s IH]; intros skip H; [exact H |].
  rewrite contains_char in H. apply orb_false_iff in H. destruct H as [Ha Hs].
  cbn [PyStr.replace_from]. destruct skip as [| k]; [| now apply IH].
  destruct (PyStr.startswith old (String a s)).
  - cbn [append]. now apply IH.
  - rewrite contains_char, Ha. now apply IH.
Qed.

Lemma replace_no_new old c s :
  PyStr.contains (String c "") s = false ->
  PyStr.contains (String c "") (PyStr.replace old "" s) = false.
Proof.
  intros H. unfold PyStr.replace. destruct old; [exact H |].
  now apply replace_from_no_new.
Qed.

(** Deleting a character leaves none of it. *)
Lemma replace_char_gone c s :
  PyStr.contains (String c "") (PyStr.replace (String c "") "" s) = false.
Proof.
  unfold PyStr.replace. induction s as [| a s IH]; [reflexivity |].
  cbn [PyStr.replace_from PyStr.startswith String.length Nat.sub].
  destruct (Ascii.eqb c a) eqn:E; cbn [andb].
  - destruct s; cbn [append]; exact IH.
  - rewrite contains_char, E. exact IH.
Qed.

Lemma add_amount_column recs df :
  add_amount recs (from_records recs) = Some df ->
  exists amount_col,
    find_amount_col (columns (from_records recs)) recs = Some amount_col
    /\ column "Amount" df
       = map (fun s => VNum (normalize_amount s)) (column_text amount_col recs).
Proof.
  unfold add_amount.
  destruct (find_amount_col (columns (from_records recs)) recs) as [c |];
    [| discriminate].
  destruct (found (Some c)); [| discriminate].
  intros H; injection H as <-. exists c. split; [reflexivity |].
  rewrite assign_column.
  - rewrite map_map. reflexivity.
  - rewrite assign_length; unfold from_records, column_text; simpl;
      now rewrite !length_map.
Qed.

(** The amount step succeeds as soon as an amount column with a label
    that is not empty is found. *)
Lemma add_amount_found recs amount_col :
  find_amount_col (columns (from_records recs)) recs = Some amount_col ->
  amount_col <> "" ->
  exists df,
    add_amount recs (from_records recs) = Some df
    /\ column "Amount" df
       = map (fun s => VNum (to_numeric (strip_currency s)))
             (column_text amount_col recs).
Proof.
  intros Hcol Hne. unfold add_amount. rewrite Hcol.
  destruct amount_col as [| ch rest]; [contradiction |]. cbn [found PyStr.truthy].
  eexists. split; [reflexivity |].
  rewrite assign_column.
  - now rewrite map_map.
  - rewrite assign_length; unfold from_records, column_text; simpl;
      now rewrite !length_map.
Qed.

(** The amount of a loaded record is the number read from a cleaned cell
    of the amount column. *)
Lemma loaded_amount_source rows df r :
  get_expenses_dataframe rows = Some df -> In r (records df) ->
  exists recs amount_col s q,
    raw_records rows = Some recs
    /\ find_amount_col (columns (from_records recs)) recs = Some amount_col
    /\ In s (column_text amount_col recs)
    /\ to_numeric (strip_currency s) = Some q
    /\ cell "Amount" r = VNum (Some q).
Proof.
  intros Hload Hr.
  destruct (load_stages _ _ Hload) as (recs & typed & Hraw & Htyped & -> & _).
  rewrite drop_invalid_records in Hr. apply filter_In in Hr. destruct Hr as [Hr Hs].
  unfold survives in Hs. apply andb_true_iff in Hs. destruct Hs as [Hs _].
  apply amount_positive_spec in Hs. destruct Hs as (q & Hq & _).
  pose proof Htyped as Hsteps. unfold typed_frame in Hsteps.
  destruct (add_amount recs (from_records recs)) as [df0 |] eqn:Hamount;
    [| discriminate].
  pose proof (typed_amount_cells recs df0 typed Hamount Htyped r Hr) as Hcell.
  destruct (add_amount_column recs df0 Hamount) as (c & Hc & Hcolumn).
  rewrite Hcolumn in Hcell. apply in_map_iff in Hcell.
  destruct Hcell as (s & Hs & Hin). rewrite Hq in Hs.
  exists recs, c, s, q. repeat split; try assumption.
  unfold normalize_amount in Hs. now injection Hs.
Qed.

(** C8. Each amount cell is cleaned by deleting, in this order, every
    comma, every peso sign, every [PHP], every [P] and every [$]; the
    cleaned text has no comma, no [P] and no [$], and a marker in front of
    a cell is gone.  Whenever an amount column with a label is found, the
    amount step succeeds and the [Amount] column holds [to_numeric] of each
    cleaned cell, which is a missing amount when [to_numeric] rejects the
    cleaned text; every record of a successful load has for amount the
    number read from a cleaned cell of the amount column.  The cell
    [₱1,234.50] is cleaned to [1234.50], and a sheet with this cell loads
    with the amount 1234.50. *)
Theorem amount_normalization :
  (forall s,
      strip_currency s
      = PyStr.replace "$" ""
          (PyStr.replace "P" ""
             (PyStr.replace "PHP" ""
                (PyStr.replace "₱" "" (PyStr.replace "," "" s))))
      /\ PyStr.contains "," (strip_currency s) = false
      /\ PyStr.contains "P" (strip_currency s) = false
      /\ PyStr.contains "$" (strip_currency s) = false
      /\ strip_currency ("₱" ++ s) = strip_currency s
      /\ strip_currency ("PHP" ++ s) = strip_currency s
      /\ strip_currency ("$" ++ s) = strip_currency s
      /\ strip_currency ("," ++ s) = strip_currency s)
  /\ (forall recs amount_col,
        find_amount_col (columns (from_records recs)) recs = Some amount_col ->
        amount_col <> "" ->
        exists df,
          add_amount recs (from_records recs) = Some df
          /\ column "Amount" df
             = map (fun s => VNum (to_numeric (strip_currency s)))
                   (column_text amount_col recs)
          /\ forall s, In s (column_text amount_col recs) ->
               to_numeric (strip_currency s) = None ->
               In (VNum None) (column "Amount" df))
  /\ (forall rows df r,
        get_expenses_dataframe rows = Some df -> In r (records df) ->
        exists recs amount_col s q,
          raw_records rows = Some recs
          /\ find_amount_col (columns (from_records recs)) recs = Some amount_col
          /\ In s (column_text amount_col recs)
          /\ to_numeric (strip_currency s) = Some q
          /\ cell "Amount" r = VNum (Some q))
  /\ strip_currency "₱1,234.50" = "1234.50"
  /\ strip_currency "PHP 1,000.50" = " 1000.50"
  /\ strip_currency "P1,234.50" = "1234.50"
  /\ strip_currency "$1,234.50" = "1234.50"
  /\ (forall q t,
        to_numeric "1234.50" = Some q -> (q == 123450 # 100)%Q ->
        to_datetime [VStr "2024-01-01"] = Some [Some t] ->
        exists r,
          get_expenses_dataframe
            [["Date"; "Amount"; "Store"]; ["2024-01-01"; "₱1,234.50"; "SM"]]
          = Some {| columns := ["Date"; "Amount"; "Store"; "Store/Merchant"];
                    records := [r] |}
          /\ cell "Amount" r = VNum (Some q)).
Proof.
  split; [| split; [| split; [| split; [| split; [| split; [| split]]]]]].
  - intros s. split; [reflexivity |]. unfold strip_currency. repeat split.
    + do 4 apply replace_no_new. apply replace_char_gone.
    + apply replace_no_new. apply replace_char_gone.
    + apply replace_char_gone.
  - intros recs amount_col Hcol Hne.
    destruct (add_amount_found recs amount_col Hcol Hne) as (df & Hdf & Hcolumn).
    exists df. split; [exact Hdf |]. split; [exact Hcolumn |].
    intros s Hs Hnone. rewrite Hcolumn. apply in_map_iff. exists s.
    split; [now rewrite Hnone | exact Hs].
  - exact loaded_amount_source.
  - reflexivity.
  - reflexivity.
  - reflexivity.
  - reflexivity.
  - intros q t Hnum Hq Hdate.
    assert (Hpos : Qcompare 0 q = Lt).
    { apply Qlt_alt. rewrite Hq. reflexivity. }
    exists [("Date", VDate (Some t)); ("Amount", VNum (Some q));
            ("Store", VStr "SM"); ("Store/Merchant", VStr "SM")].
    split; [| reflexivity].
    unfold get_expenses_dataframe.
    replace (raw_records _)
      with (Some [[("Date", "2024-01-01"); ("Amount", "₱1,234.50"); ("Store", "SM")]])
      by (vm_compute; reflexivity).
    unfold typed_frame.
    replace (add_amount _ _)
      with (Some {| columns := ["Date"; "Amount"; "Store"];
                    records := [[("Date", VStr "2024-01-01");
                                 ("Amount", VNum (to_numeric "1234.50"));
                                 ("Store", VStr "SM")]] |})
      by (cbv -[to_numeric]; reflexivity).
    rewrite Hnum.
    replace (add_date _)
      with (Some {| columns := ["Date"; "Amount"; "Store"];
                    records := [[("Date", VDate (Some t));
                                 ("Amount", VNum (Some q));
                                 ("Store", VStr "SM")]] |})
      by (unfold add_date; cbv -[to_datetime assign]; rewrite Hdate; reflexivity).
    cbv -[Qcompare]. rewrite Hpos. reflexivity.
Qed.

(** *** The fallback search for a date column *)

(** C5. The fallback search for a date column goes through every column of
    the frame, the numeric [Amount] column that the amount step has just
    set included.  Given that [to_datetime] reads a column of floats as
    time stamps (nanoseconds since the epoch, for a float within the range
    of a time stamp), a frame that loads with such an amount always has a
    [Date] column and every loaded record carries a time stamp, whether or
    not the sheet has a date column: its records are not kept dateless.  On
    the sheet of the example, which has no date column, the one record is
    loaded with the time stamp read from its amount. *)
Theorem amount_column_read_as_dates :
  (forall rows df,
      (forall xs q,
          (forall x, In x xs -> exists y, x = VNum y) ->
          In (VNum (Some q)) xs -> (0 < q)%Q -> (q < inject_Z (2 ^ 63))%Q ->
          exists dates, to_datetime xs = Some dates /\ any_notna dates = true) ->
      get_expenses_dataframe rows = Some df ->
      (exists r q, In r (records df) /\ cell "Amount" r = VNum (Some q)
                   /\ (q < inject_Z (2 ^ 63))%Q) ->
      has_column "Date" df = true
      /\ forall r, In r (records df) -> exists t, cell "Date" r = VDate (Some t))
  /\ (forall q t,
        to_numeric "150" = Some q -> (0 < q)%Q ->
        to_datetime [VStr "rent"] = Some [None] ->
        to_datetime [VNum (Some q)] = Some [Some t] ->
        get_expenses_dataframe
          [["Item"; "Amount"; "Store"]; ["rent"; "150"; "landlord"]]
        = Some {| columns := ["Item"; "Amount"; "Store"; "Date"; "Store/Merchant"];
                  records := [[("Item", VStr "rent");
                               ("Amount", VNum (Some q));
                               ("Store", VStr "landlord");
                               ("Date", VDate (Some t));
                               ("Store/Merchant", VStr "landlord")]] |}).
Proof.
  split.
  - intros rows df Hfloats Hload (r & q & Hr & Hq & Hrange).
    assert (Hcol : has_column "Date" df = true).
    { destruct (load_stages _ _ Hload) as (recs & typed & _ & Htyped & Hdf & _).
      subst df. unfold has_column. rewrite drop_invalid_columns.
      fold (has_column "Date" typed).
      rewrite drop_invalid_records in Hr. apply filter_In in Hr.
      destruct Hr as [Hr Hs].
      assert (Hpos : (0 < q)%Q).
      { unfold survives in Hs. apply andb_true_iff in Hs. destruct Hs as [Hs _].
        apply amount_positive_spec in Hs. destruct Hs as (a & Ha & Hlt).
        rewrite Hq in Ha. now injection Ha as ->. }
      pose proof Htyped as Hsteps. unfold typed_frame in Hsteps.
      destruct (add_amount recs (from_records recs)) as [df0 |] eqn:Hamount;
        [| discriminate].
      pose proof (typed_amount_cells recs df0 typed Hamount Htyped r Hr) as Hcell.
      rewrite Hq in Hcell.
      destruct (add_date df0) as [df1 |] eqn:Hdate; [| discriminate].
      injection Hsteps as <-.
      destruct (add_category_date df1) as [Hc1 _].
      destruct (add_merchant_date (add_category df1)) as [Hm1 _].
      rewrite Hm1, Hc1.
      destruct (add_date_cases _ _ Hdate) as [(dates & ->) | (-> & _ & Hnone)].
      + rewrite has_column_assign. apply orb_true_r.
      + exfalso.
        destruct (add_amount_column recs df0 Hamount) as (c & _ & Hcolumn).
        destruct (Hfloats (column "Amount" df0) q) as (dates & Hd & Hn);
          try assumption.
        { intros x Hx. rewrite Hcolumn in Hx. apply in_map_iff in Hx.
          destruct Hx as (s & <- & _). now eexists. }
        assert (Hin : In "Amount" (columns df0)).
        { unfold add_amount in Hamount.
          destruct (found _); [| discriminate].
          destruct (find_amount_col _ _) as [c' |]; [| discriminate].
          injection Hamount as <-.
          assert (H : has_column "Amount"
                        (assign "Amount"
                           (map (fun s => VNum (to_numeric s))
                              (map strip_currency (column_text c' recs)))
                           (assign "Amount"
                              (map VStr (map strip_currency (column_text c' recs)))
                              (from_records recs))) = true)
            by (rewrite has_column_assign; apply orb_true_r).
          unfold has_column in H. apply existsb_exists in H.
          destruct H as (x & Hx & Heq). apply String.eqb_eq in Heq. now subst x. }
        rewrite (date_like_none _ _ Hnone "Amount" dates Hin Hd) in Hn.
        discriminate. }
    split; [exact Hcol |]. now apply (loaded_rows_dated rows df).
  - intros q t Hnum Hq Hrent Hamount.
    assert (Hpos : Qcompare 0 q = Lt) by (now apply Qlt_alt).
    unfold get_expenses_dataframe.
    replace (raw_records _)
      with (Some [[("Item", "rent"); ("Amount", "150"); ("Store", "landlord")]])
      by (vm_compute; reflexivity).
    unfold typed_frame.
    replace (add_amount _ _)
      with (Some {| columns := ["Item"; "Amount"; "Store"];
                    records := [[("Item", VStr "rent");
                                 ("Amount", VNum (to_numeric "150"));
                                 ("Store", VStr "landlord")]] |})
      by (cbv -[to_numeric]; reflexivity).
    rewrite Hnum.
    replace (add_date _)
      with (Some {| columns := ["Item"; "Amount"; "Store"; "Date"];
                    records := [[("Item", VStr "rent");
                                 ("Amount", VNum (Some q));
                                 ("Store", VStr "landlord");
                                 ("Date", VDate (Some t))]] |})
      by (unfold add_date; cbv -[to_datetime assign]; rewrite Hrent;
          cbv -[to_datetime assign]; rewrite Hamount; reflexivity).
    cbv -[Qcompare]. rewrite Hpos. reflexivity.
Qed.

(** *** The comparison pool *)

Lemma in_skipn {A : Type} (x : A) n l : In x (skipn n l) -> In x l.
Proof.
  intros H. rewrite <- (firstn_skipn n l). apply in_or_app. now right.
Qed.

Lemma recent_expenses_subset now df r :
  In r (records (recent_expenses now df)) -> In r (records df).
Proof.
  unfold recent_expenses. destruct (has_column "Date" df).
  - intros H. now apply select_records in H.
  - apply in_skipn.
Qed.

(** The branch taken for a frame without a [Date] column: its last
    twenty rows, all of them when there are fewer, in their order. *)
Lemma pool_without_date_column now df :
  has_column "Date" df = false ->
  records (recent_expenses now df)
  = skipn (List.length (records df) - 20) (records df)
  /\ List.length (records (recent_expenses now df))
     = Nat.min 20 (List.length (records df)).
Proof.
  unfold recent_expenses. intros Hcol. rewrite Hcol. unfold tail; cbn [records].
  split; [reflexivity |]. rewrite length_skipn. lia.
Qed.

(** C6, as the code has it.  When the records carry dates (the frame has a
    [Date] column), the pool is the records dated no earlier than thirty
    days before [now], in their order, with no upper bound on the date: a
    record dated forty days before [now] is not in it, and a record dated
    after [now] is.  In a loaded frame with a [Date] column every record
    has a date, so that this decides for each of them. *)
Theorem candidate_pool now df :
  has_column "Date" df = true ->
  let pool := records (recent_expenses now df) in
  pool = filter (dated_since (now - thirty_days)) (records df)
  /\ (forall r t, In r (records df) -> cell "Date" r = VDate (Some t) ->
        (In r pool <-> (now - thirty_days <= t)%Z))
  /\ (forall r, cell "Date" r = VDate (Some (now - forty_days)%Z) -> ~ In r pool)
  /\ (forall r t, In r (records df) -> cell "Date" r = VDate (Some t) ->
        (now < t)%Z -> In r pool)
  /\ (forall rows, get_expenses_dataframe rows = Some df ->
        forall r, In r (records df) -> exists t, cell "Date" r = VDate (Some t)).
Proof.
  intros Hcol. cbv zeta. unfold recent_expenses. rewrite Hcol.
  split; [reflexivity |]. split; [| split; [| split]].
  - intros r t Hin Hdate. rewrite select_records. unfold dated_since.
    rewrite Hdate, Z.leb_le. tauto.
  - intros r Hdate Hin. apply select_records in Hin. destruct Hin as [_ Hsince].
    unfold dated_since in Hsince. rewrite Hdate in Hsince.
    apply Z.leb_le in Hsince. unfold thirty_days, forty_days in Hsince. lia.
  - intros r t Hin Hdate Hlater. apply select_records. split; [exact Hin |].
    unfold dated_since. rewrite Hdate. apply Z.leb_le. unfold thirty_days. lia.
  - intros rows Hload. now apply (loaded_rows_dated rows df).
Qed.

(** *** What the detector can rely on in a loaded frame *)

Lemma loaded_rows_positive rows df r :
  get_expenses_dataframe rows = Some df -> In r (records df) ->
  exists a, amount_of r = Some a /\ (0 < a)%Q.
Proof.
  intros H Hr. destruct (load_stages _ _ H) as (recs & typed & _ & _ & -> & _).
  rewrite drop_invalid_records in Hr. apply filter_In in Hr. destruct Hr as [_ Hs].
  unfold survives in Hs. apply andb_true_iff in Hs. destruct Hs as [Hpos _].
  apply amount_positive_spec in Hpos. destruct Hpos as (q & Hq & Hlt).
  exists q. unfold amount_of. now rewrite Hq.
Qed.

Lemma loaded_has_amount rows df :
  get_expenses_dataframe rows = Some df -> has_column "Amount" df = true.
Proof.
  intros H. destruct (load_stages _ _ H) as (recs & typed & _ & Htyped & -> & _).
  unfold has_column. rewrite drop_invalid_columns. fold (has_column "Amount" typed).
  unfold typed_frame in Htyped.
  destruct (add_amount recs (from_records recs)) as [df0 |] eqn:Ha; [| discriminate].
  assert (H0 : has_column "Amount" df0 = true).
  { unfold add_amount in Ha.
    destruct (found _); [| discriminate].
    destruct (find_amount_col _ _); [| discriminate].
    injection Ha as <-. rewrite has_column_assign. apply orb_true_r. }
  destruct (add_date df0) as [df1 |] eqn:Hd; [| discriminate].
  assert (H1 : has_column "Amount" df1 = true).
  { unfold add_date in Hd.
    destruct (found _).
    - destruct (find is_date_label (columns df0)); [| discriminate].
      destruct (to_datetime _); [| discriminate].
      injection Hd as <-. now apply has_column_assign_keeps.
    - destruct (date_like _ _); injection Hd as <-;
        [now apply has_column_assign_keeps | exact H0]. }
  injection Htyped as <-.
  unfold add_merchant, add_category.
  destruct (find is_category_label (columns df1));
    destruct (find is_merchant_label _);
    repeat apply has_column_assign_keeps; exact H1.
Qed.

Lemma is_zero_iff d : is_zero (Some d) = true <-> (d == 0)%Q.
Proof. apply Qeq_bool_iff. Qed.

Lemma at_most_two_iff d : at_most_two (Some d) = true <-> (d <= 2)%Q.
Proof. apply Qle_bool_iff. Qed.

Lemma truthy_false_iff s : PyStr.truthy s = false <-> s = "".
Proof. destruct s; simpl; split; intros H; try reflexivity; discriminate. Qed.

Lemma scan_In new_amount new_merchant merchant_col pool info :
  In info (scan new_amount new_merchant merchant_col pool) <->
  exists expense,
    In expense pool
    /\ examine new_amount new_merchant merchant_col expense = Some info.
Proof.
  induction pool as [| x pool IH]; simpl.
  - split; [intros [] | intros (e & [] & _)].
  - destruct (examine new_amount new_merchant merchant_col x) as [i |] eqn:E.
    + simpl. rewrite IH. split.
      * intros [<- | (e & He & Hx)]; [exists x; auto | exists e; auto].
      * intros (e & [<- | He] & Hx); [left; congruence | right; exists e; auto].
    + rewrite IH. split.
      * intros (e & He & Hx). exists e; auto.
      * intros (e & [<- | He] & Hx); [congruence | exists e; auto].
Qed.

(** *** The classification rules *)

Lemma rule1_iff d sim :
  is_zero (Some d) && (70 <=? sim)%Z = true <-> (d == 0)%Q /\ (70 <= sim)%Z.
Proof. now rewrite andb_true_iff, is_zero_iff, Z.leb_le. Qed.

Lemma rule2_iff d sim :
  at_most_two (Some d) && (85 <=? sim)%Z = true <-> (d <= 2)%Q /\ (85 <= sim)%Z.
Proof. now rewrite andb_true_iff, at_most_two_iff, Z.leb_le. Qed.

Lemma rule3_iff d nm em :
  is_zero (Some d) && (negb (PyStr.truthy nm) || negb (PyStr.truthy em)) = true
  <-> (d == 0)%Q /\ (nm = "" \/ em = "").
Proof.
  now rewrite andb_true_iff, is_zero_iff, orb_true_iff, !negb_true_iff,
    !truthy_false_iff.
Qed.

Lemma not_true_false b (P : Prop) : (b = true <-> P) -> ~ P -> b = false.
Proof. intros H Hn. destruct b; [exfalso; now apply Hn, H | reflexivity]. Qed.

Lemma merchant_col_found df c :
  merchant_col_of df = Some c -> found (Some c) = true.
Proof.
  unfold merchant_col_of. intros H. apply find_some in H. destruct H as [_ H].
  destruct c; [discriminate H | reflexivity].
Qed.

(** C1. For a loaded frame and each row of the comparison pool:
    [amount_diff] is the absolute value of the float difference of the
    row's amount and the new amount, as the subtraction on doubles gives
    it; the similarity is [fuzz.ratio] of the two merchant texts, each
    lower-cased and stripped, and is 0 when either text is empty; the three
    rules are tried in order on this [amount_diff] and the first that holds
    gives the label, and when none holds the row adds no entry. *)
Theorem duplicate_rules now rows df e expense :
  get_expenses_dataframe rows = Some df ->
  In expense (records (recent_expenses now df)) ->
  exists a,
    amount_of expense = Some a /\
    let new_merchant := new_merchant_of e in
    let merchant_col := merchant_col_of df in
    let expense_merchant := expense_merchant_of merchant_col expense in
    let sim := merchant_similarity_of new_merchant expense_merchant in
    let amount_diff := Qabs (float_sub a (new_amount_of e)) in
    let outcome := examine (new_amount_of e) new_merchant merchant_col expense in
    let rule1 := (amount_diff == 0)%Q /\ (70 <= sim)%Z in
    let rule2 := (amount_diff <= 2)%Q /\ (85 <= sim)%Z in
    let rule3 :=
      (amount_diff == 0)%Q /\ (new_merchant = "" \/ expense_merchant = "") in
    new_merchant
    = PyStr.strip (PyStr.lower (match merchant e with Some m => m | None => "" end))
    /\ (forall c s, merchant_col = Some c -> PyDict.get c expense = Some (VStr s) ->
         expense_merchant = PyStr.strip (PyStr.lower s))
    /\ (merchant_col = None -> expense_merchant = "")
    /\ (new_merchant = "" \/ expense_merchant = "" -> sim = 0%Z)
    /\ (new_merchant <> "" -> expense_merchant <> "" ->
        sim = ratio expense_merchant new_merchant)
    /\ (rule1 ->
        exists info, outcome = Some info
                     /\ reason info = "Exact amount + similar merchant")
    /\ (~ rule1 -> rule2 ->
        exists info, outcome = Some info
                     /\ reason info = "Very close amount + very similar merchant")
    /\ (~ rule1 -> ~ rule2 -> rule3 ->
        exists info, outcome = Some info
                     /\ reason info = "Exact amount (merchant info missing)")
    /\ (~ rule1 -> ~ rule2 -> ~ rule3 -> outcome = None)
    /\ (forall info, outcome = Some info ->
         In info (duplicates_in now df e)
         /\ fst (detect_duplicates now rows e) = true).
Proof.
  intros Hload Hin.
  destruct (loaded_rows_positive rows df expense Hload
              (recent_expenses_subset _ _ _ Hin)) as (a & Ha & _).
  exists a. split; [exact Ha |]. cbv zeta.
  split; [reflexivity |].
  split.
  { intros c s Hc Hget. unfold expense_merchant_of.
    rewrite Hc, (merchant_col_found df c Hc), Hget. reflexivity. }
  split.
  { intros Hc. now rewrite Hc. }
  split.
  { unfold merchant_similarity_of.
    intros [H | H]; apply truthy_false_iff in H; rewrite H;
      [reflexivity | now rewrite andb_false_r]. }
  split.
  { unfold merchant_similarity_of. intros Hn He.
    destruct (PyStr.truthy (new_merchant_of e)) eqn:E1;
      [| apply truthy_false_iff in E1; contradiction].
    destruct (PyStr.truthy _) eqn:E2 in |- *;
      [reflexivity | apply truthy_false_iff in E2; contradiction]. }
  unfold examine, amount_diff_of, classify. rewrite Ha.
  set (nm := new_merchant_of e).
  set (em := expense_merchant_of (merchant_col_of df) expense).
  set (sim := merchant_similarity_of nm em).
  set (d := Qabs (float_sub a (new_amount_of e))).
  pose proof (rule1_iff d sim) as H1.
  pose proof (rule2_iff d sim) as H2.
  pose proof (rule3_iff d nm em) as H3.
  split.
  { intros R1. apply H1 in R1. rewrite R1. cbn. eexists. split; reflexivity. }
  split.
  { intros N1 R2. rewrite (not_true_false _ _ H1 N1). apply H2 in R2. rewrite R2.
    cbn. eexists. split; reflexivity. }
  split.
  { intros N1 N2 R3. rewrite (not_true_false _ _ H1 N1), (not_true_false _ _ H2 N2).
    apply H3 in R3. rewrite R3. cbn. eexists. split; reflexivity. }
  split.
  { intros N1 N2 N3.
    rewrite (not_true_false _ _ H1 N1), (not_true_false _ _ H2 N2),
      (not_true_false _ _ H3 N3). reflexivity. }
  intros info Hout.
  assert (Hfound : In info (duplicates_in now df e)).
  { unfold duplicates_in. apply scan_In. exists expense. split; [exact Hin |].
    rewrite <- Hout. unfold examine, amount_diff_of, classify. rewrite Ha. reflexivity. }
  split; [exact Hfound |].
  unfold detect_duplicates. rewrite Hload.
  destruct (load_stages _ _ Hload) as (_ & _ & _ & _ & _ & Hne).
  unfold empty. destruct (records df) eqn:Hrec; [contradiction |].
  rewrite (loaded_has_amount _ _ Hload). cbn [negb].
  destruct (duplicates_in now df e); [destruct Hfound | reflexivity].
Qed.

(** *** The best match and the count *)

Lemma max_from_first best rest :
  exists before after,
    best :: rest = before ++ max_from best rest :: after
    /\ (forall d, In d before -> (similarity d < similarity (max_from best rest))%Z)
    /\ (forall d, In d after -> (similarity d <= similarity (max_from best rest))%Z).
Proof.
  revert best. induction rest as [| d rest IH]; intros best.
  - exists [], []. simpl. repeat split; intros ? [].
  - cbn [max_from]. destruct (similarity best <? similarity d)%Z eqn:E.
    + apply Z.ltb_lt in E.
      destruct (IH d) as (before & after & Heq & Hb & Ha).
      exists (best :: before), after. split; [simpl; now rewrite <- Heq |].
      split; [| exact Ha].
      intros x [<- | Hx]; [| now apply Hb].
      destruct before as [| b0 before].
      * simpl in Heq. injection Heq as Hd _. rewrite <- Hd. exact E.
      * simpl in Heq. injection Heq as Hd _. subst b0.
        specialize (Hb d (or_introl eq_refl)). lia.
    + apply Z.ltb_ge in E.
      destruct (IH best) as (before & after & Heq & Hb & Ha).
      destruct before as [| b0 before].
      * simpl in Heq. injection Heq as Hm Hrest.
        exists [], (d :: rest). split; [simpl; now rewrite <- Hm |].
        split; [intros ? [] |].
        intros x [<- | Hx]; [rewrite <- Hm; exact E |].
        apply Ha. now rewrite <- Hrest.
      * simpl in Heq. injection Heq as Hb0 Hrest. subst b0.
        exists (best :: d :: before), after.
        split; [simpl; do 2 f_equal; exact Hrest |]. split; [| exact Ha].
        intros x [<- | [<- | Hx]].
        -- apply Hb. now left.
        -- specialize (Hb best (or_introl eq_refl)). lia.
        -- apply Hb. now right.
Qed.

Lemma scan_length new_amount new_merchant merchant_col pool :
  List.length (scan new_amount new_merchant merchant_col pool)
  = List.length (filter (qualifies new_amount new_merchant merchant_col) pool).
Proof.
  induction pool as [| x pool IH]; [reflexivity |].
  simpl. unfold qualifies at 1.
  destruct (examine new_amount new_merchant merchant_col x); simpl; now rewrite IH.
Qed.

Lemma append_assoc (a b c : string) :
  ((a ++ b) ++ c)%string = (a ++ (b ++ c))%string.
Proof. induction a as [| ch a IH]; cbn; [reflexivity | now rewrite IH]. Qed.

(** The entries of [duplicates_found] are those of the qualifying rows of
    the pool, in the order of the rows. *)
Lemma scan_rows new_amount new_merchant merchant_col pool :
  Forall2
    (fun expense info =>
       examine new_amount new_merchant merchant_col expense = Some info)
    (filter (qualifies new_amount new_merchant merchant_col) pool)
    (scan new_amount new_merchant merchant_col pool).
Proof.
  induction pool as [| x pool IH]; cbn [filter scan]; [constructor |].
  unfold qualifies at 1.
  destruct (examine new_amount new_merchant merchant_col x) eqn:E;
    [constructor; assumption | exact IH].
Qed.

Lemma Forall2_In_l {A B : Type} (R : A -> B -> Prop) l l' x :
  Forall2 R l l' -> In x l -> exists y, In y l' /\ R x y.
Proof.
  induction 1 as [| a b l l' Hab _ IH]; intros Hin; [destruct Hin |].
  destruct Hin as [<- | Hin].
  - exists b. split; [now left | exact Hab].
  - destruct (IH Hin) as (y & Hy & Hxy). exists y. split; [now right | exact Hxy].
Qed.

(** What an entry holds of the row it was made from. *)
Lemma examine_entry new_amount new_merchant merchant_col expense info :
  examine new_amount new_merchant merchant_col expense = Some info ->
  let expense_merchant := expense_merchant_of merchant_col expense in
  let sim := merchant_similarity_of new_merchant expense_merchant in
  exists a,
    amount_of expense = Some a
    /\ fst (classify (Some (Qabs (float_sub a new_amount))) sim
                     new_merchant expense_merchant) = true
    /\ amount info = a
    /\ info_merchant info
       = (if PyStr.truthy expense_merchant then expense_merchant else "Unknown")
    /\ date info = expense_date_of expense
    /\ reason info
       = snd (classify (Some (Qabs (float_sub a new_amount))) sim
                       new_merchant expense_merchant)
    /\ similarity info = sim.
Proof.
  cbv zeta. unfold examine, amount_diff_of.
  destruct (amount_of expense) as [a |].
  - match goal with
    | |- (if ?b then _ else _) = _ -> _ => destruct b eqn:Hfst
    end; [| discriminate].
    intros H; injection H as <-. exists a. cbn. repeat split. exact Hfst.
  - match goal with
    | |- (if ?b then _ else _) = _ -> _ => destruct b
    end; discriminate.
Qed.

(** The label of an entry, by the rule that made it. *)
Lemma classify_reason d sim nm em :
  fst (classify (Some d) sim nm em) = true ->
  let rule1 := (d == 0)%Q /\ (70 <= sim)%Z in
  let rule2 := (d <= 2)%Q /\ (85 <= sim)%Z in
  (rule1 -> snd (classify (Some d) sim nm em) = "Exact amount + similar merchant")
  /\ (~ rule1 -> rule2 ->
      snd (classify (Some d) sim nm em) = "Very close amount + very similar merchant")
  /\ (~ rule1 -> ~ rule2 ->
      snd (classify (Some d) sim nm em) = "Exact amount (merchant info missing)").
Proof.
  cbv zeta. unfold classify.
  pose proof (rule1_iff d sim) as H1.
  pose proof (rule2_iff d sim) as H2.
  destruct (is_zero (Some d) && (70 <=? sim)%Z) eqn:E1.
  - intros _. split; [reflexivity |].
    split; intros N1; exfalso; apply N1, H1; reflexivity.
  - destruct (at_most_two (Some d) && (85 <=? sim)%Z) eqn:E2.
    + intros _. split; [intros R1; apply H1 in R1; discriminate |].
      split; [reflexivity |].
      intros _ N2; exfalso; apply N2, H2; reflexivity.
    + destruct (is_zero (Some d) && (negb (PyStr.truthy nm) || negb (PyStr.truthy em)));
        [| discriminate].
      intros _. split; [intros R1; apply H1 in R1; discriminate |].
      split; [intros _ R2; apply H2 in R2; discriminate | reflexivity].
Qed.

(** The date text of an entry, by the [Date] cell of its row. *)
Lemma expense_date_text expense :
  (forall t, PyDict.get "Date" expense = Some (VDate (Some t)) ->
     expense_date_of expense = strftime t)
  /\ (PyDict.get "Date" expense = None -> expense_date_of expense = "Unknown date").
Proof.
  unfold expense_date_of. split; [intros t H | intros H]; now rewrite H.
Qed.

Lemma cell_get name r v :
  cell name r = VDate v -> PyDict.get name r = Some (VDate v).
Proof.
  unfold cell. destruct (PyDict.get name r) as [x |]; [now intros -> | discriminate].
Qed.

(** The four lines of the warning, written out. *)
Lemma message_head_text new_amount new_merchant best_match :
  message_head new_amount new_merchant best_match
  = (let newline := String (ascii_of_nat 10) "" in
     "⚠️ Possible duplicate receipt found!" ++ newline ++ newline
     ++ "**New Receipt:** ₱" ++ format_2f new_amount ++ " at "
     ++ (if PyStr.truthy new_merchant then new_merchant else "Unknown") ++ newline
     ++ "**Existing:** ₱" ++ format_2f (amount best_match) ++ " at "
     ++ info_merchant best_match ++ " on " ++ date best_match ++ newline
     ++ "**Reason:** " ++ reason best_match ++ newline)%string.
Proof.
  unfold message_head, or_unknown, nl. cbv zeta.
  rewrite !append_assoc. reflexivity.
Qed.

(** C7. When more than one row of the pool qualifies, the answer is [True]
    and the warning reports one qualifying row, [best]: no qualifying row
    has a higher merchant similarity, and those that come before it in the
    pool have a lower one, so that among rows of the highest similarity it
    is the first in scan order.  The text gives the new amount and
    merchant, then the amount, the merchant text, the date and the label of
    [best], and ends with the note that gives the number of qualifying
    rows. *)
Theorem best_match_reported now rows df e first rest :
  get_expenses_dataframe rows = Some df ->
  duplicates_in now df e = first :: rest ->
  rest <> [] ->
  let new_amount := new_amount_of e in
  let new_merchant := new_merchant_of e in
  let merchant_col := merchant_col_of df in
  let merchant_of := expense_merchant_of merchant_col in
  let sim_of := fun x => merchant_similarity_of new_merchant (merchant_of x) in
  let qualifying :=
    filter (qualifies new_amount new_merchant merchant_col)
           (records (recent_expenses now df)) in
  let newline := String (ascii_of_nat 10) "" in
  exists before best after a date_text reason_text,
    qualifying = before ++ best :: after
    /\ (forall x, In x before -> (sim_of x < sim_of best)%Z)
    /\ (forall x, In x after -> (sim_of x <= sim_of best)%Z)
    /\ List.length qualifying = List.length (first :: rest)
    /\ cell "Amount" best = VNum (Some a)
    /\ (forall t, PyDict.get "Date" best = Some (VDate (Some t)) ->
          date_text = strftime t)
    /\ (PyDict.get "Date" best = None -> date_text = "Unknown date")
    /\ (has_column "Date" df = true ->
        exists t, PyDict.get "Date" best = Some (VDate (Some t)))
    /\ (let amount_diff := Qabs (float_sub a new_amount) in
        let rule1 := (amount_diff == 0)%Q /\ (70 <= sim_of best)%Z in
        let rule2 := (amount_diff <= 2)%Q /\ (85 <= sim_of best)%Z in
        (rule1 -> reason_text = "Exact amount + similar merchant")
        /\ (~ rule1 -> rule2 ->
            reason_text = "Very close amount + very similar merchant")
        /\ (~ rule1 -> ~ rule2 ->
            reason_text = "Exact amount (merchant info missing)"))
    /\ detect_duplicates now rows e
       = (true,
          ("⚠️ Possible duplicate receipt found!" ++ newline ++ newline
           ++ "**New Receipt:** ₱" ++ format_2f new_amount ++ " at "
           ++ (if PyStr.truthy new_merchant then new_merchant else "Unknown")
           ++ newline
           ++ "**Existing:** ₱" ++ format_2f a ++ " at "
           ++ (if PyStr.truthy (merchant_of best) then merchant_of best
               else "Unknown")
           ++ " on " ++ date_text ++ newline
           ++ "**Reason:** " ++ reason_text ++ newline
           ++ "**Note:** Found " ++ PyStr.of_nat (List.length qualifying)
           ++ " similar receipts")%string).
Proof.
  intros Hload Hfound Hrest. cbv zeta.
  set (na := new_amount_of e). set (nm := new_merchant_of e).
  set (mc := merchant_col_of df).
  set (pool := records (recent_expenses now df)).
  pose proof (scan_rows na nm mc pool) as HF.
  assert (Hscan : scan na nm mc pool = first :: rest) by exact Hfound.
  rewrite Hscan in HF.
  assert (Hlen : List.length (filter (qualifies na nm mc) pool)
                 = List.length (first :: rest))
    by (rewrite <- Hscan; symmetry; apply scan_length).
  destruct (max_from_first first rest) as (bi & ai & Heq & Hb & Ha).
  rewrite Heq in HF. apply Forall2_app_inv_r in HF.
  destruct HF as (l1 & l2 & H1 & H2 & Hq).
  inversion H2 as [| best info l2' ai' Hbest H2' Hl2 Hinfo]. subst l2 info ai'.
  destruct (examine_entry _ _ _ _ _ Hbest)
    as (a & Hamount & Hfst & Hea & Hem & Hed & Her & Hes).
  assert (Hpool : In best pool).
  { assert (Hin : In best (filter (qualifies na nm mc) pool))
      by (rewrite Hq; apply in_or_app; right; now left).
    apply filter_In in Hin. now destruct Hin. }
  exists l1, best, l2', a, (expense_date_of best),
    (snd (classify (Some (Qabs (float_sub a na)))
            (merchant_similarity_of nm (expense_merchant_of mc best)) nm
            (expense_merchant_of mc best))).
  split; [exact Hq |].
  split.
  { intros x Hx. destruct (Forall2_In_l _ _ _ _ H1 Hx) as (y & Hy & Hxy).
    destruct (examine_entry _ _ _ _ _ Hxy) as (_ & _ & _ & _ & _ & _ & _ & Hys).
    cbv zeta in Hys, Hes. rewrite <- Hys, <- Hes. now apply Hb. }
  split.
  { intros x Hx. destruct (Forall2_In_l _ _ _ _ H2' Hx) as (y & Hy & Hxy).
    destruct (examine_entry _ _ _ _ _ Hxy) as (_ & _ & _ & _ & _ & _ & _ & Hys).
    cbv zeta in Hys, Hes. rewrite <- Hys, <- Hes. now apply Ha. }
  split; [exact Hlen |].
  split.
  { unfold amount_of in Hamount.
    destruct (cell "Amount" best) as [s0 | x | t0]; try discriminate.
    now rewrite Hamount. }
  split; [apply (proj1 (expense_date_text best)) |].
  split; [apply (proj2 (expense_date_text best)) |].
  split.
  { intros Hcol.
    destruct (loaded_rows_dated rows df Hload Hcol best
                (recent_expenses_subset _ _ _ Hpool)) as (t & Ht).
    exists t. now apply cell_get. }
  split; [exact (classify_reason _ _ _ _ Hfst) |].
  unfold detect_duplicates. rewrite Hload.
  destruct (load_stages _ _ Hload) as (_ & _ & _ & _ & _ & Hne).
  unfold empty. destruct (records df) eqn:Hrec; [contradiction |].
  rewrite (loaded_has_amount _ _ Hload), Hfound. cbn [negb].
  unfold duplicate_message. destruct rest as [| d rest]; [contradiction |].
  cbn [List.length Nat.ltb Nat.leb].
  rewrite message_head_text. cbv zeta.
  fold na nm. rewrite Hea, Hem, Hed, Her. cbv zeta. fold mc.
  unfold message_note. rewrite Hlen. cbn [List.length].
  rewrite !append_assoc. reflexivity.
Qed.

End Properties.

(** ** The theorems at work on concrete sheets *)

Lemma loaded_amounts_positive_witness :
  exists df,
    @get_expenses_dataframe Instances.reference Examples.mixed = Some df
    /\ List.length (records df) = 2
    /\ forall r, In r (records df) ->
         exists q, cell "Amount" r = VNum (Some q) /\ (0 < q)%Q.
Proof.
  eexists. split; [vm_compute; reflexivity |]. split; [reflexivity |].
  apply (@loaded_amounts_positive Instances.reference Examples.mixed).
  vm_compute; reflexivity.
Defined.

Lemma loaded_frame_not_empty_witness :
  exists df,
    @get_expenses_dataframe Instances.reference Examples.mixed = Some df
    /\ records df <> [].
Proof.
  eexists. split; [vm_compute; reflexivity |].
  apply (proj1 (@loaded_frame_not_empty Instances.reference) Examples.mixed).
  vm_compute; reflexivity.
Defined.

Lemma canonical_header_fallback_witness :
  (forall row, In row Examples.headerless -> ~ header_like row)
  /\ headers_and_start Examples.headerless = (default_headers, 0)
  /\ data_rows_of Examples.headerless = Some Examples.headerless.
Proof.
  assert (H : forall row, In row Examples.headerless -> ~ header_like row).
  { intros row [<- | [<- | []]]; apply is_header_row_false; reflexivity. }
  split; [exact H |].
  destruct (@canonical_header_fallback Instances.reference Examples.headerless H)
    as (Hh & _ & Hd & _).
  split; [exact Hh | apply Hd; discriminate].
Defined.

Lemma header_discovery_witness :
  exists r,
    @get_expenses_dataframe Instances.reference Examples.header_skip
    = Some {| columns := ["Date"; "Amount"; "Category"]; records := [r] |}
    /\ cell "Amount" r = VNum (Some (25 # 2)%Q)
    /\ cell "Category" r = VStr "Food".
Proof.
  apply (proj2 (proj2 (@header_discovery Instances.reference))
               (25 # 2)%Q 1704067200000000000%Z);
    vm_compute; reflexivity.
Defined.

Lemma no_amount_column_fails_witness :
  @get_expenses_dataframe Instances.reference Examples.no_amount = None.
Proof.
  apply (@no_amount_column_fails Instances.reference Examples.no_amount).
  intros recs H. vm_compute in H. injection H as <-.
  intros col [<- | [<- | [<- | []]]];
    (split; [reflexivity | intros v [<- | []]; reflexivity]).
Defined.

Lemma amount_normalization_witness :
  exists r,
    @get_expenses_dataframe Instances.reference
      [["Date"; "Amount"; "Store"]; ["2024-01-01"; "₱1,234.50"; "SM"]]
    = Some {| columns := ["Date"; "Amount"; "Store"; "Store/Merchant"];
              records := [r] |}
    /\ cell "Amount" r = VNum (Some (2469 # 2)%Q).
Proof.
  apply (proj2 (proj2 (proj2 (proj2 (proj2 (proj2 (proj2
           (@amount_normalization Instances.reference)))))))
           (2469 # 2)%Q 1704067200000000000%Z);
    vm_compute; reflexivity.
Defined.

(** The instance of [to_datetime] reads a float within the range of a
    time stamp as a time stamp. *)
Lemma reference_reads_floats_as_dates xs q :
  (forall x, In x xs -> exists y, x = VNum y) ->
  In (VNum (Some q)) xs -> (0 < q)%Q -> (q < inject_Z (2 ^ 63))%Q ->
  exists dates,
    @to_datetime Instances.reference xs = Some dates /\ any_notna dates = true.
Proof.
  intros _ Hin Hpos Hrange. exists (map Instances.datetime_of xs).
  split; [reflexivity |]. unfold any_notna. apply existsb_exists.
  exists (Instances.datetime_of (VNum (Some q))). split; [now apply in_map |].
  cbn [Instances.datetime_of]. unfold Instances.epoch_ns.
  assert (H0 : (0 <= Qnum q / Zpos (Qden q))%Z).
  { apply Z.div_pos; [| reflexivity]. unfold Qlt in Hpos. cbn in Hpos. lia. }
  assert (H1 : (Qnum q / Zpos (Qden q) < 2 ^ 63)%Z).
  { apply Z.div_lt_upper_bound; [reflexivity |].
    unfold Qlt, inject_Z in Hrange. cbn [Qnum Qden] in Hrange. lia. }
  assert (Hlow : (- 2 ^ 63 <? Qnum q / Zpos (Qden q))%Z = true)
    by (apply Z.ltb_lt; lia).
  assert (Hhigh : (Qnum q / Zpos (Qden q) <? 2 ^ 63)%Z = true)
    by (now apply Z.ltb_lt).
  rewrite Hlow, Hhigh. reflexivity.
Qed.

Lemma amount_column_read_as_dates_witness :
  (exists df,
      @get_expenses_dataframe Instances.reference
        [["Item"; "Amount"; "Store"]; ["rent"; "150"; "landlord"]] = Some df
      /\ has_column "Date" df = true
      /\ forall r, In r (records df) -> exists t, cell "Date" r = VDate (Some t))
  /\ @get_expenses_dataframe Instances.reference
       [["Item"; "Amount"; "Store"]; ["rent"; "150"; "landlord"]]
     = Some {| columns := ["Item"; "Amount"; "Store"; "Date"; "Store/Merchant"];
               records := [[("Item", VStr "rent");
                            ("Amount", VNum (Some (150 # 1)%Q));
                            ("Store", VStr "landlord");
                            ("Date", VDate (Some 150%Z));
                            ("Store/Merchant", VStr "landlord")]] |}.
Proof.
  assert (Hload : @get_expenses_dataframe Instances.reference
                    [["Item"; "Amount"; "Store"]; ["rent"; "150"; "landlord"]]
                  = Some {| columns := ["Item"; "Amount"; "Store"; "Date";
                                        "Store/Merchant"];
                            records := [[("Item", VStr "rent");
                                         ("Amount", VNum (Some (150 # 1)%Q));
                                         ("Store", VStr "landlord");
                                         ("Date", VDate (Some 150%Z));
                                         ("Store/Merchant", VStr "landlord")]] |}).
  { apply (proj2 (@amount_column_read_as_dates Instances.reference)
                 (150 # 1)%Q 150%Z); vm_compute; reflexivity. }
  split; [| exact Hload].
  eexists. split; [exact Hload |].
  apply (proj1 (@amount_column_read_as_dates Instances.reference)
               [["Item"; "Amount"; "Store"]; ["rent"; "150"; "landlord"]]).
  - exact reference_reads_floats_as_dates.
  - exact Hload.
  - eexists. exists (150 # 1)%Q. split; [left; reflexivity |].
    split; [reflexivity | vm_compute; reflexivity].
Defined.

(** The pool is not the trailing window of the specification: a row dated
    after [now] is compared although it lies outside the window. *)
Lemma trailing_window_counterexample :
  exists df r,
    @get_expenses_dataframe Instances.reference Examples.future_dated = Some df
    /\ has_column "Date" df = true
    /\ records (recent_expenses Examples.new_year_2024 df) = [r]
    /\ filter (in_trailing_window Examples.new_year_2024) (records df) = []
    /\ records (recent_expenses Examples.new_year_2024 df)
       <> filter (in_trailing_window Examples.new_year_2024) (records df).
Proof.
  eexists. eexists.
  split; [vm_compute; reflexivity |].
  split; [reflexivity |].
  split; [vm_compute; reflexivity |].
  split; [reflexivity |].
  vm_compute. discriminate.
Qed.

Lemma candidate_pool_witness :
  has_column "Date" Examples.receipts_frame = true
  /\ records (recent_expenses Examples.new_year_2024 Examples.receipts_frame)
     = filter (dated_since (Examples.new_year_2024 - thirty_days))
              (records Examples.receipts_frame)
  /\ List.length (records Examples.receipts_frame) = 6
  /\ List.length (records (recent_expenses Examples.new_year_2024
                                           Examples.receipts_frame)) = 5.
Proof.
  assert (Hcol : has_column "Date" Examples.receipts_frame = true)
    by (vm_compute; reflexivity).
  split; [exact Hcol |].
  split; [| split; vm_compute; reflexivity].
  exact (proj1 (@candidate_pool Instances.reference Examples.new_year_2024
                  Examples.receipts_frame Hcol)).
Defined.

Lemma duplicate_rules_witness :
  @get_expenses_dataframe Instances.reference Examples.receipts
  = Some Examples.receipts_frame
  /\ In Examples.third_receipt
        (records (recent_expenses Examples.new_year_2024 Examples.receipts_frame))
  /\ exists info,
       @examine Instances.reference (Qmake 100 1) "jollibee" (Some "Store")
                Examples.third_receipt = Some info
       /\ reason info = "Exact amount + similar merchant".
Proof.
  assert (Hload : @get_expenses_dataframe Instances.reference Examples.receipts
                  = Some Examples.receipts_frame) by (vm_compute; reflexivity).
  assert (Hin : In Examples.third_receipt
                   (records (recent_expenses Examples.new_year_2024
                                             Examples.receipts_frame)))
    by (vm_compute; right; left; reflexivity).
  split; [exact Hload |]. split; [exact Hin |].
  destruct (@duplicate_rules Instances.reference Examples.new_year_2024
              Examples.receipts Examples.receipts_frame Examples.jollibee_100
              Examples.third_receipt Hload Hin)
    as (a & Ha & _ & _ & _ & _ & _ & Hrule1 & _).
  vm_compute in Ha. injection Ha as <-.
  apply Hrule1. split; [vm_compute; reflexivity |].
  apply Z.leb_le. vm_compute; reflexivity.
Defined.

Lemma best_match_reported_witness :
  exists first rest,
    @duplicates_in Instances.reference Examples.new_year_2024 Examples.receipts_frame
                   Examples.jollibee_100 = first :: rest
    /\ List.length (first :: rest) = 4
    /\ fst (@detect_duplicates Instances.reference Examples.new_year_2024
              Examples.receipts Examples.jollibee_100) = true
    /\ @detect_duplicates Instances.reference Examples.new_year_2024
         Examples.receipts Examples.jollibee_100
       = (true,
          ("⚠️ Possible duplicate receipt found!" ++ nl ++ nl
           ++ "**New Receipt:** ₱100.00 at jollibee" ++ nl
           ++ "**Existing:** ₱100.00 at jollibee on 2023-12-12 00:00" ++ nl
           ++ "**Reason:** Exact amount + similar merchant" ++ nl
           ++ "**Note:** Found 4 similar receipts")%string).
Proof.
  eexists. eexists.
  split; [vm_compute; reflexivity |]. split; [reflexivity |].
  split; [| vm_compute; reflexivity].
  destruct (@best_match_reported Instances.reference Examples.new_year_2024
              Examples.receipts Examples.receipts_frame Examples.jollibee_100
              _ _ ltac:(vm_compute; reflexivity)
              ltac:(vm_compute; reflexivity) ltac:(discriminate))
    as (before & best & after & a & date_text & reason_text & H).
  decompose [and] H. clear H.
  match goal with
  | Hd : detect_duplicates _ _ _ = _ |- _ => rewrite Hd
  end.
  reflexivity.
Defined.

(** * Further properties of the loader *)
Section LoaderProperties.
Context {L : Library}.

(** *** Record assembly *)

(** The cell that [make_record] reads at position [i] of a row. *)
Lemma nth_or_empty (row : list string) i :
  (if i <? List.length row then nth i row "" else "") = nth i row "".
Proof.
  destruct (i <? List.length row) eqn:E; [reflexivity |].
  apply Nat.ltb_ge in E. symmetry. now apply nth_overflow.
Qed.

Lemma make_record_fold (row : list string) h hs : forall s acc,
  (forall i, nth_error hs i = Some h ->
             (forall j, i < j -> nth_error hs j <> Some h) ->
             PyDict.get h
               (fold_left
                  (fun (record : PyDict.dict string) (ih : nat * string) =>
                     PyDict.set (snd ih)
                       (if fst ih <? List.length row then nth (fst ih) row "" else "")
                       record)
                  (combine (seq s (List.length hs)) hs) acc)
             = Some (nth (s + i) row ""))
  /\ (~ In h hs ->
      PyDict.get h
        (fold_left
           (fun (record : PyDict.dict string) (ih : nat * string) =>
              PyDict.set (snd ih)
                (if fst ih <? List.length row then nth (fst ih) row "" else "")
                record)
           (combine (seq s (List.length hs)) hs) acc)
      = PyDict.get h acc).
Proof.
  induction hs as [| h0 hs IH]; intros s acc.
  - split; [intros [| i]; discriminate | reflexivity].
  - cbn [List.length seq combine fold_left fst snd].
    destruct (IH (S s)
                 (PyDict.set h0 (if s <? List.length row then nth s row "" else "") acc))
      as [IHin IHout].
    split.
    + intros [| i] Hi Hlast.
      * cbn in Hi. injection Hi as ->.
        assert (Hnot : ~ In h hs).
        { intros Hin. apply In_nth_error in Hin. destruct Hin as [j Hj].
          apply (Hlast (S j)); [lia | exact Hj]. }
        rewrite (IHout Hnot), dict_get_set_same, nth_or_empty.
        f_equal. f_equal. lia.
      * cbn in Hi. rewrite (IHin i Hi).
        -- f_equal. f_equal. lia.
        -- intros j Hj. apply (Hlast (S j)). lia.
    + intros Hnot. rewrite IHout by (intros H; apply Hnot; now right).
      apply dict_get_set_other.
      apply String.eqb_neq. intros ->. apply Hnot. now left.
Qed.

(** X1. A record maps a label to the cell at the label's last position in the
    header row, to the empty string when the row is too short for it, and
    has no entry for a label that the header row lacks. *)
Theorem make_record_lookup headers row h :
  (forall i, nth_error headers i = Some h ->
             (forall j, i < j -> nth_error headers j <> Some h) ->
             PyDict.get h (make_record headers row) = Some (nth i row "")
             /\ (List.length row <= i -> PyDict.get h (make_record headers row) = Some ""))
  /\ (~ In h headers -> PyDict.get h (make_record headers row) = None).
Proof.
  unfold make_record.
  destruct (make_record_fold row h headers 0 []) as [Hin Hout]. split.
  - intros i Hi Hlast. rewrite (Hin i Hi Hlast). split; [reflexivity |].
    intros Hlen. f_equal. now apply nth_overflow.
  - intros Hnot. now rewrite (Hout Hnot).
Qed.

(** *** Rows and cells that the load does not depend on *)

Lemma find_header_row_app junk rest : forall i0,
  (forall r, In r junk -> is_header_row r = false) ->
  find_header_row i0 (junk ++ rest) = find_header_row (i0 + List.length junk) rest.
Proof.
  induction junk as [| r junk IH]; intros i0 H; cbn [app List.length find_header_row].
  - now rewrite Nat.add_0_r.
  - rewrite (H r (or_introl eq_refl)). rewrite IH by (intros x Hx; apply H; now right).
    f_equal. lia.
Qed.

Lemma set_values {V : Type} k (v x : V) d :
  In x (PyDict.values (PyDict.set k v d)) -> x = v \/ In x (PyDict.values d).
Proof.
  unfold PyDict.values. induction d as [| [k' v'] d IH]; cbn.
  - intros [<- | []]. now left.
  - destruct (String.eqb k k'); cbn.
    + intros [<- | H]; [now left | right; now right].
    + intros [<- | H]; [right; now left |].
      destruct (IH H) as [-> | H']; [now left | right; now right].
Qed.

(** Every value of a record is a cell of its row or the empty string. *)
Lemma make_record_values headers row v :
  In v (PyDict.values (make_record headers row)) -> v = "" \/ In v row.
Proof.
  unfold make_record.
  assert (Hgen : forall l (acc : PyDict.dict string),
             (forall x, In x (PyDict.values acc) -> x = "" \/ In x row) ->
             forall x,
               In x (PyDict.values
                       (fold_left
                          (fun (record : PyDict.dict string) (ih : nat * string) =>
                             PyDict.set (snd ih)
                               (if fst ih <? List.length row
                                then nth (fst ih) row "" else "") record) l acc)) ->
               x = "" \/ In x row).
  { induction l as [| [i h] l IH]; intros acc Hacc x; cbn [fold_left fst snd].
    - apply Hacc.
    - apply IH. intros y Hy. apply set_values in Hy. destruct Hy as [-> | Hy].
      + destruct (i <? List.length row) eqn:E; [| now left].
        right. apply nth_In. now apply Nat.ltb_lt.
      + now apply Hacc. }
  apply Hgen. intros x [].
Qed.

Lemma record_text_in_row headers row :
  record_has_data (make_record headers row) = true -> row_has_text row = true.
Proof.
  unfold record_has_data, row_has_text. rewrite !existsb_exists.
  intros (v & Hv & Ht). exists v. split; [| exact Ht].
  apply make_record_values in Hv. destruct Hv as [-> | Hv]; [discriminate Ht | exact Hv].
Qed.

(** The filter on the rows adds nothing to the filter on the records. *)
Lemma build_records_all headers data :
  build_records headers (filter row_has_text data)
  = filter record_has_data (map (make_record headers) data).
Proof.
  unfold build_records. induction data as [| row data IH]; [reflexivity |].
  cbn [filter map]. destruct (row_has_text row) eqn:E.
  - cbn [filter map]. now rewrite IH.
  - rewrite IH. destruct (record_has_data (make_record headers row)) eqn:E';
      [| reflexivity].
    apply record_text_in_row in E'. congruence.
Qed.

Lemma raw_records_header_first header data :
  is_header_row header = true ->
  raw_records (header :: data)
  = match filter record_has_data (map (make_record header) data) with
    | [] => None
    | recs => Some recs
    end.
Proof.
  intros Hh. unfold raw_records, data_rows_of, headers_and_start.
  cbn [find_header_row]. rewrite Hh. cbn [snd fst nth Nat.add List.length].
  destruct data as [| row data]; [reflexivity |].
  cbn [List.length Nat.ltb Nat.leb skipn]. rewrite <- build_records_all.
  destruct (filter row_has_text (row :: data)) eqn:E; [reflexivity |].
  destruct (build_records header (l :: l0)); reflexivity.
Qed.

Lemma load_by_records rows rows' :
  raw_records rows = raw_records rows' ->
  get_expenses_dataframe rows = get_expenses_dataframe rows'.
Proof. unfold get_expenses_dataframe. now intros ->. Qed.

(** X2. The rows above the header row are not read: with any rows that fail
    the header test put before a header row, the load is the same. *)
Theorem rows_before_header_ignored junk header data :
  (forall r, In r junk -> ~ header_like r) ->
  header_like header ->
  get_expenses_dataframe (junk ++ header :: data)
  = get_expenses_dataframe (header :: data).
Proof.
  intros Hjunk Hheader. apply is_header_row_iff in Hheader.
  assert (Hj : forall r, In r junk -> is_header_row r = false)
    by (intros r Hr; now apply is_header_row_false, Hjunk).
  apply load_by_records.
  rewrite (raw_records_header_first header data Hheader).
  unfold raw_records, data_rows_of, headers_and_start.
  rewrite (find_header_row_app junk (header :: data) 0 Hj).
  cbn [find_header_row Nat.add]. rewrite Hheader. cbn [fst snd].
  rewrite nth_middle, length_app. cbn [List.length].
  destruct (junk ++ header :: data) as [| x xs] eqn:Eapp;
    [destruct junk; discriminate |].
  rewrite <- Eapp.
  replace (skipn (List.length junk + 1) (junk ++ header :: data)) with data.
  2:{ rewrite skipn_app. rewrite skipn_all2 by lia.
      replace (List.length junk + 1 - List.length junk) with 1 by lia. reflexivity. }
  destruct data as [| row data].
  - match goal with |- context [?a <? ?b] => destruct (a <? b) end; reflexivity.
  - match goal with
    | |- context [?a <? ?b] =>
        replace (a <? b) with true
          by (symmetry; apply Nat.ltb_lt; cbn [List.length]; lia)
    end.
    rewrite <- build_records_all.
    destruct (filter row_has_text (row :: data)) eqn:E; [reflexivity |].
    destruct (build_records header (l :: l0)); reflexivity.
Qed.

(** X3. A sheet whose header row is its last row, such as a sheet that holds
    only its header, loads nothing. *)
Theorem header_in_last_row_fails rows i :
  find_header_row 0 rows = Some i -> i + 1 = List.length rows ->
  get_expenses_dataframe rows = None.
Proof.
  intros Hfind Hlast. unfold get_expenses_dataframe, raw_records.
  destruct rows as [| r rows]; [reflexivity |].
  unfold data_rows_of, headers_and_start. rewrite Hfind. cbn [snd].
  rewrite Hlast, Nat.ltb_irrefl. reflexivity.
Qed.

Lemma fold_left_ext_in {A B : Type} (f g : A -> B -> A) l :
  (forall acc x, In x l -> f acc x = g acc x) ->
  forall acc, fold_left f l acc = fold_left g l acc.
Proof.
  induction l as [| x l IH]; intros H acc; [reflexivity |].
  cbn. rewrite (H acc x (or_introl eq_refl)). apply IH.
  intros a y Hy. apply H. now right.
Qed.

Lemma make_record_firstn headers row :
  make_record headers (firstn (List.length headers) row) = make_record headers row.
Proof.
  unfold make_record. apply fold_left_ext_in. intros acc [i h] Hin. cbn [fst snd].
  apply in_combine_l in Hin. apply in_seq in Hin.
  rewrite !nth_or_empty. f_equal. rewrite nth_firstn.
  replace (i <? List.length headers) with true
    by (symmetry; apply Nat.ltb_lt; lia).
  reflexivity.
Qed.

(** X4. Cells beyond the header row's length are not read, and rows without
    text are not read: cutting every data row to the header's length, or
    leaving the blank rows out, gives the same load. *)
Theorem extra_cells_and_blank_rows_ignored header data :
  header_like header ->
  get_expenses_dataframe (header :: map (firstn (List.length header)) data)
  = get_expenses_dataframe (header :: data)
  /\ get_expenses_dataframe (header :: filter row_has_text data)
     = get_expenses_dataframe (header :: data).
Proof.
  intros Hheader. apply is_header_row_iff in Hheader.
  split; apply load_by_records; rewrite !(raw_records_header_first _ _ Hheader).
  - rewrite map_map.
    rewrite (map_ext _ (make_record header) (make_record_firstn header)).
    reflexivity.
  - rewrite <- !build_records_all.
    assert (Hidem : filter row_has_text (filter row_has_text data)
                    = filter row_has_text data).
    { rewrite filter_filter. apply filter_ext. intros r. apply andb_diag. }
    now rewrite Hidem.
Qed.

(** X5. A numeric column under an empty label does not serve as the amount
    column: when no label contains [amount] and the first column with a
    numeric cell has the empty label, the load fails. *)
Theorem unlabelled_amount_column_fails rows recs :
  raw_records rows = Some recs ->
  amount_by_header (columns (from_records recs)) = None ->
  amount_by_values (columns (from_records recs)) recs = Some "" ->
  get_expenses_dataframe rows = None.
Proof.
  intros Hraw Hheader Hvalues. unfold get_expenses_dataframe. rewrite Hraw.
  unfold typed_frame, add_amount, find_amount_col. rewrite Hheader. cbn [found negb].
  rewrite Hvalues. reflexivity.
Qed.

(** *** Where a loaded record comes from *)

Lemma assign_Forall2 {A : Type} (R R' : A -> row -> Prop) (P : A -> value -> Prop)
      n xs vals df :
  Forall2 R xs (records df) ->
  Forall2 P xs vals ->
  (forall x r v, R x r -> P x v -> R' x (PyDict.set n v r)) ->
  Forall2 R' xs (records (assign n vals df)).
Proof.
  unfold assign. cbn [records]. generalize (records df) as rs.
  intros rs HR. revert vals.
  induction HR as [| x r xs rs Hxr HR IH]; intros vals HP Hstep;
    inversion HP; subst; cbn [combine map]; constructor.
  - now apply Hstep.
  - now apply IH.
Qed.

Lemma Forall2_map_self {A B : Type} (g : A -> B) xs :
  Forall2 (fun x v => v = g x) xs (map g xs).
Proof. induction xs; cbn; constructor; auto. Qed.

Lemma Forall2_any {A B : Type} (xs : list A) (ys : list B) :
  List.length xs = List.length ys -> Forall2 (fun _ _ => True) xs ys.
Proof.
  revert ys. induction xs as [| x xs IH]; intros [| y ys] H; try discriminate;
    constructor; auto.
Qed.

Lemma Forall2_in_right {A B : Type} (R : A -> B -> Prop) xs ys y :
  Forall2 R xs ys -> In y ys -> exists x, In x xs /\ R x y.
Proof.
  induction 1 as [| x y' xs ys Hxy _ IH]; [intros [] |].
  intros [<- | Hin]; [exists x; split; [now left | exact Hxy] |].
  destruct (IH Hin) as (x' & Hx' & HR). exists x'. split; [now right | exact HR].
Qed.

Lemma dict_get_map {V W : Type} (f : V -> W) c (d : PyDict.dict V) :
  PyDict.get c (map (fun kv => (fst kv, f (snd kv))) d) = option_map f (PyDict.get c d).
Proof.
  induction d as [| [k v] d IH]; [reflexivity |].
  cbn. destruct (String.eqb c k); [reflexivity | exact IH].
Qed.

Lemma raw_records_rows rows recs rec :
  raw_records rows = Some recs -> In rec recs ->
  exists row, In row rows /\ rec = make_record (fst (headers_and_start rows)) row.
Proof.
  unfold raw_records. destruct rows as [| r0 rows0] eqn:Erows; [discriminate |].
  rewrite <- Erows. unfold data_rows_of.
  destruct (_ <? _); [| discriminate].
  destruct (filter row_has_text _) as [| d ds] eqn:Ef; [discriminate |].
  destruct (build_records _ (d :: ds)) as [| b bs] eqn:Eb; [discriminate |].
  intros H; injection H as <-. rewrite <- Eb. unfold build_records.
  intros Hin. apply filter_In in Hin. destruct Hin as [Hin _].
  apply in_map_iff in Hin. destruct Hin as (row & <- & Hrow).
  exists row. split; [| reflexivity].
  rewrite <- Ef in Hrow. apply filter_In in Hrow. destruct Hrow as [Hrow _].
  now apply in_skipn in Hrow.
Qed.

(** X6. Every loaded record is one sheet row: its amount is the normalized
    cell of the amount column of that row, and its cells under every label
    other than [Amount], [Date], [Category] and [Store/Merchant] are the
    row's cells as read.  ([to_datetime] is taken to return as many values
    as it is given.) *)
Theorem loaded_rows_come_from_sheet rows recs df :
  (forall xs ds, to_datetime xs = Some ds -> List.length ds = List.length xs) ->
  raw_records rows = Some recs ->
  get_expenses_dataframe rows = Some df ->
  exists amount_col,
    find_amount_col (columns (from_records recs)) recs = Some amount_col
    /\ forall r, In r (records df) ->
       exists row rec,
         In row rows
         /\ rec = make_record (fst (headers_and_start rows)) row
         /\ In rec recs
         /\ cell "Amount" r
            = VNum (normalize_amount
                      (match PyDict.get amount_col rec with Some s => s | None => "" end))
         /\ forall c, ~ In c ["Amount"; "Date"; "Category"; "Store/Merchant"] ->
                      PyDict.get c r = option_map VStr (PyDict.get c rec).
Proof.
  intros Hlen Hraw Hload.
  destruct (load_stages _ _ Hload) as (recs' & typed & Hraw' & Htyped & -> & _).
  rewrite Hraw in Hraw'. injection Hraw' as <-.
  unfold typed_frame, add_amount in Htyped.
  destruct (find_amount_col (columns (from_records recs)) recs) as [amount_col |];
    [| discriminate].
  destruct (found (Some amount_col)); [| discriminate].
  exists amount_col. split; [reflexivity |].
  set (text := fun rec : PyDict.dict string =>
                 match PyDict.get amount_col rec with Some s => s | None => "" end).
  set (R := fun (rec : PyDict.dict string) (r : row) =>
              cell "Amount" r = VNum (normalize_amount (text rec))
              /\ forall c, ~ In c ["Amount"; "Date"; "Category"; "Store/Merchant"] ->
                           PyDict.get c r = option_map VStr (PyDict.get c rec)).
  (* a step that sets a label other than Amount keeps the relation *)
  assert (Hkeep : forall n vals d,
             In n ["Date"; "Category"; "Store/Merchant"] ->
             List.length vals = List.length (records d) ->
             Forall2 R recs (records d) ->
             Forall2 R recs (records (assign n vals d))).
  { intros n vals d Hn Hl HR.
    apply (assign_Forall2 R R (fun _ _ => True) n recs vals d HR).
    - apply Forall2_any. rewrite (Forall2_length HR). now symmetry.
    - intros x r v [Ha Hc] _. split.
      + unfold cell. rewrite dict_get_set_other; [exact Ha |].
        destruct Hn as [<- | [<- | [<- | []]]]; reflexivity.
      + intros c Hc'. rewrite dict_get_set_other; [now apply Hc |].
        apply String.eqb_neq. intros ->. apply Hc'. cbn in Hn |- *. tauto. }
  set (cleaned := map strip_currency (column_text amount_col recs)) in Htyped.
  set (df0 := assign "Amount" (map (fun s => VNum (to_numeric s)) cleaned)
                     (assign "Amount" (map VStr cleaned) (from_records recs)))
    in Htyped.
  assert (H0 : Forall2 R recs (records df0)).
  { unfold df0.
    apply (assign_Forall2
             (fun rec r => forall c, c <> "Amount" ->
                                     PyDict.get c r = option_map VStr (PyDict.get c rec))
             R (fun rec v => v = VNum (normalize_amount (text rec)))).
    - apply (assign_Forall2
               (fun rec r => forall c, PyDict.get c r = option_map VStr (PyDict.get c rec))
               _ (fun _ _ => True)).
      + unfold from_records. cbn [records].
        clear. induction recs as [| rec recs IH]; cbn; constructor; [| exact IH].
        intros c. apply dict_get_map.
      + apply Forall2_any. unfold cleaned, column_text. now rewrite !length_map.
      + intros x r v Hx _ c Hc. rewrite dict_get_set_other; [apply Hx |].
        now apply String.eqb_neq.
    - unfold cleaned, column_text. rewrite !map_map.
      apply (Forall2_map_self
               (fun rec => VNum (to_numeric (strip_currency (text rec))))).
    - intros x r v Hx ->. split.
      + unfold cell. now rewrite dict_get_set_same.
      + intros c Hc. rewrite dict_get_set_other.
        * apply Hx. intros ->. apply Hc. now left.
        * apply String.eqb_neq. intros ->. apply Hc. now left. }
  assert (Hcolumn : forall c d, Forall2 R recs (records d) ->
                                List.length (column c d) = List.length (records d)).
  { intros c d _. unfold column. apply length_map. }
  destruct (add_date df0) as [df1 |] eqn:Hdate; [| discriminate].
  assert (H1 : Forall2 R recs (records df1)).
  { unfold add_date in Hdate. destruct (found _).
    - destruct (find is_date_label (columns df0)) as [c |]; [| discriminate].
      destruct (to_datetime (column c df0)) as [dates |] eqn:Ed; [| discriminate].
      injection Hdate as <-. apply Hkeep; [now left | | exact H0].
      rewrite length_map, (Hlen _ _ Ed). now apply Hcolumn.
    - destruct (date_like (columns df0) df0) as [dates |] eqn:El.
      + injection Hdate as <-. apply Hkeep; [now left | | exact H0].
        destruct (date_like_some _ _ _ El) as (c & _ & Ed & _).
        rewrite length_map, (Hlen _ _ Ed). now apply Hcolumn.
      + now injection Hdate as <-. }
  assert (H2 : Forall2 R recs (records (add_category df1))).
  { unfold add_category. destruct (find is_category_label (columns df1)); [| exact H1].
    apply Hkeep; [right; now left | now apply Hcolumn | exact H1]. }
  assert (H3 : Forall2 R recs (records (add_merchant (add_category df1)))).
  { unfold add_merchant. destruct (find is_merchant_label _); [| exact H2].
    apply Hkeep; [right; right; now left | now apply Hcolumn | exact H2]. }
  injection Htyped as <-.
  intros r Hr. rewrite drop_invalid_records in Hr. apply filter_In in Hr.
  destruct Hr as [Hr _].
  destruct (Forall2_in_right _ _ _ _ H3 Hr) as (rec & Hrec & Ha & Hc).
  destruct (raw_records_rows _ _ _ Hraw Hrec) as (row & Hrow & Heq).
  exists row, rec. repeat split; assumption.
Qed.

End LoaderProperties.

Lemma make_record_lookup_witness :
  PyDict.get "Amount" (make_record ["Date"; "Amount"; "Amount"; "Notes"]
                                   ["2024-05-05"; "10"; "20"])
  = Some "20"
  /\ PyDict.get "Notes" (make_record ["Date"; "Amount"; "Amount"; "Notes"]
                                     ["2024-05-05"; "10"; "20"])
     = Some "".
Proof.
  split.
  - apply (proj1 (make_record_lookup ["Date"; "Amount"; "Amount"; "Notes"]
                    ["2024-05-05"; "10"; "20"] "Amount") 2); [reflexivity |].
    intros [| [| [| [| [| j]]]]] Hj; try lia; cbn; discriminate.
  - apply (proj1 (make_record_lookup ["Date"; "Amount"; "Amount"; "Notes"]
                    ["2024-05-05"; "10"; "20"] "Notes") 3); [reflexivity | | cbn; lia].
    intros [| [| [| [| [| j]]]]] Hj; try lia; cbn; discriminate.
Defined.

Lemma rows_before_header_ignored_witness :
  @get_expenses_dataframe Instances.reference
    ([["My expenses"]; []; ["foo"; "bar"]]
       ++ ["Date"; "Amount"; "Category"] :: [["2024-01-01"; "12.50"; "Food"]])
  = @get_expenses_dataframe Instances.reference
      (["Date"; "Amount"; "Category"] :: [["2024-01-01"; "12.50"; "Food"]]).
Proof.
  apply (@rows_before_header_ignored Instances.reference).
  - intros r [<- | [<- | [<- | []]]]; apply is_header_row_false; reflexivity.
  - apply is_header_row_iff. reflexivity.
Defined.

Lemma header_in_last_row_fails_witness :
  @get_expenses_dataframe Instances.reference [default_headers] = None.
Proof.
  apply (@header_in_last_row_fails Instances.reference [default_headers] 0);
    reflexivity.
Defined.

Lemma extra_cells_and_blank_rows_ignored_witness :
  @get_expenses_dataframe Instances.reference
    (["Date"; "Amount"; "Category"]
       :: map (firstn 3) [["2024-01-01"; "12.50"; "Food"; "x"; "y"]; [" "; ""]])
  = @get_expenses_dataframe Instances.reference
      (["Date"; "Amount"; "Category"]
         :: [["2024-01-01"; "12.50"; "Food"; "x"; "y"]; [" "; ""]]).
Proof.
  apply (proj1 (@extra_cells_and_blank_rows_ignored Instances.reference
                  ["Date"; "Amount"; "Category"]
                  [["2024-01-01"; "12.50"; "Food"; "x"; "y"]; [" "; ""]]
                  ltac:(apply is_header_row_iff; reflexivity))).
Defined.

Lemma unlabelled_amount_column_fails_witness :
  @get_expenses_dataframe Instances.reference
    [["Date"; ""; "Store"]; ["2024-05-05"; "150"; "Jollibee"]] = None.
Proof.
  eapply (@unlabelled_amount_column_fails Instances.reference);
    vm_compute; reflexivity.
Defined.


Lemma loaded_rows_come_from_sheet_witness :
  exists df amount_col,
    @get_expenses_dataframe Instances.reference Examples.mixed = Some df
    /\ amount_col = "Amount"
    /\ forall r, In r (records df) ->
       exists row rec,
         In row Examples.mixed
         /\ rec = make_record (fst (headers_and_start Examples.mixed)) row
         /\ cell "Amount" r
            = VNum (@normalize_amount Instances.reference
                      (match PyDict.get amount_col rec with Some s => s | None => "" end))
         /\ PyDict.get "Store" r = option_map VStr (PyDict.get "Store" rec).
Proof.
  destruct (@loaded_rows_come_from_sheet Instances.reference Examples.mixed
              ltac:(let x := eval vm_compute in
                      (match raw_records Examples.mixed with Some r => r | None => [] end)
                    in exact x)
              ltac:(let x := eval vm_compute in
                      (match @get_expenses_dataframe Instances.reference Examples.mixed
                       with Some d => d | None => {| columns := []; records := [] |} end)
                    in exact x))
    as (amount_col & Hcol & Hrows).
  - intros xs ds H. injection H as <-. apply length_map.
  - vm_compute; reflexivity.
  - vm_compute; reflexivity.
  - eexists. exists amount_col. split; [vm_compute; reflexivity |].
    split; [vm_compute in Hcol; now injection Hcol as <- |].
    intros r Hr. destruct (Hrows r Hr) as (row & rec & H1 & H2 & _ & H4 & H5).
    exists row, rec. repeat split; try assumption.
    apply H5. cbn. intros [H | [H | [H | [H | []]]]]; discriminate H.
Defined.

(** * Further properties of the detector *)
From Stdlib Require Import Lqa.

Section DetectorProperties.
Context {L : Library}.

Lemma Qabs_zero_iff x : (Qabs x == 0)%Q <-> (x == 0)%Q.
Proof.
  split.
  - apply (Qabs_case x (fun y => (y == 0)%Q -> (x == 0)%Q)); intros _ H; lra.
  - intros H. rewrite H. reflexivity.
Qed.

Lemma qualifies_examine new_amount new_merchant merchant_col expense :
  qualifies new_amount new_merchant merchant_col expense = true <->
  exists info, examine new_amount new_merchant merchant_col expense = Some info.
Proof.
  unfold qualifies.
  destruct (examine new_amount new_merchant merchant_col expense) as [i |].
  - split; [intros _; now exists i | reflexivity].
  - split; [discriminate | intros (i & H); discriminate H].
Qed.

(** X7. The answer is [True] exactly when the sheet loads and some row of the
    comparison pool is classified as a duplicate. *)
Theorem duplicate_verdict now rows e :
  fst (detect_duplicates now rows e) = true <->
  exists df expense,
    get_expenses_dataframe rows = Some df
    /\ In expense (records (recent_expenses now df))
    /\ qualifies (new_amount_of e) (new_merchant_of e) (merchant_col_of df) expense
       = true.
Proof.
  unfold detect_duplicates.
  destruct (get_expenses_dataframe rows) as [df |] eqn:Hload.
  - destruct (load_stages _ _ Hload) as (_ & _ & _ & _ & _ & Hne).
    unfold empty. destruct (records df) eqn:Hrec; [contradiction |].
    rewrite (loaded_has_amount _ _ Hload). cbn [negb].
    destruct (duplicates_in now df e) as [| first rest] eqn:Hd.
    + split; [discriminate |]. intros (df' & expense & Hdf & Hin & Hq).
      injection Hdf as <-. apply qualifies_examine in Hq. destruct Hq as (info & Hq).
      assert (Hfound : In info (duplicates_in now df e))
        by (unfold duplicates_in; apply scan_In; now exists expense).
      rewrite Hd in Hfound. destruct Hfound.
    + split; [| reflexivity]. intros _.
      assert (Hfound : In first (duplicates_in now df e)) by (rewrite Hd; now left).
      unfold duplicates_in in Hfound. apply scan_In in Hfound.
      destruct Hfound as (expense & Hin & Hex).
      exists df, expense. repeat split; try assumption.
      apply qualifies_examine. now exists first.
  - split; [discriminate |]. intros (df & _ & H & _). discriminate H.
Qed.

(** X8. A stored row adds no entry, whatever the merchants are, when the
    difference of its amount and the new amount, as the subtraction on
    doubles gives it, is more than 2.0 in absolute value. *)
Theorem far_amount_never_matches new_amount new_merchant merchant_col expense :
  (forall a, amount_of expense = Some a ->
     (2 < Qabs (float_sub a new_amount))%Q) ->
  examine new_amount new_merchant merchant_col expense = None
  /\ qualifies new_amount new_merchant merchant_col expense = false.
Proof.
  intros Hfar.
  assert (H : examine new_amount new_merchant merchant_col expense = None).
  { unfold examine, amount_diff_of, classify.
    destruct (amount_of expense) as [a |]; [| reflexivity].
    specialize (Hfar a eq_refl).
    assert (Hz : is_zero (Some (Qabs (float_sub a new_amount))) = false).
    { apply (not_true_false _ _ (is_zero_iff _)). intros H. rewrite H in Hfar. lra. }
    assert (Ht : at_most_two (Some (Qabs (float_sub a new_amount))) = false).
    { apply (not_true_false _ _ (at_most_two_iff _)). intros H. lra. }
    rewrite Hz, Ht. reflexivity. }
  split; [exact H |]. unfold qualifies. now rewrite H.
Qed.

(** X9. With exactly one qualifying row in the pool, the answer is [True]
    and the text is the four lines of the warning, without the closing
    note: the new amount and merchant, then the amount, the merchant text,
    the date and the label of that row. *)
Theorem single_match_message now rows df e only :
  get_expenses_dataframe rows = Some df ->
  duplicates_in now df e = [only] ->
  let new_amount := new_amount_of e in
  let new_merchant := new_merchant_of e in
  let merchant_col := merchant_col_of df in
  let newline := String (ascii_of_nat 10) "" in
  exists expense a date_text reason_text,
    filter (qualifies new_amount new_merchant merchant_col)
           (records (recent_expenses now df)) = [expense]
    /\ cell "Amount" expense = VNum (Some a)
    /\ (forall t, PyDict.get "Date" expense = Some (VDate (Some t)) ->
          date_text = strftime t)
    /\ (PyDict.get "Date" expense = None -> date_text = "Unknown date")
    /\ (has_column "Date" df = true ->
        exists t, PyDict.get "Date" expense = Some (VDate (Some t)))
    /\ (let amount_diff := Qabs (float_sub a new_amount) in
        let sim :=
          merchant_similarity_of new_merchant
                                 (expense_merchant_of merchant_col expense) in
        let rule1 := (amount_diff == 0)%Q /\ (70 <= sim)%Z in
        let rule2 := (amount_diff <= 2)%Q /\ (85 <= sim)%Z in
        (rule1 -> reason_text = "Exact amount + similar merchant")
        /\ (~ rule1 -> rule2 ->
            reason_text = "Very close amount + very similar merchant")
        /\ (~ rule1 -> ~ rule2 ->
            reason_text = "Exact amount (merchant info missing)"))
    /\ detect_duplicates now rows e
       = (true,
          ("⚠️ Possible duplicate receipt found!" ++ newline ++ newline
           ++ "**New Receipt:** ₱" ++ format_2f new_amount ++ " at "
           ++ (if PyStr.truthy new_merchant then new_merchant else "Unknown")
           ++ newline
           ++ "**Existing:** ₱" ++ format_2f a ++ " at "
           ++ (if PyStr.truthy (expense_merchant_of merchant_col expense)
               then expense_merchant_of merchant_col expense
               else "Unknown")
           ++ " on " ++ date_text ++ newline
           ++ "**Reason:** " ++ reason_text ++ newline)%string).
Proof.
  intros Hload Hfound. cbv zeta.
  set (na := new_amount_of e). set (nm := new_merchant_of e).
  set (mc := merchant_col_of df).
  set (pool := records (recent_expenses now df)).
  pose proof (scan_rows na nm mc pool) as HF.
  assert (Hscan : scan na nm mc pool = [only]) by exact Hfound.
  rewrite Hscan in HF.
  inversion HF as [| expense info l l' Hexp Hnil Hl Hinfo]. subst info l'.
  inversion Hnil. subst l.
  destruct (examine_entry _ _ _ _ _ Hexp)
    as (a & Hamount & Hfst & Hea & Hem & Hed & Her & Hes).
  assert (Hpool : In expense pool).
  { assert (Hin : In expense (filter (qualifies na nm mc) pool))
      by (rewrite <- Hl; now left).
    apply filter_In in Hin. now destruct Hin. }
  exists expense, a, (expense_date_of expense),
    (snd (classify (Some (Qabs (float_sub a na)))
            (merchant_similarity_of nm (expense_merchant_of mc expense)) nm
            (expense_merchant_of mc expense))).
  split; [reflexivity |].
  split.
  { unfold amount_of in Hamount.
    destruct (cell "Amount" expense) as [s0 | x | t0]; try discriminate.
    now rewrite Hamount. }
  split; [apply (proj1 (expense_date_text expense)) |].
  split; [apply (proj2 (expense_date_text expense)) |].
  split.
  { intros Hcol.
    destruct (loaded_rows_dated rows df Hload Hcol expense
                (recent_expenses_subset _ _ _ Hpool)) as (t & Ht).
    exists t. now apply cell_get. }
  split; [exact (classify_reason _ _ _ _ Hfst) |].
  unfold detect_duplicates. rewrite Hload.
  destruct (load_stages _ _ Hload) as (_ & _ & _ & _ & _ & Hne).
  unfold empty. destruct (records df) eqn:Hrec; [contradiction |].
  rewrite (loaded_has_amount _ _ Hload), Hfound. cbn [negb].
  unfold duplicate_message. cbn [List.length Nat.ltb Nat.leb max_from].
  rewrite message_head_text. cbv zeta.
  fold na nm. rewrite Hea, Hem, Hed, Her. cbv zeta. fold mc.
  reflexivity.
Qed.

(** X10. When the merchant text of the new expense or of the stored row is
    empty, the row is a duplicate exactly when the two amounts are equal. *)
Theorem missing_merchant_needs_exact_amount new_amount new_merchant merchant_col
        expense a :
  amount_of expense = Some a ->
  new_merchant = "" \/ expense_merchant_of merchant_col expense = "" ->
  qualifies new_amount new_merchant merchant_col expense = true
  <-> (a == new_amount)%Q.
Proof.
  intros Ha Hempty. unfold qualifies, examine, amount_diff_of, classify. rewrite Ha.
  set (em := expense_merchant_of merchant_col expense) in *.
  assert (Hsim : merchant_similarity_of new_merchant em = 0%Z).
  { unfold merchant_similarity_of.
    destruct Hempty as [-> | ->]; [reflexivity | now rewrite andb_false_r]. }
  rewrite Hsim. cbn [Z.leb Z.compare]. rewrite !andb_false_r.
  assert (Hor : negb (PyStr.truthy new_merchant) || negb (PyStr.truthy em) = true).
  { destruct Hempty as [-> | ->]; [reflexivity | apply orb_true_r]. }
  rewrite Hor, andb_true_r.
  destruct (is_zero (Some (Qabs (float_sub a new_amount)))) eqn:Hz; cbn [fst snd].
  - split; [intros _ | reflexivity].
    apply is_zero_iff in Hz. apply (proj1 (Qabs_zero_iff _)) in Hz.
    now apply float_sub_zero.
  - split; [discriminate |]. intros Heq.
    assert (Hz' : is_zero (Some (Qabs (float_sub a new_amount))) = true).
    { apply is_zero_iff. apply (proj2 (Qabs_zero_iff _)).
      now apply float_sub_zero. }
    congruence.
Qed.

End DetectorProperties.

Lemma duplicate_verdict_witness :
  fst (@detect_duplicates Instances.reference Examples.new_year_2024
         Examples.receipts Examples.jollibee_100) = true.
Proof.
  apply (@duplicate_verdict Instances.reference).
  exists Examples.receipts_frame, Examples.third_receipt.
  split; [vm_compute; reflexivity |].
  split; [vm_compute; right; left; reflexivity | vm_compute; reflexivity].
Defined.

Lemma far_amount_never_matches_witness :
  @examine Instances.reference (Qmake 100 1) "shell" (Some "Store")
           [("Store", VStr "Shell"); ("Amount", VNum (Some (Qmake 900 1)))]
  = None.
Proof.
  apply (@far_amount_never_matches Instances.reference).
  intros a Ha. vm_compute in Ha. injection Ha as <-. vm_compute. reflexivity.
Defined.

Lemma single_match_message_witness :
  fst (@detect_duplicates Instances.reference Examples.new_year_2024
         Examples.receipts
         {| total_amount := Some (Qmake 900 1); merchant := Some "Shell" |}) = true
  /\ @detect_duplicates Instances.reference Examples.new_year_2024
       Examples.receipts
       {| total_amount := Some (Qmake 900 1); merchant := Some "Shell" |}
     = (true,
        ("⚠️ Possible duplicate receipt found!" ++ nl ++ nl
         ++ "**New Receipt:** ₱900.00 at shell" ++ nl
         ++ "**Existing:** ₱900.00 at shell on 2023-12-12 00:00" ++ nl
         ++ "**Reason:** Exact amount + similar merchant" ++ nl)%string).
Proof.
  split; [| vm_compute; reflexivity].
  destruct (@single_match_message Instances.reference Examples.new_year_2024
              Examples.receipts Examples.receipts_frame
              {| total_amount := Some (Qmake 900 1); merchant := Some "Shell" |}
              _ ltac:(vm_compute; reflexivity) ltac:(vm_compute; reflexivity))
    as (expense & a & date_text & reason_text & H).
  decompose [and] H. clear H.
  match goal with
  | Hd : detect_duplicates _ _ _ = _ |- _ => rewrite Hd
  end.
  reflexivity.
Defined.

Lemma missing_merchant_needs_exact_amount_witness :
  @qualifies Instances.reference (Qmake 100 1) "" (Some "Store")
             Examples.third_receipt = true.
Proof.
  apply (@missing_merchant_needs_exact_amount Instances.reference (Qmake 100 1) ""
           (Some "Store") Examples.third_receipt (Qmake 100 1)).
  - vm_compute; reflexivity.
  - left; reflexivity.
  - reflexivity.
Defined.

(** * Properties of [get_budget_status] *)
Section BudgetStatusProperties.
Context {L : Library}.

Lemma positive_iff q : positive q = true <-> (0 < q)%Q.
Proof.
  unfold positive. rewrite Qlt_alt. change (Qcompare 0 q) with (0 ?= q)%Q.
  destruct (0 ?= q)%Q; split; intros H; try reflexivity; discriminate.
Qed.

Lemma amount_sum_from rows : forall acc,
  (forall r, In r rows -> exists a, amount_of r = Some a /\ (0 < a)%Q) ->
  (acc <= fold_left
            (fun acc r => match amount_of r with Some a => (acc + a)%Q | None => acc end)
            rows acc)%Q
  /\ (rows <> [] ->
      (acc < fold_left
               (fun acc r => match amount_of r with Some a => (acc + a)%Q | None => acc end)
               rows acc)%Q).
Proof.
  induction rows as [| r rows IH]; intros acc H; cbn [fold_left].
  - split; [lra | contradiction].
  - destruct (H r (or_introl eq_refl)) as (a & Ha & Hpos). rewrite Ha.
    destruct (IH (acc + a)%Q (fun x Hx => H x (or_intror Hx))) as [Hle _].
    split; [| intros _]; lra.
Qed.

Lemma amount_sum_positive rows :
  (forall r, In r rows -> exists a, amount_of r = Some a /\ (0 < a)%Q) ->
  rows <> [] -> (0 < amount_sum rows)%Q.
Proof. intros H Hne. now apply (amount_sum_from rows 0%Q H). Qed.

Lemma monthly_data_rows now df :
  records df <> [] ->
  records (monthly_data_of now df) <> []
  /\ forall r, In r (records (monthly_data_of now df)) -> In r (records df).
Proof.
  intros Hne. unfold monthly_data_of. destruct (has_column "Date" df); [| auto].
  destruct (empty (select (dated_since (replace_day_1 now)) df)) eqn:E; [auto |].
  split.
  - unfold empty in E. destruct (records (select _ df)); [discriminate E | discriminate].
  - intros r Hr. now apply select_records in Hr.
Qed.

Lemma budget_status_loaded now rows df monthly_budget :
  get_expenses_dataframe rows = Some df ->
  get_budget_status now rows monthly_budget
  = let spent := amount_sum (records (monthly_data_of now df)) in
    let percentage_used :=
      if positive monthly_budget
      then float_mul (float_div spent monthly_budget) 100%Q
      else 0%Q in
    {| status := status_of percentage_used; budget := monthly_budget; spent := spent;
       remaining := (monthly_budget - spent)%Q; percentage := percentage_used |}.
Proof.
  intros Hload. unfold get_budget_status. rewrite Hload.
  destruct (load_stages _ _ Hload) as (_ & _ & _ & _ & _ & Hne).
  assert (He : empty df = false)
    by (unfold empty; destruct (records df); [contradiction | reflexivity]).
  rewrite He, (loaded_has_amount _ _ Hload). cbn [negb orb].
  destruct (monthly_data_rows now df Hne) as [Hm _].
  assert (He' : empty (monthly_data_of now df) = false)
    by (unfold empty; destruct (records (monthly_data_of now df));
        [contradiction | reflexivity]).
  rewrite He'. reflexivity.
Qed.

Lemma loaded_spent_positive now rows df :
  get_expenses_dataframe rows = Some df ->
  (0 < amount_sum (records (monthly_data_of now df)))%Q.
Proof.
  intros Hload.
  destruct (load_stages _ _ Hload) as (_ & _ & _ & _ & _ & Hne).
  destruct (monthly_data_rows now df Hne) as [Hm Hsub].
  apply amount_sum_positive; [| exact Hm].
  intros r Hr. apply (loaded_rows_positive rows df r Hload). now apply Hsub.
Qed.


Lemma Qle_bool_false x y : Qle_bool x y = false <-> (y < x)%Q.
Proof.
  split.
  - intros H. destruct (Qlt_le_dec y x) as [Hlt | Hle]; [exact Hlt |].
    apply Qle_bool_iff in Hle. congruence.
  - intros H. destruct (Qle_bool x y) eqn:E; [| reflexivity].
    apply Qle_bool_iff in E. lra.
Qed.

Lemma status_of_tiers p :
  (status_of p = "🚨 OVER BUDGET!" <-> (100 <= p)%Q)
  /\ (status_of p = "⚠️ Approaching Limit" <-> (80 <= p)%Q /\ (p < 100)%Q)
  /\ (status_of p = "📊 On Track" <-> (60 <= p)%Q /\ (p < 80)%Q)
  /\ (status_of p = "✅ Under Budget" <-> (p < 60)%Q).
Proof.
  unfold status_of.
  destruct (Qle_bool 100 p) eqn:E100;
    [apply Qle_bool_iff in E100 | apply Qle_bool_false in E100];
    (destruct (Qle_bool 80 p) eqn:E80;
     [apply Qle_bool_iff in E80 | apply Qle_bool_false in E80]);
    (destruct (Qle_bool 60 p) eqn:E60;
     [apply Qle_bool_iff in E60 | apply Qle_bool_false in E60]);
    repeat split; intros; try reflexivity; try discriminate; try lra.
Qed.

(** X12. With a positive budget and a loaded frame, the percentage reported
    is the float quotient of [spent] and the budget, times 100, as the
    operations on doubles give it, and the status is decided by this
    percentage: over budget from 100 on, approaching from 80, on track from
    60, under budget below that.  Whenever the two operations do not round
    across a number they could return exactly (a quotient of at least 1 is
    not rounded below 1, 100 times a number of at least 1 is not rounded
    below 100), spending that reaches the budget is reported as over
    budget. *)
Theorem budget_status_tiers now rows df monthly_budget :
  (0 < monthly_budget)%Q ->
  get_expenses_dataframe rows = Some df ->
  let r := get_budget_status now rows monthly_budget in
  percentage r = float_mul (float_div (spent r) monthly_budget) 100%Q
  /\ (status r = "🚨 OVER BUDGET!" <-> (100 <= percentage r)%Q)
  /\ (status r = "⚠️ Approaching Limit"
      <-> (80 <= percentage r)%Q /\ (percentage r < 100)%Q)
  /\ (status r = "📊 On Track"
      <-> (60 <= percentage r)%Q /\ (percentage r < 80)%Q)
  /\ (status r = "✅ Under Budget" <-> (percentage r < 60)%Q)
  /\ ((forall x y, (0 < y)%Q -> (y <= x)%Q -> (1 <= float_div x y)%Q) ->
      (forall x, (1 <= x)%Q -> (100 <= float_mul x 100)%Q) ->
      (monthly_budget <= spent r)%Q -> status r = "🚨 OVER BUDGET!").
Proof.
  intros Hm Hload. cbv zeta.
  rewrite (budget_status_loaded now rows df monthly_budget Hload).
  cbn [status spent percentage].
  set (s := amount_sum (records (monthly_data_of now df))).
  rewrite (proj2 (positive_iff monthly_budget) Hm).
  destruct (status_of_tiers (float_mul (float_div s monthly_budget) 100%Q))
    as (H100 & H80 & H60 & Hlow).
  split; [reflexivity |].
  split; [exact H100 |]. split; [exact H80 |]. split; [exact H60 |].
  split; [exact Hlow |].
  intros Hdiv Hmul Hover. apply H100. apply Hmul. now apply Hdiv.
Qed.

(** X13. A budget of zero or less is reported as under budget at 0 per cent,
    although the loaded spending leaves a negative remainder. *)
Theorem budget_status_without_budget now rows df monthly_budget :
  (monthly_budget <= 0)%Q ->
  get_expenses_dataframe rows = Some df ->
  let r := get_budget_status now rows monthly_budget in
  status r = "✅ Under Budget" /\ percentage r = 0%Q /\ (remaining r < 0)%Q.
Proof.
  intros Hm Hload.
  pose proof (loaded_spent_positive now rows df Hload) as Hpos.
  cbv zeta.
  rewrite (budget_status_loaded now rows df monthly_budget Hload). cbn.
  assert (Hp : positive monthly_budget = false).
  { destruct (positive monthly_budget) eqn:E; [| reflexivity].
    apply positive_iff in E. lra. }
  rewrite Hp. repeat split. lra.
Qed.

(** X14. In a frame with a [Date] column, [spent] is the sum over the rows
    dated since the first of the month when there is such a row, and the
    sum over all rows when there is none. *)
Theorem budget_status_month_fallback now rows df monthly_budget :
  get_expenses_dataframe rows = Some df ->
  has_column "Date" df = true ->
  let r := get_budget_status now rows monthly_budget in
  ((exists x, In x (records df) /\ dated_since (replace_day_1 now) x = true) ->
   spent r = amount_sum (filter (dated_since (replace_day_1 now)) (records df)))
  /\ ((forall x, In x (records df) -> dated_since (replace_day_1 now) x = false) ->
      spent r = amount_sum (records df)).
Proof.
  intros Hload Hcol. cbv zeta.
  rewrite (budget_status_loaded now rows df monthly_budget Hload). cbn [spent].
  unfold monthly_data_of. rewrite Hcol. unfold empty, select. cbn [records].
  split.
  - intros (x & Hx & Hd).
    destruct (filter (dated_since (replace_day_1 now)) (records df)) eqn:E;
      [| reflexivity].
    assert (Hin : In x (filter (dated_since (replace_day_1 now)) (records df)))
      by (apply filter_In; auto).
    rewrite E in Hin. destruct Hin.
  - intros Hnone.
    destruct (filter (dated_since (replace_day_1 now)) (records df)) as [| y ys] eqn:E;
      [reflexivity |].
    assert (Hin : In y (filter (dated_since (replace_day_1 now)) (records df)))
      by (rewrite E; now left).
    apply filter_In in Hin. destruct Hin as [Hy Hd]. rewrite (Hnone y Hy) in Hd.
    discriminate.
Qed.

End BudgetStatusProperties.


Lemma budget_status_tiers_witness :
  status (@get_budget_status Instances.reference Examples.new_year_2024
            Examples.receipts (Qmake 1500 1)) = "⚠️ Approaching Limit"
  /\ status (@get_budget_status Instances.reference Examples.new_year_2024
               Examples.receipts (Qmake 1000 1)) = "🚨 OVER BUDGET!".
Proof.
  split.
  - destruct (@budget_status_tiers Instances.reference Examples.new_year_2024
                Examples.receipts Examples.receipts_frame (Qmake 1500 1))
      as (_ & _ & H & _).
    + vm_compute; reflexivity.
    + vm_compute; reflexivity.
    + apply H. split; vm_compute; first [reflexivity | discriminate].
  - destruct (@budget_status_tiers Instances.reference Examples.new_year_2024
                Examples.receipts Examples.receipts_frame (Qmake 1000 1))
      as (_ & _ & _ & _ & _ & H).
    + vm_compute; reflexivity.
    + vm_compute; reflexivity.
    + apply H.
      * intros x y Hy Hxy. cbn [float_div Instances.reference].
        apply Qle_shift_div_l; [exact Hy | lra].
      * intros x Hx. cbn [float_mul Instances.reference]. lra.
      * vm_compute; discriminate.
Defined.

Lemma budget_status_without_budget_witness :
  status (@get_budget_status Instances.reference Examples.new_year_2024
            Examples.receipts 0%Q) = "✅ Under Budget"
  /\ (remaining (@get_budget_status Instances.reference Examples.new_year_2024
                   Examples.receipts 0%Q) < 0)%Q.
Proof.
  destruct (@budget_status_without_budget Instances.reference Examples.new_year_2024
              Examples.receipts Examples.receipts_frame 0%Q) as (Hs & _ & Hr).
  - vm_compute; discriminate.
  - vm_compute; reflexivity.
  - split; [exact Hs | exact Hr].
Defined.

Lemma budget_status_month_fallback_witness :
  spent (@get_budget_status Instances.reference Examples.new_year_2024
           Examples.receipts (Qmake 1500 1))
  = amount_sum (records Examples.receipts_frame).
Proof.
  apply (proj2 (@budget_status_month_fallback Instances.reference
                  Examples.new_year_2024 Examples.receipts Examples.receipts_frame
                  (Qmake 1500 1) ltac:(vm_compute; reflexivity)
                  ltac:(vm_compute; reflexivity))).
  intros x Hx. vm_compute in Hx.
  repeat (destruct Hx as [<- | Hx]; [vm_compute; reflexivity |]).
  destruct Hx.
Defined.

(** * Properties of [get_recent_expenses] *)
Section SheetsProperties.

Lemma slice_from_tail {A : Type} (limit : Z) (xs : list A) :
  (0 < limit)%Z ->
  slice_from (- limit) xs = skipn (List.length xs - Z.to_nat limit) xs.
Proof.
  intros H. unfold slice_from.
  replace (- limit <? 0)%Z with true by (symmetry; apply Z.ltb_lt; lia).
  f_equal. lia.
Qed.

Lemma slice_from_front {A : Type} (limit : Z) (xs : list A) :
  (limit <= 0)%Z ->
  slice_from (- limit) xs = skipn (Z.to_nat (- limit)) xs.
Proof.
  intros H. unfold slice_from.
  replace (- limit <? 0)%Z with false by (symmetry; apply Z.ltb_ge; lia).
  destruct (Z.min_spec (- limit) (Z.of_nat (List.length xs))) as [[_ ->] | [Hle ->]];
    [reflexivity |].
  rewrite (skipn_all2 (n := Z.to_nat (Z.of_nat (List.length xs)))) by lia.
  rewrite skipn_all2 by lia. reflexivity.
Qed.

(** X15. With a positive [limit] the result has at most [limit] records, each
    built under the labels of the first row from one of the rows below it
    that has at least three cells; a sheet of fewer than two rows gives no
    record, and a sheet with at most [limit] data rows gives a record for
    each of its data rows of three cells or more. *)
Theorem recent_expenses_within_limit all_values limit :
  (0 < limit)%Z ->
  List.length (get_recent_expenses all_values limit) <= Z.to_nat limit
  /\ (List.length all_values < 2 -> get_recent_expenses all_values limit = [])
  /\ (forall rec, In rec (get_recent_expenses all_values limit) ->
        exists row, In row (tl all_values) /\ 3 <= List.length row
                    /\ rec = make_record (hd [] all_values) row)
  /\ (2 <= List.length all_values ->
      List.length (tl all_values) <= Z.to_nat limit ->
      get_recent_expenses all_values limit
      = map (make_record (hd [] all_values))
            (filter (fun row => 3 <=? List.length row) (tl all_values))).
Proof.
  intros Hlimit. unfold get_recent_expenses.
  destruct all_values as [| headers data_rows].
  - cbn. split; [lia |]. split; [reflexivity |].
    split; [intros rec [] | intros H; lia].
  - cbn [hd tl]. destruct (List.length (headers :: data_rows) <? 2) eqn:E.
    + cbn [List.length]. split; [lia |]. split; [reflexivity |].
      split; [intros rec [] |]. intros H. apply Nat.ltb_lt in E.
      cbn [List.length] in E. lia.
    + apply Nat.ltb_ge in E. cbn [List.length] in E.
      rewrite slice_from_tail by exact Hlimit.
      split; [| split; [| split]].
      * rewrite length_map.
        etransitivity; [apply filter_length_le |]. rewrite length_skipn. lia.
      * intros H. cbn [List.length] in H. lia.
      * intros rec Hrec. apply in_map_iff in Hrec. destruct Hrec as (row & <- & Hrow).
        apply filter_In in Hrow. destruct Hrow as [Hrow Hlen].
        exists row. split; [now apply in_skipn in Hrow |].
        split; [now apply Nat.leb_le | reflexivity].
      * intros _ Hfew.
        replace (List.length data_rows - Z.to_nat limit) with 0 by lia.
        reflexivity.
Qed.

(** X16. A [limit] of zero does not give an empty answer: it gives a record for
    every data row of three cells or more, and a negative [limit] leaves
    out that many rows from the top. *)
Theorem recent_expenses_without_limit all_values limit :
  (limit <= 0)%Z -> 2 <= List.length all_values ->
  get_recent_expenses all_values limit
  = map (make_record (hd [] all_values))
        (filter (fun row => 3 <=? List.length row)
                (skipn (Z.to_nat (- limit)) (tl all_values)))
  /\ (limit = 0%Z ->
      get_recent_expenses all_values limit
      = map (make_record (hd [] all_values))
            (filter (fun row => 3 <=? List.length row) (tl all_values))).
Proof.
  intros Hlimit Hlen. unfold get_recent_expenses.
  destruct all_values as [| headers data_rows]; [cbn in Hlen; lia |].
  cbn [hd tl]. replace (List.length (headers :: data_rows) <? 2) with false
    by (symmetry; apply Nat.ltb_ge; exact Hlen).
  rewrite slice_from_front by exact Hlimit.
  split; [reflexivity | intros ->; reflexivity].
Qed.

(** X17. When the first row passes the loader's header test, every record of
    [get_recent_expenses] that has some text is also one of the records
    that [get_expenses_dataframe] builds from the sheet. *)
Theorem recent_expenses_are_loader_records headers data_rows limit rec :
  header_like headers ->
  In rec (get_recent_expenses (headers :: data_rows) limit) ->
  record_has_data rec = true ->
  exists recs, raw_records (headers :: data_rows) = Some recs /\ In rec recs.
Proof.
  intros Hh Hrec Hdata. apply is_header_row_iff in Hh.
  rewrite (raw_records_header_first headers data_rows Hh).
  unfold get_recent_expenses in Hrec.
  destruct (List.length (headers :: data_rows) <? 2); [destruct Hrec |].
  apply in_map_iff in Hrec. destruct Hrec as (row & <- & Hrow).
  apply filter_In in Hrow. destruct Hrow as [Hrow _].
  assert (Hin : In row data_rows).
  { unfold slice_from in Hrow. now apply in_skipn in Hrow. }
  assert (Hfound : In (make_record headers row)
                      (filter record_has_data (map (make_record headers) data_rows))).
  { apply filter_In. split; [now apply in_map | exact Hdata]. }
  destruct (filter record_has_data (map (make_record headers) data_rows)) as [| d ds];
    [destruct Hfound |].
  exists (d :: ds). split; [reflexivity | exact Hfound].
Qed.

End SheetsProperties.

Lemma recent_expenses_within_limit_witness :
  List.length (get_recent_expenses Examples.receipts 2) <= 2
  /\ get_recent_expenses Examples.receipts 2
     = [make_record ["Date"; "Store"; "Amount"] ["2023-12-12"; "Shell"; "900"];
        make_record ["Date"; "Store"; "Amount"] ["2023-12-12"; ""; "100"]].
Proof.
  split.
  - apply (proj1 (recent_expenses_within_limit Examples.receipts 2 eq_refl)).
  - reflexivity.
Defined.

Lemma recent_expenses_without_limit_witness :
  List.length (get_recent_expenses Examples.receipts 0) = 6.
Proof.
  rewrite (proj2 (recent_expenses_without_limit Examples.receipts 0
                    ltac:(discriminate) ltac:(cbn; lia)) eq_refl).
  reflexivity.
Defined.

Lemma recent_expenses_are_loader_records_witness :
  exists recs,
    raw_records Examples.receipts = Some recs
    /\ In (make_record ["Date"; "Store"; "Amount"] ["2023-12-12"; "Shell"; "900"]) recs.
Proof.
  apply (recent_expenses_are_loader_records
           ["Date"; "Store"; "Amount"] (tl Examples.receipts) 2).
  - apply is_header_row_iff. reflexivity.
  - left. reflexivity.
  - reflexivity.
Defined.

(** * Properties of [BudgetManager] *)
Section BudgetProperties.
Context {L : Library}.
Variable format_1f : Q -> string.

(** X18. A budget that was set is read back: a category budget under its
    category when the category is not empty, the total budget with no
    category. *)
Theorem budget_set_then_get b user_id category amount period created :
  (category <> "" ->
   Budget.get_budget
     (Budget.set_budget b user_id category amount period created)
     user_id (Some category)
   = Some {| Budget.amount := amount; Budget.period := period;
             Budget.created := created |})
  /\ Budget.get_budget (Budget.set_total_budget b user_id amount period created)
                       user_id None
     = Some {| Budget.amount := amount; Budget.period := period;
               Budget.created := created |}.
Proof.
  unfold Budget.get_budget, Budget.set_budget, Budget.set_total_budget. split.
  - intros Hc. rewrite dict_get_set_same. cbn [Budget.categories].
    destruct category; [contradiction |]. cbn [found PyStr.truthy].
    apply dict_get_set_same.
  - rewrite dict_get_set_same. reflexivity.
Qed.

(** X19. A budget set under the empty category is not read back: asking for
    the empty category gives the total budget, and nothing when the user
    has no total budget. *)
Theorem empty_category_reads_total b user_id amount period created :
  Budget.get_budget (Budget.set_budget b user_id "" amount period created)
                    user_id (Some "")
  = Budget.total (Budget.user_entry b user_id)
  /\ (Budget.total (Budget.user_entry b user_id) = None ->
      Budget.get_budget (Budget.set_budget b user_id "" amount period created)
                        user_id (Some "") = None).
Proof.
  assert (H : Budget.get_budget
                (Budget.set_budget b user_id "" amount period created)
                user_id (Some "")
              = Budget.total (Budget.user_entry b user_id)).
  { unfold Budget.get_budget, Budget.set_budget. rewrite dict_get_set_same.
    reflexivity. }
  split; [exact H | intros Hnone; now rewrite H].
Qed.

Lemma user_entry_total b user_id :
  Budget.get_budget b user_id None = Budget.total (Budget.user_entry b user_id).
Proof.
  unfold Budget.get_budget, Budget.user_entry.
  destruct (PyDict.get user_id b); reflexivity.
Qed.

Lemma user_entry_category b user_id c :
  c <> "" ->
  Budget.get_budget b user_id (Some c)
  = PyDict.get c (match Budget.categories (Budget.user_entry b user_id) with
                  | Some cs => cs
                  | None => []
                  end).
Proof.
  intros Hc. unfold Budget.get_budget, Budget.user_entry.
  destruct c; [contradiction |]. cbn [found PyStr.truthy].
  destruct (PyDict.get user_id b); reflexivity.
Qed.

(** X20. Setting a category budget changes nothing else: every other user,
    every other category of the same user and the total budget read as
    before. *)
Theorem set_budget_keeps_the_rest b user_id category amount period created
        user_id' category' :
  let b' := Budget.set_budget b user_id category amount period created in
  (user_id' <> user_id \/ category' <> category ->
   Budget.get_budget b' user_id' (Some category')
   = Budget.get_budget b user_id' (Some category'))
  /\ Budget.get_budget b' user_id' None = Budget.get_budget b user_id' None.
Proof.
  cbv zeta. destruct (String.eqb user_id' user_id) eqn:Eu.
  - apply String.eqb_eq in Eu. subst user_id'. split.
    + intros [Hu | Hc]; [contradiction |].
      destruct category' as [| ch rest].
      * (* the empty category asks for the total *)
        unfold Budget.get_budget, Budget.set_budget. rewrite dict_get_set_same.
        cbn [found PyStr.truthy Budget.total]. unfold Budget.user_entry.
        destruct (PyDict.get user_id b); reflexivity.
      * rewrite !user_entry_category by discriminate.
        unfold Budget.set_budget at 1. unfold Budget.user_entry at 1.
        rewrite dict_get_set_same. cbn [Budget.categories].
        apply dict_get_set_other. apply String.eqb_neq. exact Hc.
    + rewrite !user_entry_total. unfold Budget.set_budget.
      unfold Budget.user_entry at 1. rewrite dict_get_set_same. reflexivity.
  - assert (Hget : PyDict.get user_id'
                     (Budget.set_budget b user_id category amount period created)
                   = PyDict.get user_id' b)
      by (unfold Budget.set_budget; now apply dict_get_set_other).
    unfold Budget.get_budget. rewrite Hget. split; [intros _ |]; reflexivity.
Qed.

(** X21. Setting the total budget changes no category budget and no other
    user's budgets. *)
Theorem set_total_budget_keeps_the_rest b user_id amount period created
        user_id' category' :
  let b' := Budget.set_total_budget b user_id amount period created in
  (category' <> "" ->
   Budget.get_budget b' user_id' (Some category')
   = Budget.get_budget b user_id' (Some category'))
  /\ (user_id' <> user_id ->
      Budget.get_budget b' user_id' None = Budget.get_budget b user_id' None).
Proof.
  cbv zeta. split.
  - intros Hc. rewrite !user_entry_category by exact Hc. f_equal.
    unfold Budget.set_total_budget, Budget.user_entry.
    destruct (String.eqb user_id' user_id) eqn:Eu.
    + apply String.eqb_eq in Eu. subst user_id'. rewrite dict_get_set_same.
      reflexivity.
    + now rewrite dict_get_set_other.
  - intros Hu. unfold Budget.get_budget, Budget.set_total_budget.
    rewrite dict_get_set_other; [reflexivity |]. now apply String.eqb_neq.
Qed.

Lemma category_alerts_result cats spending : forall alerts result,
  Budget.category_alerts format_1f cats spending alerts = Some result ->
  exists extra, result = alerts ++ extra /\ List.length extra <= List.length cats.
Proof.
  induction cats as [| [c info] cats IH]; intros alerts result; cbn.
  - intros H; injection H as <-. exists []. split; [now rewrite app_nil_r | cbn; lia].
  - destruct (PyDict.get c spending) as [spent |].
    + destruct (Budget.percentage_of spent (Budget.amount info)) as [p |];
        [| discriminate].
      intros H. destruct (IH _ _ H) as (extra & -> & Hlen).
      exists (Budget.category_alert format_1f c p ++ extra).
      split; [now rewrite app_assoc |].
      rewrite length_app. unfold Budget.category_alert.
      destruct (Qle_bool 90 p); [cbn; lia |]. destruct (Qle_bool 75 p); cbn; lia.
    + intros H. destruct (IH _ _ H) as (extra & -> & Hlen).
      exists extra. split; [reflexivity | lia].
Qed.

(** X22. An answer has at most one alert for the total budget and one for each
    category budget. *)
Theorem budget_alerts_bounded b user_id spending alerts :
  Budget.check_budget_alerts format_1f b user_id spending = Some alerts ->
  List.length alerts
  <= 1 + List.length (match Budget.categories (Budget.get_all_budgets b user_id) with
                      | Some cs => cs
                      | None => []
                      end).
Proof.
  unfold Budget.check_budget_alerts.
  set (cats := match Budget.categories (Budget.get_all_budgets b user_id) with
               | Some cs => cs
               | None => []
               end).
  match goal with
  | |- match ?t with _ => _ end = _ -> _ => destruct t as [first |] eqn:Ht
  end; [| discriminate].
  assert (Hfirst : List.length first <= 1).
  { destruct (Budget.total (Budget.get_all_budgets b user_id)) as [tb |].
    - destruct (positive _).
      + destruct (Budget.percentage_of _ _) as [p |]; [| discriminate].
        injection Ht as <-. unfold Budget.total_alert.
        destruct (Qle_bool 90 p); [cbn; lia |]. destruct (Qle_bool 75 p); cbn; lia.
      + injection Ht as <-. cbn; lia.
    - injection Ht as <-. cbn; lia. }
  intros H. destruct (category_alerts_result _ _ _ _ H) as (extra & -> & Hlen).
  rewrite length_app. subst cats.
  apply (Nat.add_le_mono _ _ _ _ Hfirst Hlen).
Qed.

Lemma category_alerts_zero cats spending c info spent : forall alerts,
  In (c, info) cats ->
  PyDict.get c spending = Some spent ->
  (Budget.amount info == 0)%Q ->
  Budget.category_alerts format_1f cats spending alerts = None.
Proof.
  induction cats as [| [c' info'] cats IH]; intros alerts Hin Hspent Hzero;
    [destruct Hin |].
  cbn [Budget.category_alerts]. destruct Hin as [Heq | Hin].
  - injection Heq as -> ->. rewrite Hspent. unfold Budget.percentage_of.
    now rewrite (proj2 (Qeq_bool_iff _ _) Hzero).
  - destruct (PyDict.get c' spending) as [spent' |]; [| now apply IH].
    destruct (Budget.percentage_of spent' (Budget.amount info')) as [p |];
      [now apply IH | reflexivity].
Qed.

(** X23. A total budget of zero makes the call raise as soon as the reported
    total spending is positive, and so does a category budget of zero,
    wherever it stands among the user's categories, when its category is
    among the reported spending. *)
Theorem zero_budget_raises b user_id spending :
  (forall tb spent,
      Budget.total (Budget.get_all_budgets b user_id) = Some tb ->
      PyDict.get "total" spending = Some spent ->
      (Budget.amount tb == 0)%Q -> (0 < spent)%Q ->
      Budget.check_budget_alerts format_1f b user_id spending = None)
  /\ (forall cats c info spent,
        Budget.categories (Budget.get_all_budgets b user_id) = Some cats ->
        In (c, info) cats ->
        PyDict.get c spending = Some spent ->
        (Budget.amount info == 0)%Q ->
        Budget.check_budget_alerts format_1f b user_id spending = None).
Proof.
  split.
  - intros tb spent Htb Hspent Hzero Hpos. unfold Budget.check_budget_alerts.
    rewrite Htb, Hspent. rewrite (proj2 (positive_iff spent) Hpos).
    unfold Budget.percentage_of. now rewrite (proj2 (Qeq_bool_iff _ _) Hzero).
  - intros cats c info spent Hcats Hin Hspent Hzero.
    unfold Budget.check_budget_alerts. rewrite Hcats.
    match goal with
    | |- match ?t with _ => _ end = None => destruct t as [alerts |]
    end; [| reflexivity].
    now apply (category_alerts_zero cats spending c info spent).
Qed.

Lemma alert_quiet p :
  (p < 75)%Q -> Qle_bool 90 p = false /\ Qle_bool 75 p = false.
Proof. intros H. split; apply Qle_bool_false; lra. Qed.

Lemma nonzero_budget q : ~ (q == 0)%Q -> Qeq_bool q 0 = false.
Proof.
  intros H. destruct (Qeq_bool q 0) eqn:E; [| reflexivity].
  apply Qeq_bool_iff in E. contradiction.
Qed.

Lemma category_alerts_quiet cats spending : forall alerts,
  (forall c info spent,
      In (c, info) cats -> PyDict.get c spending = Some spent ->
      ~ (Budget.amount info == 0)%Q
      /\ (float_mul (float_div spent (Budget.amount info)) 100 < 75)%Q) ->
  Budget.category_alerts format_1f cats spending alerts = Some alerts.
Proof.
  induction cats as [| [c info] cats IH]; intros alerts H; cbn; [reflexivity |].
  destruct (PyDict.get c spending) as [spent |] eqn:Hs.
  - destruct (H c info spent (or_introl eq_refl) Hs) as [Hpos Hlow].
    unfold Budget.percentage_of. rewrite (nonzero_budget _ Hpos).
    unfold Budget.category_alert.
    destruct (alert_quiet _ Hlow) as [-> ->].
    rewrite app_nil_r. apply IH. intros c' i' s' Hin. apply H. now right.
  - apply IH. intros c' i' s' Hin. apply H. now right.
Qed.

(** X24. No alert is raised when every percentage the call computes, the
    float quotient of the spending and the budget times 100 as the
    operations on doubles give it, is below 75: that of the total budget
    when the reported total spending is positive, and that of each category
    budget whose category is among the reported spending. *)
Theorem no_alert_below_three_quarters b user_id spending :
  (forall tb spent,
      Budget.total (Budget.get_all_budgets b user_id) = Some tb ->
      PyDict.get "total" spending = Some spent ->
      (0 < spent)%Q ->
      ~ (Budget.amount tb == 0)%Q
      /\ (float_mul (float_div spent (Budget.amount tb)) 100 < 75)%Q) ->
  (forall cats c info spent,
      Budget.categories (Budget.get_all_budgets b user_id) = Some cats ->
      In (c, info) cats -> PyDict.get c spending = Some spent ->
      ~ (Budget.amount info == 0)%Q
      /\ (float_mul (float_div spent (Budget.amount info)) 100 < 75)%Q) ->
  Budget.check_budget_alerts format_1f b user_id spending = Some [].
Proof.
  intros Htotal Hcats. unfold Budget.check_budget_alerts.
  assert (Hfirst :
            match Budget.total (Budget.get_all_budgets b user_id) with
            | Some total_budget =>
                if positive (match PyDict.get "total" spending with
                             | Some s => s
                             | None => 0%Q
                             end)
                then
                  match Budget.percentage_of
                          (match PyDict.get "total" spending with
                           | Some s => s
                           | None => 0%Q
                           end) (Budget.amount total_budget) with
                  | Some percentage =>
                      Some (Budget.total_alert format_1f percentage
                              (match PyDict.get "total" spending with
                               | Some s => s
                               | None => 0%Q
                               end) (Budget.amount total_budget))
                  | None => None
                  end
                else Some []
            | None => Some []
            end = Some []).
  { destruct (Budget.total (Budget.get_all_budgets b user_id)) as [tb |];
      [| reflexivity].
    destruct (PyDict.get "total" spending) as [spent |] eqn:Hs; [| reflexivity].
    destruct (positive spent) eqn:Hp; [| reflexivity].
    destruct (Htotal tb spent eq_refl eq_refl (proj1 (positive_iff spent) Hp))
      as [Hpos Hlow].
    unfold Budget.percentage_of. rewrite (nonzero_budget _ Hpos).
    unfold Budget.total_alert.
    destruct (alert_quiet _ Hlow) as [-> ->]. reflexivity. }
  rewrite Hfirst. apply category_alerts_quiet.
  intros c info spent Hin Hs.
  destruct (Budget.categories (Budget.get_all_budgets b user_id)) as [cats |];
    [| destruct Hin].
  now apply (Hcats cats c info spent).
Qed.

End BudgetProperties.

Lemma budget_set_then_get_witness :
  Budget.get_budget BudgetExamples.budgets_of_42 "42" (Some "transport")
  = Some {| Budget.amount := Qmake 0 1; Budget.period := "monthly";
            Budget.created := "2024-01-01T09:02:00" |}.
Proof.
  apply (proj1 (budget_set_then_get _ "42" "transport" (Qmake 0 1) "monthly"
                  "2024-01-01T09:02:00")).
  discriminate.
Defined.

Lemma empty_category_reads_total_witness :
  Budget.get_budget
    (Budget.set_budget [] "7" "" (Qmake 300 1) "monthly" "2024-01-01T09:00:00")
    "7" (Some "") = None.
Proof.
  apply (proj2 (empty_category_reads_total [] "7" (Qmake 300 1) "monthly"
                  "2024-01-01T09:00:00")).
  reflexivity.
Defined.

Lemma set_budget_keeps_the_rest_witness :
  Budget.get_budget BudgetExamples.budgets_of_42 "42" (Some "food")
  = Some {| Budget.amount := Qmake 400 1; Budget.period := "monthly";
            Budget.created := "2024-01-01T09:01:00" |}.
Proof.
  unfold BudgetExamples.budgets_of_42.
  rewrite (proj1 (set_budget_keeps_the_rest _ "42" "transport" (Qmake 0 1) "monthly"
                    "2024-01-01T09:02:00" "42" "food"));
    [reflexivity | right; discriminate].
Defined.

Lemma set_total_budget_keeps_the_rest_witness :
  Budget.get_budget
    (Budget.set_total_budget BudgetExamples.budgets_of_42 "42" (Qmake 2000 1)
       "monthly" "2024-02-01T09:00:00") "42" (Some "food")
  = Budget.get_budget BudgetExamples.budgets_of_42 "42" (Some "food").
Proof.
  apply (proj1 (set_total_budget_keeps_the_rest BudgetExamples.budgets_of_42 "42"
                  (Qmake 2000 1) "monthly" "2024-02-01T09:00:00" "42" "food")).
  discriminate.
Defined.

Lemma budget_alerts_bounded_witness :
  exists alerts,
    @Budget.check_budget_alerts Instances.reference BudgetExamples.one_decimal
      BudgetExamples.budgets_of_42 "42"
      [("total", Qmake 1400 1); ("food", Qmake 310 1)] = Some alerts
    /\ List.length alerts = 2
    /\ List.length alerts <= 1 + 2.
Proof.
  eexists. split; [vm_compute; reflexivity |]. split; [reflexivity |].
  apply (@budget_alerts_bounded Instances.reference BudgetExamples.one_decimal
           BudgetExamples.budgets_of_42 "42"
           [("total", Qmake 1400 1); ("food", Qmake 310 1)]).
  vm_compute; reflexivity.
Defined.

Lemma zero_budget_raises_witness :
  @Budget.check_budget_alerts Instances.reference BudgetExamples.one_decimal
    (Budget.set_total_budget [] "7" 0%Q "monthly" "2024-01-01T09:00:00") "7"
    [("total", Qmake 50 1)] = None
  /\ @Budget.check_budget_alerts Instances.reference BudgetExamples.one_decimal
       BudgetExamples.budgets_of_42 "42"
       [("total", Qmake 300 1); ("food", Qmake 100 1); ("transport", Qmake 20 1)]
     = None.
Proof.
  split.
  - apply (proj1 (@zero_budget_raises Instances.reference BudgetExamples.one_decimal
                    _ "7" [("total", Qmake 50 1)])
                 {| Budget.amount := 0%Q; Budget.period := "monthly";
                    Budget.created := "2024-01-01T09:00:00" |} (Qmake 50 1));
      vm_compute; reflexivity.
  - apply (proj2 (@zero_budget_raises Instances.reference BudgetExamples.one_decimal
                    BudgetExamples.budgets_of_42 "42"
                    [("total", Qmake 300 1); ("food", Qmake 100 1);
                     ("transport", Qmake 20 1)])
                 [("food", {| Budget.amount := Qmake 400 1; Budget.period := "monthly";
                              Budget.created := "2024-01-01T09:01:00" |});
                  ("transport", {| Budget.amount := Qmake 0 1;
                                   Budget.period := "monthly";
                                   Budget.created := "2024-01-01T09:02:00" |})]
                 "transport"
                 {| Budget.amount := Qmake 0 1; Budget.period := "monthly";
                    Budget.created := "2024-01-01T09:02:00" |}
                 (Qmake 20 1)).
    + vm_compute; reflexivity.
    + right. left. reflexivity.
    + vm_compute; reflexivity.
    + vm_compute; reflexivity.
Defined.

Lemma no_alert_below_three_quarters_witness :
  @Budget.check_budget_alerts Instances.reference BudgetExamples.one_decimal
    (Budget.set_budget
       (Budget.set_total_budget [] "7" (Qmake 1000 1) "monthly" "2024-01-01T09:00:00")
       "7" "food" (Qmake 400 1) "monthly" "2024-01-01T09:01:00")
    "7" [("total", Qmake 700 1); ("food", Qmake 200 1)] = Some [].
Proof.
  apply (@no_alert_below_three_quarters Instances.reference BudgetExamples.one_decimal).
  - intros tb spent Htb Hs _. vm_compute in Htb, Hs.
    injection Htb as <-. injection Hs as <-.
    split; [vm_compute; discriminate | vm_compute; reflexivity].
  - intros cats c info spent Hc Hin Hs. vm_compute in Hc. injection Hc as <-.
    destruct Hin as [Heq | []]. injection Heq as <- <-.
    vm_compute in Hs. injection Hs as <-.
    split; [vm_compute; discriminate | vm_compute; reflexivity].
Defined.

(** * Properties of [classify_category] *)
Section CategoryProperties.

Lemma lower_app a b : PyStr.lower (a ++ b) = (PyStr.lower a ++ PyStr.lower b)%string.
Proof. induction a as [| c a IH]; cbn; [reflexivity | now rewrite IH]. Qed.

Lemma startswith_app p s t :
  PyStr.startswith p s = true -> PyStr.startswith p (s ++ t) = true.
Proof.
  revert s. induction p as [| a p IH]; intros s; [reflexivity |].
  destruct s as [| b s]; cbn; [discriminate |].
  intros H. apply andb_true_iff in H. destruct H as [-> H]. now apply IH.
Qed.

Lemma contains_app_l sub s t :
  PyStr.contains sub s = true -> PyStr.contains sub (s ++ t) = true.
Proof.
  induction s as [| c s IH].
  - cbn. rewrite orb_false_r. intros H. destruct sub; [| discriminate H].
    destruct t; reflexivity.
  - cbn [PyStr.contains append]. intros H. apply orb_true_iff in H.
    apply orb_true_iff. destruct H as [H | H].
    + left. now apply (startswith_app sub (String c s) t).
    + right. now apply IH.
Qed.

Lemma contains_app_r sub s t :
  PyStr.contains sub t = true -> PyStr.contains sub (s ++ t) = true.
Proof.
  intros H. induction s as [| c s IH]; [exact H |].
  cbn [PyStr.contains append]. rewrite IH. apply orb_true_r.
Qed.

Lemma any_word_in_either words text merchant :
  any_word words (PyStr.lower text) = true
  \/ any_word words (PyStr.lower merchant) = true ->
  any_word words (PyStr.lower (text ++ " " ++ merchant)) = true.
Proof.
  unfold any_word. rewrite !existsb_exists, !lower_app.
  intros [(w & Hw & Hc) | (w & Hw & Hc)]; exists w; (split; [exact Hw |]).
  - now apply contains_app_l.
  - apply contains_app_r. now apply contains_app_r.
Qed.

(** X25. A food or dining word in the receipt text or in the merchant name, in
    any letter case, gives [Food & Dining] whatever else the two contain;
    and the category is [General] exactly when none of the words of the six
    lists occurs in the two joined by a space. *)
Theorem category_by_keyword text merchant :
  (any_word food_words (PyStr.lower text) = true
   \/ any_word food_words (PyStr.lower merchant) = true ->
   classify_category text merchant = "Food & Dining")
  /\ (classify_category text merchant = "General" <->
      forall words,
        In words [food_words; grocery_words; transport_words; shopping_words;
                  entertainment_words; health_words] ->
        any_word words (PyStr.lower (text ++ " " ++ merchant)) = false).
Proof.
  unfold classify_category. split.
  - intros H. now rewrite (any_word_in_either food_words text merchant H).
  - set (t := PyStr.lower (text ++ " " ++ merchant)).
    destruct (any_word food_words t) eqn:E1.
    { split; [discriminate |]. intros H.
      rewrite (H food_words (or_introl eq_refl)) in E1. discriminate. }
    destruct (any_word grocery_words t) eqn:E2.
    { split; [discriminate |]. intros H.
      rewrite (H grocery_words (or_intror (or_introl eq_refl))) in E2. discriminate. }
    destruct (any_word transport_words t) eqn:E3.
    { split; [discriminate |]. intros H.
      rewrite (H transport_words (or_intror (or_intror (or_introl eq_refl)))) in E3.
      discriminate. }
    destruct (any_word shopping_words t) eqn:E4.
    { split; [discriminate |]. intros H.
      rewrite (H shopping_words
                 (or_intror (or_intror (or_intror (or_introl eq_refl))))) in E4.
      discriminate. }
    destruct (any_word entertainment_words t) eqn:E5.
    { split; [discriminate |]. intros H.
      rewrite (H entertainment_words
                 (or_intror (or_intror (or_intror (or_intror (or_introl eq_refl))))))
        in E5.
      discriminate. }
    destruct (any_word health_words t) eqn:E6.
    { split; [discriminate |]. intros H.
      rewrite (H health_words
                 (or_intror (or_intror (or_intror (or_intror
                    (or_intror (or_introl eq_refl))))))) in E6.
      discriminate. }
    split; [| reflexivity]. intros _ words Hin.
    destruct Hin as [<- | [<- | [<- | [<- | [<- | [<- | []]]]]]]; assumption.
Qed.

(** X26. The category does not depend on the letter case of the text or of the
    merchant name. *)
Theorem category_ignores_case text merchant text' merchant' :
  PyStr.lower text = PyStr.lower text' ->
  PyStr.lower merchant = PyStr.lower merchant' ->
  classify_category text merchant = classify_category text' merchant'.
Proof.
  intros Ht Hm. unfold classify_category.
  rewrite !lower_app, Ht, Hm. reflexivity.
Qed.

End CategoryProperties.

Lemma category_by_keyword_witness :
  classify_category "SHELL SELECT  1 x BURGER 120.00  TOTAL 120.00" "Shell Station"
  = "Food & Dining".
Proof.
  apply (proj1 (category_by_keyword _ _)). left. vm_compute. reflexivity.
Defined.

Lemma category_ignores_case_witness :
  classify_category "Mercury Drug PHARMACY" "MERCURY"
  = classify_category "mercury drug pharmacy" "Mercury".
Proof. apply category_ignores_case; reflexivity. Defined.
